(** * scanner-winning: the metric engine, the classifier and the ledger store

    A shallow embedding of [scanner_bot.py] and [portfolio_manager.py].

    Conventions of the embedding.
    - A float is a value of [fnum]: an exact rational for a finite value, and
      the three non-finite values of IEEE arithmetic.  Rounding error of binary
      floating point is not modelled, signed zeros are identified.
    - A pandas [Series] is a list; a [DataFrame] is the list of its rows, the
      row label being the position (a [RangeIndex]).
    - The [Portfolios] directory is a finite map from file path to file
      content, the rows as [to_csv] wrote them; a file that [pd.read_csv]
      cannot parse is [Corrupt].  Reading a file turns every text cell that
      is one of pandas' NA markers (the empty cell, NA, NULL, NaN, ...) into
      NaN; a number is read back as it was written.  The type inference of
      [pd.read_csv] on a text column whose cells are all numerals or all
      booleans is not modelled: what is proved of a text that is read back
      is stated for the texts [pandas.reads_back] accepts.
    - A Python exception is [None] in the option monad; [try]/[except] is a
      [match] on the option.
    - Yahoo Finance is a function from ticker symbol to a [Ticker], whose
      attribute accesses may each fail. *)

From Stdlib Require Import QArith Qcanon Qround ZArith Lia Lqa Ascii.
From stdpp Require Import base option list strings gmap fin_maps numbers sorting pretty.

(** ** Part I. Definitions *)

(** *** Numbers *)

Module Num.

Inductive fnum : Type :=
| Fin (q : Qc)
| PInf
| NInf
| NaN.

Definition zq (z : Z) : Qc := Q2Qc (inject_Z z).

(** A float literal with an integral value, such as [100] or [0.0]. *)
Definition F (z : Z) : fnum := Fin (zq z).

Definition Qc_ltb (a b : Qc) : bool := bool_decide (Qclt a b).
Definition Qc_leb (a b : Qc) : bool := bool_decide (Qcle a b).
Definition Qc_eqb (a b : Qc) : bool := bool_decide (a = b).
Definition Qc_max (a b : Qc) : Qc := if Qc_leb a b then b else a.

(** [pd.isna] on a scalar. *)
Definition isna (x : fnum) : bool :=
  match x with NaN => true | _ => false end.

(** Comparisons: every comparison with NaN is false. *)
Definition fltb (x y : fnum) : bool :=
  match x, y with
  | NaN, _ | _, NaN => false
  | Fin a, Fin b => Qc_ltb a b
  | _, NInf => false
  | NInf, _ => true
  | PInf, _ => false
  | _, PInf => true
  end.

Definition fleb (x y : fnum) : bool :=
  match x, y with
  | NaN, _ | _, NaN => false
  | Fin a, Fin b => Qc_leb a b
  | NInf, _ => true
  | _, PInf => true
  | _, NInf => false
  | PInf, _ => false
  end.

Definition fgtb (x y : fnum) : bool := fltb y x.
Definition fgeb (x y : fnum) : bool := fleb y x.

(** Truth value of a float: only zero is falsy (NaN is truthy). *)
Definition nonzero (x : fnum) : bool :=
  match x with Fin q => negb (Qc_eqb q (zq 0)) | _ => true end.

Definition fneg (x : fnum) : fnum :=
  match x with
  | Fin q => Fin (- q)
  | PInf => NInf
  | NInf => PInf
  | NaN => NaN
  end.

Definition fadd (x y : fnum) : fnum :=
  match x, y with
  | NaN, _ | _, NaN => NaN
  | Fin a, Fin b => Fin (a + b)
  | PInf, NInf | NInf, PInf => NaN
  | PInf, _ | _, PInf => PInf
  | NInf, _ | _, NInf => NInf
  end.

Definition fsub (x y : fnum) : fnum := fadd x (fneg y).

(** The infinity whose sign is that of [s * q], NaN when [q] is zero. *)
Definition inf_times (positive : bool) (q : Qc) : fnum :=
  if Qc_eqb q (zq 0) then NaN
  else if xorb positive (Qc_ltb q (zq 0)) then PInf else NInf.

Definition fmul (x y : fnum) : fnum :=
  match x, y with
  | NaN, _ | _, NaN => NaN
  | Fin a, Fin b => Fin (a * b)
  | PInf, Fin b => inf_times true b
  | NInf, Fin b => inf_times false b
  | Fin a, PInf => inf_times true a
  | Fin a, NInf => inf_times false a
  | PInf, PInf | NInf, NInf => PInf
  | PInf, NInf | NInf, PInf => NInf
  end.

(** IEEE division, as NumPy scalars and pandas Series do it: a zero
    denominator gives an infinity or NaN (with a warning), never an
    exception. *)
Definition fdiv (x y : fnum) : fnum :=
  match x, y with
  | NaN, _ | _, NaN => NaN
  | Fin a, Fin b =>
      if Qc_eqb b (zq 0) then
        if Qc_ltb (zq 0) a then PInf
        else if Qc_ltb a (zq 0) then NInf
        else NaN
      else Fin (a / b)
  | Fin _, (PInf | NInf) => F 0
  | PInf, Fin b => if Qc_ltb b (zq 0) then NInf else PInf
  | NInf, Fin b => if Qc_ltb b (zq 0) then PInf else NInf
  | (PInf | NInf), (PInf | NInf) => NaN
  end.

(** Division of built-in Python floats: a zero denominator raises
    [ZeroDivisionError]. *)
Definition py_div (x y : fnum) : option fnum :=
  if nonzero y then Some (fdiv x y) else None.

(** Round half to even, to an integer. *)
Definition round_half_even (q : Qc) : Z :=
  let f := Qfloor q in
  let r := (q - zq f)%Qc in
  let half := Q2Qc (1 # 2) in
  if Qc_ltb r half then f
  else if Qc_ltb half r then (f + 1)%Z
  else if Z.even f then f else (f + 1)%Z.

(** [round(x, ndigits)] on a float; the non-finite values are returned
    unchanged. *)
Definition py_round (x : fnum) (ndigits : nat) : fnum :=
  match x with
  | Fin q =>
      let scale := zq (10 ^ Z.of_nat ndigits) in
      Fin (zq (round_half_even (q * scale)) / scale)
  | _ => x
  end.

#[global] Instance fnum_eq_dec : EqDecision fnum.
Proof. solve_decision. Defined.

End Num.

(** *** The interpreter *)

Module python.

(** The exit status of a script: 0 when its entry point returns ([Some]),
    1 when an exception escapes ([None]).  Neither script calls
    [sys.exit]. *)
Definition exit_status {A : Type} (run : option A) : Z :=
  match run with Some _ => 0 | None => 1 end.

End python.

(** *** The pandas operations the two scripts use *)

Module pandas.
Import Num.

(** [df.empty], [series.empty]. *)
Definition empty {A : Type} (df : list A) : bool :=
  match df with [] => true | _ => false end.

(** [s.iloc[i]], negative positions counting from the end; out of range is
    an [IndexError]. *)
Definition iloc {A : Type} (s : list A) (i : Z) : option A :=
  let n := Z.of_nat (length s) in
  if (i <? 0)%Z then
    if (n + i <? 0)%Z then None else s !! Z.to_nat (n + i)
  else s !! Z.to_nat i.

(** [s.diff()]: the first element has no predecessor and is NaN. *)
Definition diff (s : list fnum) : list fnum :=
  match s with
  | [] => []
  | _ :: t => NaN :: zip_with fsub t s
  end.

(** [s.where(cond, other)]: keep the element where [cond] holds. *)
Definition where_ (cond : fnum → bool) (other : fnum) (s : list fnum) : list fnum :=
  (λ x, if cond x then x else other) <$> s.

(** Mean of one full window. *)
Definition window_mean (w : list fnum) : fnum :=
  fdiv (foldr fadd (F 0) w) (F (Z.of_nat (length w))).

(** [s.rolling(window=n).mean()]: NaN until [n] observations are there,
    then the mean of the last [n]. *)
Definition rolling_mean (n : nat) (s : list fnum) : list fnum :=
  imap (λ i _, if (i + 1 <? n)%nat then NaN
               else window_mean (take n (drop (i + 1 - n) s))) s.

(** [s.sum()] with the default [skipna=True]. *)
Definition sum (s : list fnum) : fnum :=
  foldr fadd (F 0) (filter (λ x, isna x = false) s).

(** The labels of the rows of [df] selected by a boolean mask, as in
    [df[mask].index]. *)
Definition mask_index {A : Type} (mask : A → bool) (df : list A) : list nat :=
  (filter (λ ir, mask ir.2 = true) (imap pair df)).*1.

(** [col.loc[index] = value] on one column. *)
Definition loc_set {A : Type} (index : list nat) (value : A) (col : list A) : list A :=
  foldl (λ c i, <[i := value]> c) col index.

(** The texts [pd.read_csv] reads as a missing value, its default
    [na_values] (pandas 2). *)
Definition na_values : list string :=
  [""; "#N/A"; "#N/A N/A"; "#NA"; "-1.#IND"; "-1.#QNAN"; "-NaN"; "-nan"; "1.#IND";
   "1.#QNAN"; "<NA>"; "N/A"; "NA"; "NULL"; "NaN"; "None"; "n/a"; "nan"; "null"].

(** A cell of a text column as [pd.read_csv] loads it.  One of the
    [na_values] is loaded as NaN, which is no text.  NaN is written [""]
    here: it is the text [to_csv] writes for NaN, and no text that is
    loaded is empty, the empty cell being an NA marker itself. *)
Definition read_text (t : string) : string :=
  if decide (t ∈ na_values) then "" else t.

(** [cell == text] on a cell of a loaded text column: NaN equals no
    text. *)
Definition text_eq (c text : string) : Prop := c ≠ "" ∧ c = text.

#[global] Instance text_eq_dec c text : Decision (text_eq c text).
Proof. unfold text_eq. apply _. Defined.

Definition is_letter (c : ascii) : bool :=
  let n := nat_of_ascii c in
  ((65 <=? n) && (n <=? 90) || (97 <=? n) && (n <=? 122))%nat.

Definition lower (c : ascii) : ascii :=
  let n := nat_of_ascii c in
  if ((65 <=? n) && (n <=? 90))%nat then ascii_of_nat (n + 32) else c.

Fixpoint lower_text (t : string) : string :=
  match t with
  | EmptyString => EmptyString
  | String c rest => String (lower c) (lower_text rest)
  end.

(** The words that [pd.read_csv] reads, in some spelling, as a missing
    value, as an infinity or as a boolean. *)
Definition reserved_words : list string :=
  ["na"; "n/a"; "nan"; "null"; "none"; "inf"; "infinity"; "true"; "false"].

(** A sufficient test for a text to be read back from a CSV file as the
    text that was written, whatever the other cells of its column are: it
    starts with a letter, so that it is no numeral, and in lower case it is
    none of the [reserved_words]. *)
Definition reads_back (t : string) : bool :=
  match t with
  | EmptyString => false
  | String c _ => is_letter c && negb (bool_decide (lower_text t ∈ reserved_words))
  end.

End pandas.

(** *** What Yahoo Finance returns *)

Module yfinance.
Import Num.

(** A value found in the [info] dictionary. *)
Inductive pyval : Type :=
| PyNone
| PyNum (x : fnum).

(** [bool(v)]. *)
Definition truthy (v : pyval) : bool :=
  match v with PyNone => false | PyNum x => nonzero x end.

(** The keys of [ticker.info] the scripts read for prices; [None] is a
    missing key. *)
Record Info : Type := {
  currentPrice : option pyval;
  regularMarketPrice : option pyval;
  regularMarketChangePercent : option pyval
}.

(** [d.get(key, default)]. *)
Definition dict_get (entry : option pyval) (default : pyval) : pyval :=
  match entry with Some v => v | None => default end.

Record Date : Type := { year : Z; month : Z; day : Z }.

Definition date_geb (a b : Date) : bool :=
  ((year b <? year a)
   || ((year a =? year b) && ((month b <? month a)
       || ((month a =? month b) && (day b <=? day a)))))%Z.

(** One daily bar of [ticker.history]; prices are finite. *)
Record Bar : Type := { bar_date : Date; bar_open : Qc; bar_close : Qc }.

(** A ticker: every attribute access may raise ([None]). *)
Record Ticker : Type := {
  info : option Info;
  history : option (list Bar);
  fast_info_last_price : option pyval
}.

End yfinance.

(** *** Rows of the scan and of the ledger *)

Module frames.
Import Num.

(** A cell that holds a number or a text. *)
Inductive cell : Type :=
| Num (x : fnum)
| Str (s : string).

(** The dictionary [get_stock_data] returns.  The columns that only pass
    fundamentals through for display (volume, market cap, PE, EPS, beta,
    52-week range, target) are left out. *)
Record MetricRow : Type := {
  Symbol : string;
  Price : fnum;
  Change_pct : fnum;
  RSI_14 : cell;
  Weekly_Ret : fnum;
  Monthly_Ret : fnum;
  YTD_Ret : fnum;
  Ret_52W : fnum
}.

(** A row of the scan once the [List] column is added. *)
Record ScanRow : Type := { metrics : MetricRow; List_ : string }.

(** A row of a daily portfolio file. *)
Record LedgerEntry : Type := {
  e_Date : string;
  e_Symbol : string;
  e_List : string;
  Entry_Price : fnum;
  Quantity : fnum;
  Initial_Value : fnum;
  Current_Price : fnum;
  Current_Value : fnum;
  Return_pct : fnum
}.

(** What is stored under a path of the [Portfolios] directory. *)
Inductive FileContent : Type :=
| Corrupt
| Rows (rows : list LedgerEntry).

#[global] Instance cell_eq_dec : EqDecision cell.
Proof. solve_decision. Defined.
#[global] Instance MetricRow_eq_dec : EqDecision MetricRow.
Proof. solve_decision. Defined.
#[global] Instance ScanRow_eq_dec : EqDecision ScanRow.
Proof. solve_decision. Defined.
#[global] Instance LedgerEntry_eq_dec : EqDecision LedgerEntry.
Proof. solve_decision. Defined.
#[global] Instance FileContent_eq_dec : EqDecision FileContent.
Proof. solve_decision. Defined.

End frames.

(** *** portfolio_manager.py *)

Module portfolio_manager.
Import Num yfinance frames.

Definition PORTFOLIOS_DIR : string := "Portfolios".
Definition CAPITAL_PER_TRADE : fnum := F 1000.

(** The [Portfolio_*.csv] files of the [Portfolios] directory, by path. *)
Abbreviation Store := (gmap string FileContent).

(** [today] is [datetime.datetime.now().strftime('%Y-%m-%d')]. *)
Definition get_todays_portfolio_path (today : string) : string :=
  PORTFOLIOS_DIR +:+ "/" +:+ "Portfolio_" +:+ today +:+ ".csv".

(** [df.to_csv(filepath, index=False)]: a NaN cell is written as the empty
    text. *)
Definition save_portfolio (df : list LedgerEntry) (filepath : string) (fs : Store) : Store :=
  <[filepath := Rows df]> fs.

(** A row of a file as [pd.read_csv] loads it: the cells of the three text
    columns go through [pandas.read_text], the numbers are read back as
    written. *)
Definition read_row (e : LedgerEntry) : LedgerEntry :=
  {| e_Date := pandas.read_text (e_Date e);
     e_Symbol := pandas.read_text (e_Symbol e);
     e_List := pandas.read_text (e_List e);
     Entry_Price := Entry_Price e;
     Quantity := Quantity e;
     Initial_Value := Initial_Value e;
     Current_Price := Current_Price e;
     Current_Value := Current_Value e;
     Return_pct := Return_pct e |}.

(** [pd.read_csv(filepath)] on a file that exists. *)
Definition read_csv (fs : Store) (filepath : string) : option (list LedgerEntry) :=
  match fs !! filepath with
  | Some (Rows rows) => Some (read_row <$> rows)
  | _ => None
  end.

Definition focus_lists : list string := ["Simmering Growth"; "Rockets"; "Turnarounds"].

(** What [add_new_positions] prints at its end. *)
Inductive AddReport : Type :=
| NoNewStocks
| Saved (n : nat)
| NoNewPositions.

(** The number of positions a call reports as added. *)
Definition added (r : AddReport) : nat :=
  match r with Saved n => n | _ => 0 end.

(** The body of the [for _, row in targets.iterrows()] loop, lines 56-86.
    [price] is positive where the quotient is formed, so the division
    cannot raise.  [portfolio] is the loaded file: a [Symbol] cell that was
    read as NaN equals no symbol. *)
Fixpoint add_loop (today : string) (portfolio : list LedgerEntry)
    (targets : list ScanRow) (new_entries : list LedgerEntry) : list LedgerEntry :=
  match targets with
  | [] => new_entries
  | row :: rest =>
      let symbol := Symbol (metrics row) in
      let price := Price (metrics row) in
      let list_name := List_ row in
      if isna price || fleb price (F 0) then
        add_loop today portfolio rest new_entries
      else
        let quantity := fdiv CAPITAL_PER_TRADE price in
        let initial_value := fmul quantity price in
        if negb (pandas.empty portfolio)
           && negb (pandas.empty
                      (filter (λ e, pandas.text_eq (e_Symbol e) symbol) portfolio)) then
          add_loop today portfolio rest new_entries
        else
          let entry :=
            {| e_Date := today;
               e_Symbol := symbol;
               e_List := list_name;
               Entry_Price := py_round price 2;
               Quantity := py_round quantity 4;
               Initial_Value := py_round initial_value 2;
               Current_Price := py_round price 2;
               Current_Value := py_round initial_value 2;
               Return_pct := F 0 |} in
          add_loop today portfolio rest (new_entries ++ [entry])
  end.

(** The dictionary of lines 74-84, as a function of the row it is built
    for; used to state what the loop appends. *)
Definition entry_of (today : string) (row : ScanRow) : LedgerEntry :=
  let price := Price (metrics row) in
  let quantity := fdiv CAPITAL_PER_TRADE price in
  {| e_Date := today;
     e_Symbol := Symbol (metrics row);
     e_List := List_ row;
     Entry_Price := py_round price 2;
     Quantity := py_round quantity 4;
     Initial_Value := py_round (fmul quantity price) 2;
     Current_Price := py_round price 2;
     Current_Value := py_round (fmul quantity price) 2;
     Return_pct := F 0 |}.

(** The test of line 61 lets the row through. *)
Definition usable (row : ScanRow) : Prop :=
  isna (Price (metrics row)) || fleb (Price (metrics row)) (F 0) = false.

(** [add_new_positions(daily_scan_df)]: the new directory content and the
    final message; [None] when [pd.read_csv] raises on today's file. *)
Definition add_new_positions (today : string) (fs : Store) (daily_scan_df : list ScanRow)
    : option (Store * AddReport) :=
  let filepath := get_todays_portfolio_path today in
  if pandas.empty daily_scan_df then Some (fs, NoNewStocks)
  else
    portfolio ← (if decide (is_Some (fs !! filepath)) then read_csv fs filepath
                 else Some []);
    let targets := filter (λ r, List_ r ∈ focus_lists) daily_scan_df in
    let new_entries := add_loop today portfolio targets [] in
    if negb (pandas.empty new_entries) then
      let portfolio := portfolio ++ new_entries in
      Some (save_portfolio portfolio filepath fs, Saved (length new_entries))
    else Some (fs, NoNewPositions).

(** [yf.Ticker(symbol)] on the [Symbol] cell of a loaded row: the
    constructor calls [symbol.upper()], which raises on a NaN cell. *)
Definition Ticker_of (yf : string → Ticker) (symbol : string) : option Ticker :=
  if decide (symbol = "") then None else Some (yf symbol).

(** Lines 123-126: the fresh price of the symbol of a loaded row. *)
Definition fetch_price (yf : string → Ticker) (symbol : string) : option pyval :=
  ticker ← Ticker_of yf symbol;
  price ← fast_info_last_price ticker;
  if negb (truthy price) then
    i ← info ticker;
    Some (dict_get (currentPrice i) (dict_get (regularMarketPrice i) PyNone))
  else Some price.

(** Lines 122-135, the body of the inner [try]: [None] is an exception,
    [Some None] a falsy price, [Some (Some row')] the revalued row.  The
    cells of [row] are built-in floats, so a zero [Initial Value] raises
    [ZeroDivisionError] before any cell is written. *)
Definition revalue_row (yf : string → Ticker) (row : LedgerEntry)
    : option (option LedgerEntry) :=
  let symbol := e_Symbol row in
  price ← fetch_price yf symbol;
  match price with
  | PyNum p =>
      if truthy price then
        let current_val := fmul (Quantity row) p in
        q ← py_div (fsub current_val (Initial_Value row)) (Initial_Value row);
        let roi := fmul q (F 100) in
        Some (Some {| e_Date := e_Date row;
                      e_Symbol := e_Symbol row;
                      e_List := e_List row;
                      Entry_Price := Entry_Price row;
                      Quantity := Quantity row;
                      Initial_Value := Initial_Value row;
                      Current_Price := py_round p 2;
                      Current_Value := py_round current_val 2;
                      Return_pct := py_round roi 2 |})
      else Some None
  | PyNone => Some None
  end.

(** The loop over [portfolio.iterrows()], lines 119-137, with the
    [updated] flag. *)
Fixpoint revalue_rows (yf : string → Ticker) (portfolio : list LedgerEntry)
    (updated : bool) : list LedgerEntry * bool :=
  match portfolio with
  | [] => ([], updated)
  | row :: rest =>
      match revalue_row yf row with
      | Some (Some row') =>
          let '(rest', u) := revalue_rows yf rest true in (row' :: rest', u)
      | _ =>
          let '(rest', u) := revalue_rows yf rest updated in (row :: rest', u)
      end
  end.

(** What the loop leaves in the place of a row: the revalued row, or the
    row itself when the fetch raised or gave a falsy price; used to state
    what the loop does to a file. *)
Definition revalued (yf : string → Ticker) (row : LedgerEntry) : LedgerEntry :=
  match revalue_row yf row with
  | Some (Some row') => row'
  | _ => row
  end.

(** What the loop over the files leaves of one file: a file is written
    again, from its rows as loaded, when one of them was revalued, and is
    left alone otherwise; used to state what the loop does to the
    directory. *)
Definition revalue_content (yf : string → Ticker) (c : FileContent) : FileContent :=
  match c with
  | Rows rows =>
      let portfolio := read_row <$> rows in
      if (revalue_rows yf portfolio false).2 then Rows (revalued yf <$> portfolio)
      else Rows rows
  | Corrupt => Corrupt
  end.

Record Totals : Type := { total_invested_all : fnum; total_value_all : fnum }.

(** One turn of [for filepath in sorted(files)], lines 110-147. *)
Definition update_file (yf : string → Ticker) (st : Store * Totals) (filepath : string)
    : Store * Totals :=
  let '(fs, tot) := st in
  match read_csv fs filepath with
  | Some portfolio =>
      if pandas.empty portfolio then st
      else
        let '(portfolio, updated) := revalue_rows yf portfolio false in
        let fs := if updated then save_portfolio portfolio filepath fs else fs in
        (fs, {| total_invested_all :=
                  fadd (total_invested_all tot) (pandas.sum (Initial_Value <$> portfolio));
                total_value_all :=
                  fadd (total_value_all tot) (pandas.sum (Current_Value <$> portfolio)) |})
  | None => st
  end.

(** [glob.glob(os.path.join(PORTFOLIOS_DIR, "Portfolio_*.csv"))]. *)
Definition glob (fs : Store) : list string := (map_to_list fs).*1.

(** The order of Python strings. *)
Definition path_le (a b : string) : Prop := String.leb a b = true.

#[global] Instance path_le_dec : RelDecision path_le.
Proof. intros a b. unfold path_le. apply _. Defined.

(** [sorted(files)]. *)
Definition sorted (files : list string) : list string :=
  merge_sort path_le files.

(** The three figures printed at the end of [update_portfolio_values]. *)
Record Report : Type := {
  total_invested : fnum;
  total_value : fnum;
  total_ret : fnum
}.

#[global] Instance Report_eq_dec : EqDecision Report.
Proof. solve_decision. Defined.

(** [update_portfolio_values()]: the new directory content and the grand
    total; no total is printed when the directory has no portfolio file. *)
Definition update_portfolio_values (yf : string → Ticker) (fs : Store)
    : Store * option Report :=
  let files := glob fs in
  if pandas.empty files then (fs, None)
  else
    let '(fs', tot) :=
      foldl (update_file yf) (fs, {| total_invested_all := F 0; total_value_all := F 0 |})
            (sorted files) in
    let total_ret :=
      if fgtb (total_invested_all tot) (F 0) then
        fmul (fdiv (fsub (total_value_all tot) (total_invested_all tot))
                   (total_invested_all tot)) (F 100)
      else F 0 in
    (fs', Some {| total_invested := total_invested_all tot;
                  total_value := total_value_all tot;
                  total_ret := total_ret |}).

(** [python portfolio_manager.py]: the [__main__] block; [None] would be
    an exception that escapes. *)
Definition script (yf : string → Ticker) (fs : Store) : option (Store * option Report) :=
  Some (update_portfolio_values yf fs).

End portfolio_manager.

(** *** scanner_bot.py *)

Module scanner_bot.
Import Num yfinance frames.

(** What the request for the gainers page gives the scraper: the [Symbol]
    column of the first table [pd.read_html] finds ([None] when it raises,
    finds no table, or the table has no such column), and, for the fallback,
    the stripped text of the first cell of every table row that has cells. *)
Record Page : Type := {
  read_html_symbols : option (list string);
  first_cells : list string
}.

(** [c in txt] for a one-character [c]. *)
Fixpoint has_char (c : ascii) (txt : string) : bool :=
  match txt with
  | EmptyString => false
  | String c' rest => bool_decide (c' = c) || has_char c rest
  end.

(** The test of lines 69-71 on the text of a cell; [isupper] is
    [str.isupper]. *)
Definition looks_like_symbol (isupper : string → bool) (txt : string) : bool :=
  negb (bool_decide (txt = ""))
  && (isupper txt || has_char "."%char txt)
  && (String.length txt <=? 8)%nat
  && negb (has_char " "%char txt).

(** [list(dict.fromkeys(tickers))]: a dictionary keeps its keys in the
    order of their first insertion. *)
Definition dict_fromkeys (tickers : list string) : list string :=
  foldl (λ keys k, if decide (k ∈ keys) then keys else keys ++ [k]) [] tickers.

(** [get_day_gainers_safe()]; [response] is [None] when the request
    raises. *)
Definition get_day_gainers_safe (isupper : string → bool) (response : option Page)
    : list string :=
  match response with
  | None => []
  | Some page =>
      match read_html_symbols page with
      | Some symbols => symbols
      | None =>
          let tickers := filter (λ txt, looks_like_symbol isupper txt = true)
                                (first_cells page) in
          if pandas.empty tickers then []
          else take 25 (dict_fromkeys tickers)
      end
  end.

(** Two zero-padded decimal digits. *)
Definition two_digits (n : Z) : string :=
  if (n <? 10)%Z then "0" +:+ pretty n else pretty n.

(** [f"{x:.2f}"]. *)
Definition format_2f (x : fnum) : string :=
  match x with
  | Fin q =>
      let hundredths := Z.abs (round_half_even (q * zq 100)) in
      (if Qc_ltb q (zq 0) then "-" else "")
      +:+ pretty (hundredths / 100)%Z +:+ "." +:+ two_digits (hundredths mod 100)%Z
  | PInf => "inf"
  | NInf => "-inf"
  | NaN => "nan"
  end.

(** [format_large_number(num)] on a value of the [info] dictionary. *)
Definition format_large_number (num : pyval) : string :=
  match num with
  | PyNone => "N/A"
  | PyNum x =>
      if isna x then "N/A"
      else if fgeb x (F 1000000000000) then format_2f (fdiv x (F 1000000000000)) +:+ "T"
      else if fgeb x (F 1000000000) then format_2f (fdiv x (F 1000000000)) +:+ "B"
      else if fgeb x (F 1000000) then format_2f (fdiv x (F 1000000)) +:+ "M"
      else if fgeb x (F 1000) then format_2f (fdiv x (F 1000)) +:+ "K"
      else format_2f x
  end.

(** Lines 121-123: the price the metrics are computed against. *)
Definition current_price_of (i : Info) (closes : list fnum) : option fnum :=
  let current_price :=
    dict_get (currentPrice i) (dict_get (regularMarketPrice i) (PyNum (F 0))) in
  if negb (truthy current_price) then pandas.iloc closes (-1)
  else match current_price with
       | PyNum x => Some x
       | PyNone => None
       end.

(** Lines 161-178: the 14-day RSI before it is rounded; NaN when there
    are fewer than 15 bars. *)
Definition rsi_14 (closes : list fnum) : option fnum :=
  if (15 <=? length closes)%nat then
    let delta := pandas.diff closes in
    let gain :=
      pandas.rolling_mean 14 (pandas.where_ (λ d, fgtb d (F 0)) (F 0) delta) in
    let loss :=
      pandas.rolling_mean 14 (fneg <$> pandas.where_ (λ d, fltb d (F 0)) (F 0) delta) in
    let rs := zip_with fdiv gain loss in
    x ← pandas.iloc ((λ r, fdiv (F 100) (fadd (F 1) r)) <$> rs) (-1);
    let rsi := fsub (F 100) x in
    if isna rsi then
      g ← pandas.iloc gain (-1);
      Some (if fgtb g (F 0) then F 100 else F 50)
    else Some rsi
  else Some NaN.

(** [v * 100] on a value of the [info] dictionary. *)
Definition times_100 (v : pyval) : option fnum :=
  match v with
  | PyNum x => Some (fmul x (F 100))
  | PyNone => None
  end.

(** Lines 125-200 of [get_stock_data]: the metrics of a non-empty history
    against [current_price]. *)
Definition stock_metrics (ticker_symbol : string) (i : Info) (hist : list Bar)
    (current_year : Z) (current_price : fnum) : option MetricRow :=
  let closes := (λ b, Fin (bar_close b)) <$> hist in
  weekly_return ←
    (if (6 <=? length hist)%nat then
       price_5d_ago ← pandas.iloc closes (-6);
       Some (fdiv (fsub current_price price_5d_ago) price_5d_ago)
     else Some (F 0));
  monthly_return ←
    (if (22 <=? length hist)%nat then
       price_1m_ago ← pandas.iloc closes (-22);
       Some (fdiv (fsub current_price price_1m_ago) price_1m_ago)
     else Some (F 0));
  let start_of_year := {| year := current_year; month := 1; day := 1 |} in
  let hist_ytd := filter (λ b, date_geb (bar_date b) start_of_year = true) hist in
  ytd_return ←
    (if negb (pandas.empty hist_ytd) then
       price_start_year ← pandas.iloc ((λ b, Fin (bar_open b)) <$> hist_ytd) 0;
       Some (fdiv (fsub current_price price_start_year) price_start_year)
     else Some (F 0));
  year_return ←
    (if (0 <? length hist)%nat then
       price_1y_ago ← pandas.iloc closes 0;
       Some (fdiv (fsub current_price price_1y_ago) price_1y_ago)
     else Some (F 0));
  rsi ← rsi_14 closes;
  change ← times_100 (dict_get (regularMarketChangePercent i) (PyNum (F 0)));
  Some {| Symbol := ticker_symbol;
          Price := current_price;
          Change_pct := change;
          RSI_14 := if negb (isna rsi) then Num (py_round rsi 2) else Str "N/A";
          Weekly_Ret := py_round (fmul weekly_return (F 100)) 2;
          Monthly_Ret := py_round (fmul monthly_return (F 100)) 2;
          YTD_Ret := py_round (fmul ytd_return (F 100)) 2;
          Ret_52W := py_round (fmul year_return (F 100)) 2 |}.

(** [get_stock_data(ticker_symbol)]; [None] is the Python [None], returned
    for an empty history and for every exception. *)
Definition get_stock_data (yf : string → Ticker) (current_year : Z)
    (ticker_symbol : string) : option MetricRow :=
  let ticker := yf ticker_symbol in
  i ← info ticker;
  hist ← history ticker;
  if pandas.empty hist then None
  else
    current_price ← current_price_of i ((λ b, Fin (bar_close b)) <$> hist);
    stock_metrics ticker_symbol i hist current_year current_price.

Definition is_simmering (r : MetricRow) : bool :=
  fgeb (Ret_52W r) (F 10) && fleb (Ret_52W r) (F 20) && fgtb (Monthly_Ret r) (F 5).

Definition is_rocket (r : MetricRow) : bool :=
  fgtb (Ret_52W r) (F 50) && fgtb (Monthly_Ret r) (F 10).

Definition is_turnaround (r : MetricRow) : bool :=
  fltb (Ret_52W r) (F 0) && fgtb (Monthly_Ret r) (F 10).

(** Lines 242-293 of [main]: the three filtered frames and the [List]
    column written from their indexes. *)
Definition assign_lists (df : list MetricRow) : list ScanRow :=
  let simmering := pandas.mask_index is_simmering df in
  let rockets := pandas.mask_index is_rocket df in
  let turnarounds := pandas.mask_index is_turnaround df in
  let col := replicate (length df) "Other" in
  let col :=
    if negb (pandas.empty simmering) then pandas.loc_set simmering "Simmering Growth" col
    else col in
  let col :=
    if negb (pandas.empty rockets) then pandas.loc_set rockets "Rockets" col
    else col in
  let col :=
    if negb (pandas.empty turnarounds) then pandas.loc_set turnarounds "Turnarounds" col
    else col in
  zip_with (λ r l, {| metrics := r; List_ := l |}) df col.

(** The clock readings the scan takes. *)
Record Now : Type := { today : string; current_year : Z }.

(** What a run of the scan leaves behind: the scan file when it was
    written, the portfolio directory, and the grand total when it was
    printed. *)
Record ScanResult : Type := {
  scan_csv : option (list ScanRow);
  portfolios : portfolio_manager.Store;
  totals : option portfolio_manager.Report
}.

(** [main()], with [tickers] the list [get_day_gainers_safe()] returned. *)
Definition main (tickers : list string) (yf : string → Ticker) (now : Now)
    (fs : portfolio_manager.Store) : option ScanResult :=
  if pandas.empty tickers then
    Some {| scan_csv := None; portfolios := fs; totals := None |}
  else
    let results_data := omap (get_stock_data yf (current_year now)) tickers in
    if pandas.empty results_data then
      Some {| scan_csv := None; portfolios := fs; totals := None |}
    else
      let df := assign_lists results_data in
      match portfolio_manager.add_new_positions (today now) fs df with
      | Some (fs1, _) =>
          let '(fs2, report) := portfolio_manager.update_portfolio_values yf fs1 in
          Some {| scan_csv := Some df; portfolios := fs2; totals := report |}
      | None =>
          Some {| scan_csv := Some df; portfolios := fs; totals := None |}
      end.

End scanner_bot.

(** *** The rules of the specification, for comparison with the code *)

Module specification.
Import Num yfinance frames.


(** Section 4.1: gains = max(delta, 0) and losses = max(-delta, 0) of the
    day-over-day close deltas. *)
Definition day_gains (closes : list Qc) : list Qc :=
  zip_with (λ c prev, Qc_max (c - prev) 0) (tail closes) closes.

Definition day_losses (closes : list Qc) : list Qc :=
  zip_with (λ c prev, Qc_max (- (c - prev)) 0) (tail closes) closes.

(** The simple mean of the last [n] values. *)
Definition mean_last (n : nat) (l : list Qc) : Qc :=
  (foldr Qcplus 0 (drop (length l - n) l) / zq (Z.of_nat n))%Qc.

(** The rows of every ledger file that can be read, files in path order. *)
Definition ledger_rows (fs : portfolio_manager.Store) : list LedgerEntry :=
  portfolio_manager.sorted (portfolio_manager.glob fs) ≫=
    (λ filepath, default [] (portfolio_manager.read_csv fs filepath)).

(** The duplicate test of lines 68-72 finds [symbol] in the loaded
    file. *)
Definition held (portfolio : list LedgerEntry) (symbol : string) : Prop :=
  symbol ≠ "" ∧ symbol ∈ (e_Symbol <$> portfolio).

#[global] Instance held_dec portfolio symbol : Decision (held portfolio symbol).
Proof. unfold held. apply _. Defined.

(** A return in percent as the metric engine computes it: the change of
    [current_price] against [price] by NumPy's division, times 100, rounded
    to two decimals. *)
Definition return_pct (current_price price : fnum) : fnum :=
  py_round (fmul (fdiv (fsub current_price price) price) (F 100)) 2.

(** The symbols of the rows of one day's ledger file as it is loaded, in
    file order. *)
Definition symbols_on (fs : portfolio_manager.Store) (today : string) : list string :=
  e_Symbol <$>
    default [] (portfolio_manager.read_csv fs
                  (portfolio_manager.get_todays_portfolio_path today)).

(** The fresh quote of a symbol failed: the fetch raised, or it gave no
    price (None or zero). *)
Definition fetch_failed (yf : string → Ticker) (symbol : string) : Prop :=
  match portfolio_manager.fetch_price yf symbol with
  | None => True
  | Some v => truthy v = false
  end.

(** A price entry of [info] that is missing or falsy (None or zero). *)
Definition no_price (entry : option pyval) : Prop :=
  match entry with Some v => truthy v = false | None => True end.

(** The grand total of a directory: the two column sums over its readable
    files and the return they give. *)
Definition report_of (fs : portfolio_manager.Store) : portfolio_manager.Report :=
  let invested := pandas.sum (Initial_Value <$> ledger_rows fs) in
  let value := pandas.sum (Current_Value <$> ledger_rows fs) in
  {| portfolio_manager.total_invested := invested;
     portfolio_manager.total_value := value;
     portfolio_manager.total_ret :=
       if fgtb invested (F 0)
       then fmul (fdiv (fsub value invested) invested) (F 100) else F 0 |}.

(** Every row of every readable ledger file carries one of the three
    focus lists. *)
Definition well_labelled (fs : portfolio_manager.Store) : Prop :=
  ∀ filepath rows e,
    fs !! filepath = Some (Rows rows) → e ∈ rows →
    e_List e ∈ portfolio_manager.focus_lists.

(** A relation that holds between every close and the close of the day
    after it. *)
Definition day_over_day (R : Qc → Qc → Prop) (closes : list Qc) : Prop :=
  ∀ i prev c, closes !! i = Some prev → closes !! S i = Some c → R prev c.

(** Each close is above, below, or equal to the close of the day before. *)
Definition rising (closes : list Qc) : Prop :=
  day_over_day (λ prev c, (prev < c)%Qc) closes.

Definition falling (closes : list Qc) : Prop :=
  day_over_day (λ prev c, (c < prev)%Qc) closes.

Definition flat (closes : list Qc) : Prop :=
  day_over_day (λ prev c, c = prev) closes.

End specification.

(** ** Part II. Theorems *)

Import Num yfinance frames.

(** *** Arithmetic of the number model *)

Section NumFacts.

Lemma Qc_ltb_true a b : Qc_ltb a b = true ↔ (a < b)%Qc.
Proof. unfold Qc_ltb. apply bool_decide_eq_true. Qed.

Lemma Qc_ltb_false a b : Qc_ltb a b = false ↔ (b <= a)%Qc.
Proof.
  unfold Qc_ltb. rewrite bool_decide_eq_false. split.
  - apply Qcnot_lt_le.
  - apply Qcle_not_lt.
Qed.

Lemma Qc_leb_true a b : Qc_leb a b = true ↔ (a <= b)%Qc.
Proof. unfold Qc_leb. apply bool_decide_eq_true. Qed.

Lemma Qc_leb_false a b : Qc_leb a b = false ↔ (b < a)%Qc.
Proof.
  unfold Qc_leb. rewrite bool_decide_eq_false. split.
  - apply Qcnot_le_lt.
  - apply Qclt_not_le.
Qed.

Lemma Qc_eqb_true a b : Qc_eqb a b = true ↔ a = b.
Proof. unfold Qc_eqb. apply bool_decide_eq_true. Qed.

Lemma Qc_eqb_false a b : Qc_eqb a b = false ↔ a ≠ b.
Proof. unfold Qc_eqb. apply bool_decide_eq_false. Qed.

Lemma fadd_0_l x : fadd (F 0) x = x.
Proof.
  destruct x as [q| | |]; try reflexivity.
  unfold F, fadd. f_equal. apply Qcplus_0_l.
Qed.

Lemma fadd_0_r x : fadd x (F 0) = x.
Proof.
  destruct x as [q| | |]; try reflexivity.
  unfold F, fadd. f_equal. apply Qcplus_0_r.
Qed.

Lemma fadd_assoc x y z : fadd x (fadd y z) = fadd (fadd x y) z.
Proof.
  destruct x, y, z; try reflexivity.
  unfold fadd. f_equal. apply Qcplus_assoc.
Qed.

Lemma foldl_fadd_foldr (l : list fnum) (a : fnum) :
  foldl fadd a l = fadd a (foldr fadd (F 0) l).
Proof.
  revert a. induction l as [|x l IH]; intros a; simpl.
  - symmetry. apply fadd_0_r.
  - rewrite IH. symmetry. apply fadd_assoc.
Qed.

Lemma pandas_sum_app (l1 l2 : list fnum) :
  pandas.sum (l1 ++ l2) = fadd (pandas.sum l1) (pandas.sum l2).
Proof.
  unfold pandas.sum. rewrite filter_app, foldr_app.
  induction (filter (λ x, isna x = false) l1) as [|x l IH]; simpl.
  - symmetry. apply fadd_0_l.
  - rewrite IH. apply fadd_assoc.
Qed.

End NumFacts.

(** Moves a goal on canonical rationals to plain rationals, where [lra]
    applies. *)
Ltac qc_to_q :=
  unfold Qclt, Qcle, Qcminus, Qcdiv in *;
  unfold Qcplus, Qcopp, Qcmult, Qcinv, zq, Q2Qc in *;
  cbn [this] in *;
  repeat match goal with
         | H : context [Qred _] |- _ => rewrite Qred_correct in H
         | |- context [Qred _] => rewrite Qred_correct
         end.

Section Rounding.

Lemma round_half_even_lower (n : Z) (q : Qc) :
  (zq n <= q)%Qc → (n <= round_half_even q)%Z.
Proof.
  intros H. assert (n <= Qfloor q)%Z.
  { rewrite <- (Qfloor_Z n). apply Qfloor_resp_le. qc_to_q. exact H. }
  unfold round_half_even. repeat case_match; lia.
Qed.

Lemma round_half_even_upper (n : Z) (q : Qc) :
  (q <= zq n)%Qc → (round_half_even q <= n)%Z.
Proof.
  intros H. assert (Hf : (Qfloor q <= n)%Z).
  { rewrite <- (Qfloor_Z n). apply Qfloor_resp_le. qc_to_q. exact H. }
  unfold round_half_even.
  destruct (Qc_ltb (q - zq (Qfloor q)) (Q2Qc (1 # 2))) eqn:E1; [lia|].
  assert (Qfloor q ≠ n); [|repeat case_match; lia].
  intros Heq. rewrite Heq in E1. apply not_true_iff_false in E1.
  apply E1, Qc_ltb_true. qc_to_q. unfold inject_Z in *. lra.
Qed.

(** Rounding to two decimals keeps a value between 0 and 100 there. *)
Lemma py_round_2_percent (q : Qc) :
  (zq 0 <= q)%Qc → (q <= zq 100)%Qc →
  ∃ q', py_round (Fin q) 2 = Fin q' ∧ (zq 0 <= q')%Qc ∧ (q' <= zq 100)%Qc.
Proof.
  intros H0 H100. eexists. split; [reflexivity|].
  change (10 ^ Z.of_nat 2)%Z with 100%Z.
  pose proof (round_half_even_lower 0 (q * zq 100)) as Hl.
  pose proof (round_half_even_upper 10000 (q * zq 100)) as Hu.
  assert (0 <= round_half_even (q * zq 100))%Z as Hl'.
  { apply Hl. qc_to_q. unfold inject_Z in *. lra. }
  assert (round_half_even (q * zq 100) <= 10000)%Z as Hu'.
  { apply Hu. qc_to_q. unfold inject_Z in *. lra. }
  clear Hl Hu H0 H100. revert Hl' Hu'.
  generalize (round_half_even (q * zq 100)). intros z Hl Hu.
  rewrite Zle_Qle in Hl, Hu.
  qc_to_q.
  split.
  - change (/ inject_Z 100 * ?x)%Q with (x / inject_Z 100)%Q.
    apply Qle_shift_div_l; [reflexivity|]. unfold inject_Z in *. lra.
  - apply Qle_shift_div_r; [reflexivity|]. unfold inject_Z in *. lra.
Qed.

End Rounding.

(** *** add_new_positions *)

Section AddPositions.
Import portfolio_manager specification.

Implicit Types (today : string) (portfolio new_entries : list LedgerEntry).
Implicit Types (targets : list ScanRow) (fs : Store).

(** Reading is a normal form: a text that was loaded is loaded as itself
    once written back. *)
Lemma read_text_idemp (t : string) :
  pandas.read_text (pandas.read_text t) = pandas.read_text t.
Proof.
  unfold pandas.read_text. destruct (decide (t ∈ pandas.na_values)) as [|Hn].
  - rewrite decide_True; [done|]. unfold pandas.na_values. left.
  - by rewrite decide_False.
Qed.

Lemma read_row_idemp (e : LedgerEntry) : read_row (read_row e) = read_row e.
Proof. unfold read_row. cbn. by rewrite !read_text_idemp. Qed.

Lemma read_rows_idemp portfolio :
  read_row <$> (read_row <$> portfolio) = read_row <$> portfolio.
Proof.
  rewrite <- list_fmap_compose. apply list_fmap_ext. intros i e _. apply read_row_idemp.
Qed.

(** A text that passes [pandas.reads_back] is no NA marker. *)
Lemma reads_back_text (t : string) :
  pandas.reads_back t = true → t ≠ "" ∧ pandas.read_text t = t.
Proof.
  intros H. split; [by intros ->|].
  unfold pandas.read_text. destruct (decide (t ∈ pandas.na_values)) as [Hin|]; [|done].
  exfalso. unfold pandas.na_values in Hin.
  repeat (apply elem_of_cons in Hin as [->|Hin]; [by vm_compute in H|]).
  by apply elem_of_nil in Hin.
Qed.

(** The three list names are no NA markers. *)
Lemma read_text_focus_list (l : string) : l ∈ focus_lists → pandas.read_text l = l.
Proof.
  unfold focus_lists. intros H.
  repeat (apply elem_of_cons in H as [->|H]; [by vm_compute|]).
  by apply elem_of_nil in H.
Qed.

Lemma duplicate_test portfolio (symbol : string) :
  negb (pandas.empty portfolio)
  && negb (pandas.empty (filter (λ e, pandas.text_eq (e_Symbol e) symbol) portfolio)) = true
  ↔ held portfolio symbol.
Proof.
  unfold held. rewrite list_elem_of_fmap. split.
  - intros [_ H]%andb_true_iff.
    destruct (filter _ portfolio) as [|e l] eqn:E; [discriminate|].
    assert (e ∈ filter (λ e, pandas.text_eq (e_Symbol e) symbol) portfolio) as Hin
      by (rewrite E; left).
    apply list_elem_of_filter in Hin as [[Hne <-] Hin]. eauto.
  - intros (Hne & e & -> & Hin).
    assert (e ∈ filter (λ e', pandas.text_eq (e_Symbol e') (e_Symbol e)) portfolio) as Hf
      by (apply list_elem_of_filter; done).
    destruct portfolio; [by apply elem_of_nil in Hin|].
    destruct (filter _ _); [by apply elem_of_nil in Hf|]. done.
Qed.

Lemma add_loop_acc today portfolio targets new_entries :
  add_loop today portfolio targets new_entries
  = new_entries ++ add_loop today portfolio targets [].
Proof.
  revert new_entries. induction targets as [|row rest IH]; intros acc; cbn [add_loop].
  - by rewrite app_nil_r.
  - destruct (isna _ || fleb _ _); [apply IH|].
    destruct (negb (pandas.empty portfolio) && _); [apply IH|].
    rewrite IH, (IH ([] ++ _)). by rewrite <- app_assoc.
Qed.

(** One turn of the loop, on an empty accumulator. *)
Lemma add_loop_cons today portfolio row rest :
  add_loop today portfolio (row :: rest) []
  = if decide (usable row ∧ ¬ held portfolio (Symbol (metrics row)))
    then entry_of today row :: add_loop today portfolio rest []
    else add_loop today portfolio rest [].
Proof.
  cbn [add_loop]. unfold usable.
  destruct (isna _ || fleb _ _) eqn:Hp.
  { rewrite decide_False; [done|]. by intros [? _]. }
  destruct (negb (pandas.empty portfolio) && _) eqn:Hd.
  - apply duplicate_test in Hd. rewrite decide_False; [done|]. by intros [_ ?].
  - rewrite decide_True.
    + by rewrite add_loop_acc.
    + split; [done|]. intros Hin%duplicate_test. congruence.
Qed.

(** Every entry the loop creates comes from a usable row of the scan whose
    symbol the duplicate test does not find in the loaded file. *)
Lemma add_loop_entries today portfolio targets e :
  e ∈ add_loop today portfolio targets [] →
  ∃ row, row ∈ targets ∧ usable row
         ∧ ¬ held portfolio (Symbol (metrics row))
         ∧ e = entry_of today row.
Proof.
  induction targets as [|row rest IH]; [by intros ?%elem_of_nil|].
  rewrite add_loop_cons. case_decide as Hc.
  - intros [->|Hin]%elem_of_cons.
    + exists row. split; [left|]. tauto.
    + destruct (IH Hin) as (r & ? & ?). exists r. split; [by right|done].
  - intros Hin. destruct (IH Hin) as (r & ? & ?). exists r. split; [by right|done].
Qed.

(** After the loop, the symbol of every usable row is in the file or among
    the new entries. *)
Lemma add_loop_covers today portfolio targets row :
  row ∈ targets → usable row →
  Symbol (metrics row) ∈ e_Symbol <$> (portfolio ++ add_loop today portfolio targets []).
Proof.
  intros Hin Hu. rewrite fmap_app, elem_of_app.
  induction targets as [|r rest IH]; [by apply elem_of_nil in Hin|].
  rewrite add_loop_cons.
  apply elem_of_cons in Hin as [<-|Hin].
  - case_decide as Hc.
    + right. rewrite fmap_cons. left.
    + left. destruct (decide (held portfolio (Symbol (metrics row)))) as [[_ ?]|]; tauto.
  - destruct (IH Hin) as [?|?]; [by left|right].
    case_decide; [rewrite fmap_cons; by right|done].
Qed.

(** When the duplicate test finds the symbol of every usable row, the loop
    creates nothing. *)
Lemma add_loop_nothing today portfolio targets :
  (∀ row, row ∈ targets → usable row → held portfolio (Symbol (metrics row))) →
  add_loop today portfolio targets [] = [].
Proof.
  induction targets as [|r rest IH]; intros H; [done|].
  rewrite add_loop_cons, decide_False.
  - apply IH. intros row ? ?. apply H; [by right|done].
  - intros [Hu Hn]. apply Hn, H; [left|done].
Qed.

(** With distinct symbols in the scan, none of them empty, the loop keeps
    the symbols of the file distinct. *)
Lemma add_loop_NoDup today portfolio targets :
  NoDup (e_Symbol <$> portfolio) →
  NoDup ((λ r, Symbol (metrics r)) <$> targets) →
  (∀ r, r ∈ targets → Symbol (metrics r) ≠ "") →
  NoDup (e_Symbol <$> (portfolio ++ add_loop today portfolio targets [])).
Proof.
  intros Hp Ht Hne. rewrite fmap_app. apply NoDup_app. split; [done|].
  split.
  - intros s Hs (e & -> & He)%list_elem_of_fmap.
    apply add_loop_entries in He as (r & Hr & _ & Hn & ->).
    apply Hn. split; [by apply Hne|done].
  - clear Hp Hne. induction targets as [|r rest IH]; [constructor|].
    rewrite fmap_cons in Ht. apply NoDup_cons in Ht as [Hr Ht].
    rewrite add_loop_cons. case_decide; [|by apply IH].
    rewrite fmap_cons. apply NoDup_cons. split; [|by apply IH].
    intros (e & Heq & He)%list_elem_of_fmap.
    apply add_loop_entries in He as (r' & Hin & _ & _ & ->).
    apply Hr, list_elem_of_fmap. exists r'. done.
Qed.

(** The file a call starts from: the rows read, or no row when today's
    file does not exist yet. *)
Local Abbreviation loaded today fs :=
  (if decide (is_Some (fs !! get_todays_portfolio_path today))
   then read_csv fs (get_todays_portfolio_path today) else Some []).

Lemma add_new_positions_run today fs df portfolio :
  pandas.empty df = false →
  loaded today fs = Some portfolio →
  add_new_positions today fs df
  = let new_entries :=
      add_loop today portfolio (filter (λ r, List_ r ∈ focus_lists) df) [] in
    Some (if pandas.empty new_entries then (fs, NoNewPositions)
          else (save_portfolio (portfolio ++ new_entries)
                  (get_todays_portfolio_path today) fs,
                Saved (length new_entries))).
Proof.
  intros Hdf Hload. unfold add_new_positions. rewrite Hdf, Hload. simpl.
  by destruct (add_loop _ _ _ _).
Qed.

Lemma add_new_positions_loaded today fs df out :
  pandas.empty df = false →
  add_new_positions today fs df = Some out →
  ∃ portfolio, loaded today fs = Some portfolio.
Proof.
  intros Hdf. unfold add_new_positions. rewrite Hdf.
  destruct (loaded today fs) as [portfolio|]; [eauto|done].
Qed.

Lemma loaded_rows today fs portfolio :
  loaded today fs = Some portfolio →
  default [] (read_csv fs (get_todays_portfolio_path today)) = portfolio.
Proof.
  unfold read_csv. case_decide as Hs.
  - by intros ->.
  - intros [= <-]. destruct (fs !! _); [|done]. exfalso. eauto.
Qed.

(** What is loaded went through [read_row]. *)
Lemma loaded_read today fs portfolio :
  loaded today fs = Some portfolio → read_row <$> portfolio = portfolio.
Proof.
  unfold read_csv. case_decide as Hs.
  - destruct (fs !! _) as [[|rows]|]; try done. intros [= <-]. apply read_rows_idemp.
  - by intros [= <-].
Qed.

Lemma loaded_save today fs rows :
  loaded today (save_portfolio rows (get_todays_portfolio_path today) fs)
  = Some (read_row <$> rows).
Proof.
  unfold save_portfolio, read_csv. rewrite lookup_insert_eq.
  rewrite decide_True; [done|eauto].
Qed.

Lemma usable_positive row : usable row → fgtb (Price (metrics row)) (F 0) = true.
Proof.
  unfold usable, fgtb. destruct (Price (metrics row)) as [q| | |]; simpl; try done.
  unfold Qc_leb, Qc_ltb. intros H%bool_decide_eq_false.
  apply bool_decide_eq_true. by apply Qcnot_le_lt.
Qed.

End AddPositions.

(** *** update_portfolio_values *)

Section Revalue.
Import portfolio_manager.

Implicit Types (yf : string → Ticker) (fs : Store) (portfolio : list LedgerEntry).

Lemma fadd_comm x y : fadd x y = fadd y x.
Proof.
  destruct x, y; try reflexivity.
  unfold fadd. f_equal. apply Qcplus_comm.
Qed.

Lemma pandas_sum_Permutation (l1 l2 : list fnum) :
  l1 ≡ₚ l2 → pandas.sum l1 = pandas.sum l2.
Proof.
  intros Hp. unfold pandas.sum.
  apply (foldr_permutation eq fadd (F 0)).
  - intros j1 a1 j2 a2 b _ _ _. rewrite !fadd_assoc. f_equal. apply fadd_comm.
  - by apply filter_Permutation.
Qed.

(** The loop replaces every row by its revalued row, in place. *)
Lemma revalue_rows_fst yf portfolio updated :
  (revalue_rows yf portfolio updated).1 = revalued yf <$> portfolio.
Proof.
  revert updated. induction portfolio as [|row rest IH]; intros u; [done|].
  cbn [revalue_rows]. unfold revalued at 1. rewrite fmap_cons.
  destruct (revalue_row yf row) as [[row'|]|].
  - specialize (IH true). destruct (revalue_rows yf rest true). simpl in *. by f_equal.
  - specialize (IH u). destruct (revalue_rows yf rest u). simpl in *. by f_equal.
  - specialize (IH u). destruct (revalue_rows yf rest u). simpl in *. by f_equal.
Qed.

Lemma revalue_rows_flag_true yf portfolio :
  (revalue_rows yf portfolio true).2 = true.
Proof.
  induction portfolio as [|row rest IH]; [done|].
  cbn [revalue_rows].
  destruct (revalue_row yf row) as [[row'|]|];
    destruct (revalue_rows yf rest true); done.
Qed.

(** When the flag stays down no row was written. *)
Lemma revalue_rows_not_updated yf portfolio :
  (revalue_rows yf portfolio false).2 = false → revalued yf <$> portfolio = portfolio.
Proof.
  induction portfolio as [|row rest IH]; [done|].
  cbn [revalue_rows]. rewrite fmap_cons. unfold revalued at 1.
  destruct (revalue_row yf row) as [[row'|]|].
  - pose proof (revalue_rows_flag_true yf rest).
    destruct (revalue_rows yf rest true). simpl in *. congruence.
  - destruct (revalue_rows yf rest false). simpl in *. intros ?. f_equal. auto.
  - destruct (revalue_rows yf rest false). simpl in *. intros ?. f_equal. auto.
Qed.

(** Revaluation leaves the text cells of a row alone, so a revalued row
    of a loaded file is read back as itself. *)
Lemma read_row_revalued yf (e : LedgerEntry) :
  read_row e = e → read_row (revalued yf e) = revalued yf e.
Proof.
  unfold revalued, revalue_row.
  destruct (fetch_price yf (e_Symbol e)) as [[|p]|]; simpl; try done.
  destruct (nonzero p); simpl; try done.
  destruct (py_div _ _); simpl; try done.
  destruct e. unfold read_row. cbn. intros [= H1 H2 H3]. by rewrite H1, H2, H3.
Qed.

Lemma read_revalued_read yf (rows : list LedgerEntry) :
  read_row <$> (revalued yf <$> (read_row <$> rows)) = revalued yf <$> (read_row <$> rows).
Proof.
  rewrite <- !list_fmap_compose. apply list_fmap_ext. intros i e _. simpl.
  apply read_row_revalued, read_row_idemp.
Qed.

(** One turn of the loop over the files touches that file only. *)
Lemma update_file_lookup yf fs tot filepath q :
  (update_file yf (fs, tot) filepath).1 !! q
  = if decide (q = filepath) then revalue_content yf <$> fs !! q else fs !! q.
Proof.
  unfold update_file, read_csv.
  destruct (fs !! filepath) as [[|rows]|] eqn:E.
  - case_decide; subst; simpl; by rewrite ?E.
  - cbn [revalue_content].
    destruct (pandas.empty (read_row <$> rows)) eqn:Hemp.
    { destruct rows; [|done]. case_decide; subst; simpl; by rewrite ?E. }
    pose proof (revalue_rows_fst yf (read_row <$> rows) false) as H1.
    destruct (revalue_rows yf (read_row <$> rows) false) as [rows' u] eqn:Hr.
    simpl in H1. subst rows'.
    destruct u; unfold save_portfolio; simpl.
    + case_decide; subst.
      * rewrite lookup_insert_eq, E. simpl. by rewrite Hr.
      * by rewrite lookup_insert_ne.
    + case_decide; subst; [|done]. rewrite E. simpl. by rewrite Hr.
  - case_decide; subst; simpl; by rewrite ?E.
Qed.

(** What is read from a file after its turn: its rows as they were read
    before, each revalued in place. *)
Lemma revalue_content_read yf (c : FileContent) :
  match revalue_content yf c with
  | Rows rows' =>
      ∃ rows, c = Rows rows ∧ read_row <$> rows' = revalued yf <$> (read_row <$> rows)
  | Corrupt => c = Corrupt
  end.
Proof.
  destruct c as [|rows]; [done|]. cbn [revalue_content].
  destruct (revalue_rows yf (read_row <$> rows) false).2 eqn:Hu.
  - exists rows. split; [done|]. apply read_revalued_read.
  - exists rows. split; [done|]. by rewrite (revalue_rows_not_updated _ _ Hu).
Qed.

Lemma read_csv_revalue_content yf fs (fs' : Store) (q : string) :
  fs' !! q = fmap (M:=option) (revalue_content yf) (fs !! q) →
  read_csv fs' q = fmap (M:=option) (fmap (M:=list) (revalued yf)) (read_csv fs q).
Proof.
  unfold read_csv. intros ->. destruct (fs !! q) as [c|]; [|done]. simpl.
  pose proof (revalue_content_read yf c) as H.
  destruct (revalue_content yf c) as [|rows'].
  - by subst c.
  - destruct H as (rows & -> & ->). done.
Qed.

(** ... and adds the sums of the two value columns of what it leaves in
    that file. *)
Lemma update_file_totals yf fs tot filepath :
  let st := update_file yf (fs, tot) filepath in
  let rows := default [] (read_csv st.1 filepath) in
  st.2 = {| total_invested_all :=
              fadd (total_invested_all tot) (pandas.sum (Initial_Value <$> rows));
            total_value_all :=
              fadd (total_value_all tot) (pandas.sum (Current_Value <$> rows)) |}.
Proof.
  assert (Hid : tot = {| total_invested_all := fadd (total_invested_all tot) (F 0);
                         total_value_all := fadd (total_value_all tot) (F 0) |}).
  { destruct tot. simpl. by rewrite !fadd_0_r. }
  unfold update_file, read_csv.
  destruct (fs !! filepath) as [[|rows]|] eqn:E; simpl; rewrite ?E; simpl; try done.
  destruct (pandas.empty (read_row <$> rows)) eqn:Hemp.
  { destruct rows; [|done]. simpl. rewrite E. done. }
  pose proof (revalue_rows_fst yf (read_row <$> rows) false) as H1.
  pose proof (revalue_rows_not_updated yf (read_row <$> rows)) as H2.
  destruct (revalue_rows yf (read_row <$> rows) false) as [rows' u].
  simpl in *. subst rows'.
  destruct u; unfold save_portfolio; simpl.
  - by rewrite lookup_insert_eq, read_revalued_read.
  - rewrite E. simpl. by rewrite H2.
Qed.

(** The rows found under [filepath], none when the file is missing or
    cannot be read. *)
Local Abbreviation rows_at fs filepath := (default [] (read_csv fs filepath)).

(** The loop over the files: every listed file has its turn once, the
    others are left alone. *)
Lemma update_files_lookup yf (files : list string) fs tot q :
  NoDup files →
  (foldl (update_file yf) (fs, tot) files).1 !! q
  = if decide (q ∈ files) then revalue_content yf <$> fs !! q else fs !! q.
Proof.
  revert fs tot. induction files as [|f files IH]; intros fs tot Hnd.
  - cbn [foldl fst]. destruct (decide (q ∈ [])) as [Hin|]; [|done].
    by apply elem_of_nil in Hin.
  - apply NoDup_cons in Hnd as [Hf Hnd]. cbn [foldl].
    destruct (update_file yf (fs, tot) f) as [fs1 tot1] eqn:E.
    rewrite (IH fs1 tot1 Hnd).
    pose proof (update_file_lookup yf fs tot f q) as Hq. rewrite E in Hq. simpl in Hq.
    rewrite Hq. clear Hq E.
    destruct (decide (q = f)) as [->|Hne].
    + destruct (decide (f ∈ files)); [done|].
      destruct (decide (f ∈ f :: files)) as [|Hn]; [done|].
      exfalso. apply Hn. left.
    + destruct (decide (q ∈ files)) as [Hin|Hin],
        (decide (q ∈ f :: files)) as [Hin'|Hin']; try done.
      * exfalso. apply Hin'. by right.
      * apply elem_of_cons in Hin' as [?|?]; done.
Qed.

(** The running totals after the loop: the starting totals plus the two
    column sums over the rows the listed files hold after the loop. *)
Lemma update_files_totals yf (files : list string) fs tot :
  NoDup files →
  let st := foldl (update_file yf) (fs, tot) files in
  let rows := files ≫= (λ f, rows_at st.1 f) in
  total_invested_all st.2
    = fadd (total_invested_all tot) (pandas.sum (Initial_Value <$> rows))
  ∧ total_value_all st.2
    = fadd (total_value_all tot) (pandas.sum (Current_Value <$> rows)).
Proof.
  revert fs tot. induction files as [|f files IH]; intros fs tot Hnd; cbv zeta.
  - simpl. by rewrite !fadd_0_r.
  - apply NoDup_cons in Hnd as [Hf Hnd]. cbn [foldl].
    pose proof (update_file_totals yf fs tot f) as Ht.
    destruct (update_file yf (fs, tot) f) as [fs1 tot1] eqn:E. simpl in Ht.
    destruct (IH fs1 tot1 Hnd) as [IH1 IH2].
    assert (read_csv (foldl (update_file yf) (fs1, tot1) files).1 f = read_csv fs1 f)
      as Hsame.
    { unfold read_csv. rewrite (update_files_lookup yf files fs1 tot1 f Hnd).
      destruct (decide (f ∈ files)); done. }
    rewrite bind_cons, Hsame, !fmap_app, !pandas_sum_app, IH1, IH2, !fadd_assoc.
    split; f_equal; by rewrite Ht.
Qed.

Lemma glob_empty fs : glob fs = [] → fs = ∅.
Proof.
  unfold glob. intros H. apply fmap_nil_inv in H. by apply map_to_list_empty_iff.
Qed.

Lemma elem_of_glob fs q : q ∈ glob fs ↔ is_Some (fs !! q).
Proof.
  unfold glob. rewrite list_elem_of_fmap. split.
  - intros ([k c] & -> & Hin). apply elem_of_map_to_list in Hin. simpl. eauto.
  - intros [c Hc]. exists (q, c). split; [done|]. by apply elem_of_map_to_list.
Qed.

Lemma NoDup_sorted_glob fs : NoDup (sorted (glob fs)).
Proof.
  unfold sorted. rewrite merge_sort_Permutation. apply NoDup_fst_map_to_list.
Qed.

Lemma elem_of_sorted_glob fs q : q ∈ sorted (glob fs) ↔ is_Some (fs !! q).
Proof. unfold sorted. rewrite merge_sort_Permutation. apply elem_of_glob. Qed.

(** What a revaluation leaves in the directory: a readable file of which a
    row was revalued holds its rows as they were read, each revalued in
    place; nothing else changes. *)
Lemma update_portfolio_values_lookup yf fs q :
  (update_portfolio_values yf fs).1 !! q = revalue_content yf <$> fs !! q.
Proof.
  unfold update_portfolio_values.
  destruct (pandas.empty (glob fs)) eqn:Hemp.
  { destruct (glob fs) eqn:Hg; [|done]. apply glob_empty in Hg as ->.
    simpl. by rewrite lookup_empty. }
  pose proof (update_files_lookup yf (sorted (glob fs)) fs
    {| total_invested_all := F 0; total_value_all := F 0 |} q (NoDup_sorted_glob fs)) as H.
  destruct (foldl _ _ _) as [fs' tot]. simpl in *. rewrite H.
  case_decide as Hin; [done|].
  rewrite elem_of_sorted_glob in Hin.
  destruct (fs !! q); [|done]. exfalso. eauto.
Qed.

(** The files a revaluation lists afterwards are those it listed before. *)
Lemma update_portfolio_values_glob yf fs :
  glob (update_portfolio_values yf fs).1 ≡ₚ glob fs.
Proof.
  apply NoDup_Permutation; try apply NoDup_fst_map_to_list.
  intros q. rewrite !elem_of_glob, update_portfolio_values_lookup.
  by rewrite fmap_is_Some.
Qed.

(** The two totals of the report are the column sums over all the rows of
    the readable files, as the revaluation left them. *)
Lemma update_portfolio_values_totals yf fs fs' report :
  update_portfolio_values yf fs = (fs', Some report) →
  total_invested report = pandas.sum (Initial_Value <$> specification.ledger_rows fs')
  ∧ total_value report = pandas.sum (Current_Value <$> specification.ledger_rows fs').
Proof.
  intros Hrun.
  pose proof (update_portfolio_values_glob yf fs) as Hglob. rewrite Hrun in Hglob.
  simpl in Hglob.
  assert (specification.ledger_rows fs' ≡ₚ sorted (glob fs) ≫= (λ f, rows_at fs' f)) as Hperm.
  { unfold specification.ledger_rows, sorted.
    apply bind_Permutation. by rewrite !merge_sort_Permutation. }
  rewrite (pandas_sum_Permutation _ _ (fmap_Permutation Initial_Value _ _ Hperm)).
  rewrite (pandas_sum_Permutation _ _ (fmap_Permutation Current_Value _ _ Hperm)).
  clear Hperm Hglob. revert Hrun. unfold update_portfolio_values.
  destruct (pandas.empty (glob fs)); [done|].
  pose proof (update_files_totals yf (sorted (glob fs)) fs
    {| total_invested_all := F 0; total_value_all := F 0 |} (NoDup_sorted_glob fs)) as H.
  cbv zeta in H. destruct (foldl _ _ _) as [fs1 tot].
  cbn [fst snd total_invested_all total_value_all] in H. destruct H as [H1 H2].
  intros [= <- <-]. cbn [total_invested total_value].
  rewrite H1, H2, !fadd_0_l. done.
Qed.

End Revalue.

(** *** The ledger: claims C1, C2, C6, C7 and C8 *)

Import portfolio_manager specification.

(** C1 (the code at the input that breaks the claim).  A scan that lists
    the symbol XYZ twice, both rows classified and priced, on a day with no
    portfolio file yet: the duplicate test of line 68 looks at the file as
    loaded only, so both rows are appended and the saved file holds XYZ
    twice. *)
Lemma add_new_positions_repeated_symbol :
  let xyz :=
    {| metrics := {| Symbol := "XYZ"; Price := F 10; Change_pct := F 0;
                     RSI_14 := Str "N/A"; Weekly_Ret := F 0; Monthly_Ret := F 12;
                     YTD_Ret := F 0; Ret_52W := F 60 |};
       List_ := "Rockets" |} in
  (λ out : Store * AddReport, (symbols_on out.1 "2024-01-02", out.2))
    <$> add_new_positions "2024-01-02" ∅ [xyz; xyz]
  = Some (["XYZ"; "XYZ"], Saved 2).
Proof. vm_compute. reflexivity. Qed.

(** C2 (the code at the input that breaks the claim).  A scan whose one
    row is the symbol NA, classified and priced, on a day with no portfolio
    file yet.  The first call saves the row.  The second call reads the
    file back with NaN in the place of the symbol, [pd.read_csv] taking the
    text NA for a missing value; the duplicate test of lines 68-72 finds
    nothing and the row is appended again: the second call reports one
    addition, and the file it saves holds two rows, the first with a blank
    symbol. *)
Lemma add_new_positions_NA_appended_again :
  let na :=
    {| metrics := {| Symbol := "NA"; Price := F 10; Change_pct := F 0;
                     RSI_14 := Str "N/A"; Weekly_Ret := F 0; Monthly_Ret := F 12;
                     YTD_Ret := F 0; Ret_52W := F 60 |};
       List_ := "Rockets" |} in
  let today := "2024-01-02" in
  let filepath := get_todays_portfolio_path today in
  let e := entry_of today na in
  let fs1 := save_portfolio [e] filepath ∅ in
  add_new_positions today ∅ [na] = Some (fs1, Saved 1)
  ∧ read_csv fs1 filepath = Some [read_row e]
  ∧ e_Symbol (read_row e) = ""
  ∧ add_new_positions today fs1 [na]
    = Some (save_portfolio [read_row e; e] filepath fs1, Saved 1).
Proof. intros na today filepath e fs1. repeat split; vm_compute; reflexivity. Qed.

(** Revaluation writes the three live cells of a row and no other. *)
Lemma revalued_static yf (e : LedgerEntry) :
  e_Date (revalued yf e) = e_Date e
  ∧ e_Symbol (revalued yf e) = e_Symbol e
  ∧ e_List (revalued yf e) = e_List e
  ∧ Entry_Price (revalued yf e) = Entry_Price e
  ∧ Quantity (revalued yf e) = Quantity e
  ∧ Initial_Value (revalued yf e) = Initial_Value e.
Proof.
  unfold revalued, revalue_row.
  destruct (fetch_price yf (e_Symbol e)) as [[|p]|]; simpl; try done.
  destruct (nonzero p); simpl; try done.
  destruct (py_div _ _); simpl; done.
Qed.

(** A failed fetch leaves the row as it was. *)
Lemma revalued_fetch_failed yf (e : LedgerEntry) :
  fetch_failed yf (e_Symbol e) → revalued yf e = e.
Proof.
  unfold fetch_failed, revalued, revalue_row.
  destruct (fetch_price yf (e_Symbol e)) as [[|p]|]; simpl; try done.
  by intros ->.
Qed.

(** A fetched price is written, rounded, with the value and the return
    it gives. *)
Lemma revalued_fetched yf (e : LedgerEntry) (p : fnum) :
  fetch_price yf (e_Symbol e) = Some (PyNum p) →
  nonzero p = true → nonzero (Initial_Value e) = true →
  Current_Price (revalued yf e) = py_round p 2
  ∧ Current_Value (revalued yf e) = py_round (fmul (Quantity e) p) 2
  ∧ Return_pct (revalued yf e)
    = py_round (fmul (fdiv (fsub (fmul (Quantity e) p) (Initial_Value e))
                           (Initial_Value e)) (F 100)) 2.
Proof.
  intros Hf Hp Hi. unfold revalued, revalue_row, py_div. rewrite Hf. simpl.
  rewrite Hp, Hi. simpl. done.
Qed.

(** C6 (the input that breaks the claim as stated).  A position entered at
    $3 with $1000 of capital: the stored quantity is 333.3333, which is
    neither 1000 / 3 nor a number whose product with the entry price is
    the stored initial value 1000. *)
Lemma stored_quantity_is_rounded :
  let abc :=
    {| metrics := {| Symbol := "ABC"; Price := F 3; Change_pct := F 0;
                     RSI_14 := Str "N/A"; Weekly_Ret := F 0; Monthly_Ret := F 12;
                     YTD_Ret := F 0; Ret_52W := F 60 |};
       List_ := "Rockets" |} in
  let e := entry_of "2024-01-02" abc in
  add_new_positions "2024-01-02" ∅ [abc]
  = Some (save_portfolio [e] (get_todays_portfolio_path "2024-01-02") ∅, Saved 1)
  ∧ Entry_Price e = F 3
  ∧ Quantity e = Fin (Q2Qc (3333333 # 10000))
  ∧ Initial_Value e = F 1000
  ∧ Quantity e ≠ fdiv CAPITAL_PER_TRADE (Entry_Price e)
  ∧ Initial_Value e ≠ fmul (Quantity e) (Entry_Price e).
Proof.
  intros abc e. split; [vm_compute; reflexivity|].
  repeat split; compute_done.
Qed.

(** C6 (amended).  Every entry a call of [add_new_positions] creates comes
    from a row of the scan with a positive price p, and stores
    entry price = round(p, 2), quantity = round(1000 / p, 4) and
    initial value = round((1000 / p) * p, 2), with current price = entry
    price, current value = initial value and return 0; the call leaves the
    rows already in the file as they were, and a revaluation never rewrites
    the entry price, the quantity or the initial value of a row.  The rows
    are those read from the file: the symbol of an entry is the symbol of
    its row as [pd.read_csv] reads it back. *)
Theorem new_entry_terms today fs df fs1 r1 :
  add_new_positions today fs df = Some (fs1, r1) →
  let filepath := get_todays_portfolio_path today in
  ∃ new_entries,
    default [] (read_csv fs1 filepath) = default [] (read_csv fs filepath) ++ new_entries
    ∧ added r1 = length new_entries
    ∧ (∀ e, e ∈ new_entries →
         ∃ row, row ∈ df
           ∧ e_Symbol e = pandas.read_text (Symbol (metrics row))
           ∧ fgtb (Price (metrics row)) (F 0) = true
           ∧ Entry_Price e = py_round (Price (metrics row)) 2
           ∧ Quantity e = py_round (fdiv CAPITAL_PER_TRADE (Price (metrics row))) 4
           ∧ Initial_Value e
             = py_round (fmul (fdiv CAPITAL_PER_TRADE (Price (metrics row)))
                              (Price (metrics row))) 2
           ∧ Current_Price e = Entry_Price e
           ∧ Current_Value e = Initial_Value e
           ∧ Return_pct e = F 0)
    ∧ (∀ yf q rows, read_csv fs1 q = Some rows →
         ∃ rows', read_csv (update_portfolio_values yf fs1).1 q = Some rows'
           ∧ Forall2 (λ e e', Entry_Price e' = Entry_Price e
                              ∧ Quantity e' = Quantity e
                              ∧ Initial_Value e' = Initial_Value e) rows rows').
Proof.
  intros Hrun filepath. subst filepath.
  assert (Hreval : ∀ yf q rows, read_csv fs1 q = Some rows →
    ∃ rows', read_csv (update_portfolio_values yf fs1).1 q = Some rows'
      ∧ Forall2 (λ e e', Entry_Price e' = Entry_Price e
                         ∧ Quantity e' = Quantity e
                         ∧ Initial_Value e' = Initial_Value e) rows rows').
  { intros yf q rows Hq. exists (revalued yf <$> rows). split.
    - rewrite (read_csv_revalue_content yf fs1 _ q (update_portfolio_values_lookup _ _ _)).
      by rewrite Hq.
    - apply Forall2_fmap_r, Forall_Forall2_diag, Forall_forall.
      intros e _. destruct (revalued_static yf e) as (_ & _ & _ & ? & ? & ?). done. }
  destruct (pandas.empty df) eqn:Hdf.
  { unfold add_new_positions in Hrun. rewrite Hdf in Hrun. injection Hrun as <- <-.
    exists []. rewrite app_nil_r. repeat split; try done.
    by intros e ?%elem_of_nil. }
  destruct (add_new_positions_loaded _ _ _ _ Hdf Hrun) as [portfolio Hload].
  rewrite (add_new_positions_run _ _ _ _ Hdf Hload) in Hrun. cbv zeta in Hrun.
  rewrite (loaded_rows _ _ _ Hload).
  set (targets := filter (λ r, List_ r ∈ focus_lists) df) in *.
  exists (read_row <$> add_loop today portfolio targets []).
  assert (Hnew : ∀ e, e ∈ read_row <$> add_loop today portfolio targets [] →
    ∃ row, row ∈ df ∧ e_Symbol e = pandas.read_text (Symbol (metrics row))
      ∧ fgtb (Price (metrics row)) (F 0) = true
      ∧ Entry_Price e = py_round (Price (metrics row)) 2
      ∧ Quantity e = py_round (fdiv CAPITAL_PER_TRADE (Price (metrics row))) 4
      ∧ Initial_Value e
        = py_round (fmul (fdiv CAPITAL_PER_TRADE (Price (metrics row)))
                         (Price (metrics row))) 2
      ∧ Current_Price e = Entry_Price e
      ∧ Current_Value e = Initial_Value e
      ∧ Return_pct e = F 0).
  { intros e (e1 & -> & (row & Hin & Hu & _ & ->)%add_loop_entries)%list_elem_of_fmap.
    exists row. apply list_elem_of_filter in Hin as [_ Hin].
    pose proof (usable_positive row Hu). repeat split; done. }
  destruct (add_loop today portfolio targets []) as [|e0 new_entries] eqn:Hloop.
  - injection Hrun as <- <-. rewrite (loaded_rows _ _ _ Hload), app_nil_r. done.
  - cbn [pandas.empty] in Hrun. injection Hrun as <- <-.
    split; [|by rewrite length_fmap].
    unfold save_portfolio, read_csv. rewrite lookup_insert_eq. cbn [default].
    by rewrite fmap_app, (loaded_read _ _ _ Hload).
Qed.

Lemma new_entry_terms_witness :
  let abc :=
    {| metrics := {| Symbol := "ABC"; Price := F 100; Change_pct := F 0;
                     RSI_14 := Str "N/A"; Weekly_Ret := F 0; Monthly_Ret := F 7;
                     YTD_Ret := F 0; Ret_52W := F 15 |};
       List_ := "Simmering Growth" |} in
  let today := "2024-01-02" in
  let fs1 := save_portfolio [entry_of today abc] (get_todays_portfolio_path today) ∅ in
  add_new_positions today ∅ [abc] = Some (fs1, Saved 1)
  ∧ ∃ new_entries,
      default [] (read_csv fs1 (get_todays_portfolio_path today))
      = default [] (read_csv ∅ (get_todays_portfolio_path today)) ++ new_entries
      ∧ added (Saved 1) = length new_entries.
Proof.
  intros abc today fs1.
  assert (add_new_positions today ∅ [abc] = Some (fs1, Saved 1)) as H
    by (vm_compute; reflexivity).
  split; [exact H|].
  destruct (new_entry_terms today ∅ [abc] fs1 (Saved 1) H) as (new & H1 & H2 & _).
  exists new. split; [exact H1|exact H2].
Defined.

(** C7.  A revaluation keeps every row of every readable ledger file, in
    its place and with its symbol and entry terms; a row whose fresh quote
    fails keeps its current price, current value and return (the whole row
    is unchanged), and this does not stop the other rows, of the same file
    and of the other files, from being revalued with the price fetched for
    them. *)
Theorem update_portfolio_values_keeps_rows yf fs filepath rows :
  read_csv fs filepath = Some rows →
  ∃ rows',
    read_csv (update_portfolio_values yf fs).1 filepath = Some rows'
    ∧ length rows' = length rows
    ∧ ∀ i e, rows !! i = Some e →
        ∃ e', rows' !! i = Some e'
          ∧ e_Date e' = e_Date e ∧ e_Symbol e' = e_Symbol e ∧ e_List e' = e_List e
          ∧ Entry_Price e' = Entry_Price e ∧ Quantity e' = Quantity e
          ∧ Initial_Value e' = Initial_Value e
          ∧ (fetch_failed yf (e_Symbol e) →
               Current_Price e' = Current_Price e
               ∧ Current_Value e' = Current_Value e
               ∧ Return_pct e' = Return_pct e)
          ∧ (∀ p, fetch_price yf (e_Symbol e) = Some (PyNum p) →
               nonzero p = true → nonzero (Initial_Value e) = true →
               Current_Price e' = py_round p 2
               ∧ Current_Value e' = py_round (fmul (Quantity e) p) 2
               ∧ Return_pct e'
                 = py_round (fmul (fdiv (fsub (fmul (Quantity e) p) (Initial_Value e))
                                        (Initial_Value e)) (F 100)) 2).
Proof.
  intros Hread. exists (revalued yf <$> rows). split; [|split].
  - rewrite (read_csv_revalue_content yf fs _ filepath
               (update_portfolio_values_lookup _ _ _)).
    by rewrite Hread.
  - apply length_fmap.
  - intros i e Hi. exists (revalued yf e). split.
    { by rewrite list_lookup_fmap, Hi. }
    destruct (revalued_static yf e) as (? & ? & ? & ? & ? & ?).
    do 6 (split; [done|]). split.
    + by intros ->%revalued_fetch_failed.
    + intros p Hf Hp Hv. exact (revalued_fetched yf e p Hf Hp Hv).
Qed.

Lemma update_portfolio_values_keeps_rows_witness :
  let row (symbol : string) :=
    {| e_Date := "2024-01-02"; e_Symbol := symbol; e_List := "Rockets";
       Entry_Price := F 100; Quantity := F 10; Initial_Value := F 1000;
       Current_Price := F 100; Current_Value := F 1000; Return_pct := F 0 |} in
  let yf (symbol : string) :=
    {| info := None; history := None;
       fast_info_last_price :=
         if decide (symbol = "ABC") then Some (PyNum (F 110)) else None |} in
  let filepath := "Portfolios/Portfolio_2024-01-02.csv" in
  let fs : Store := {[ filepath := Rows [row "DEAD"; row "ABC"] ]} in
  read_csv fs filepath = Some [row "DEAD"; row "ABC"]
  ∧ ∃ rows', read_csv (update_portfolio_values yf fs).1 filepath = Some rows'
             ∧ length rows' = 2.
Proof.
  intros row yf filepath fs.
  assert (read_csv fs filepath = Some [row "DEAD"; row "ABC"]) as H
    by (vm_compute; reflexivity).
  split; [exact H|].
  destruct (update_portfolio_values_keeps_rows yf fs filepath _ H) as (rows' & H1 & H2 & _).
  exists rows'. split; [exact H1|exact H2].
Defined.

(** The run of the specification, section 8: bought at $100 with $1000,
    revalued at $110, the position is worth $1100.00 and returns 10.00;
    the row before it, whose quote fails, is left as it was. *)
Example revalue_at_110 :
  let row (symbol : string) :=
    {| e_Date := "2024-01-02"; e_Symbol := symbol; e_List := "Simmering Growth";
       Entry_Price := F 100; Quantity := F 10; Initial_Value := F 1000;
       Current_Price := F 100; Current_Value := F 1000; Return_pct := F 0 |} in
  let yf (symbol : string) :=
    {| info := None; history := None;
       fast_info_last_price :=
         if decide (symbol = "ABC") then Some (PyNum (F 110)) else None |} in
  revalued yf <$> [row "DEAD"; row "ABC"]
  = [row "DEAD";
     {| e_Date := "2024-01-02"; e_Symbol := "ABC"; e_List := "Simmering Growth";
        Entry_Price := F 100; Quantity := F 10; Initial_Value := F 1000;
        Current_Price := F 110; Current_Value := F 1100; Return_pct := F 10 |}].
Proof. intros row yf. compute_done. Qed.

(** A report is printed exactly when the directory has a portfolio file. *)
Lemma update_portfolio_values_no_report yf fs :
  (update_portfolio_values yf fs).2 = None ↔ fs = ∅.
Proof.
  unfold update_portfolio_values. split.
  - destruct (pandas.empty (glob fs)) eqn:E.
    + intros _. destruct (glob fs) eqn:Hg; [|done]. by apply glob_empty.
    + by destruct (foldl _ _ _).
  - intros ->. done.
Qed.

(** C8 (the input that breaks the claim as stated).  A revaluation of a
    directory that holds no portfolio file, where the invested total is 0:
    the function returns at line 103, before the totals are formed, and
    reports no aggregate return at all, not a return of 0. *)
Lemma no_portfolio_file_no_aggregate_return :
  let yf (_ : string) :=
    {| info := None; history := None; fast_info_last_price := Some (PyNum (F 110)) |} in
  pandas.sum (Initial_Value <$> ledger_rows ∅) = F 0
  ∧ update_portfolio_values yf ∅ = (∅, None).
Proof. intros yf. split; reflexivity. Qed.

(** C8 (amended).  A revaluation reports an aggregate return exactly when
    the directory holds a portfolio file.  The report is then computed from
    the ledger files as the call leaves them and from nothing else: the
    invested total and the value total are the sums of the two columns over
    the rows of every file that can be read, the return is
    (value - invested) / invested * 100 when the invested total is positive,
    and 0 otherwise, in particular when the invested total is 0. *)
Theorem aggregate_return yf fs :
  let fs' := (update_portfolio_values yf fs).1 in
  let invested := pandas.sum (Initial_Value <$> ledger_rows fs') in
  let value := pandas.sum (Current_Value <$> ledger_rows fs') in
  (fs = ∅ → (update_portfolio_values yf fs).2 = None)
  ∧ (fs ≠ ∅ →
       ∃ report, (update_portfolio_values yf fs).2 = Some report
         ∧ total_invested report = invested
         ∧ total_value report = value
         ∧ total_ret report
           = (if fgtb invested (F 0)
              then fmul (fdiv (fsub value invested) invested) (F 100) else F 0)
         ∧ (invested = F 0 → total_ret report = F 0)).
Proof.
  intros fs' invested value. split; [by intros ->|]. intros Hne.
  destruct (update_portfolio_values yf fs) as [fs1 [report|]] eqn:Hrun.
  2: { exfalso. apply Hne, (update_portfolio_values_no_report yf). by rewrite Hrun. }
  cbn [fst snd] in *. exists report. split; [done|].
  destruct (update_portfolio_values_totals yf fs fs1 report Hrun) as [Hi Hv].
  fold fs' in Hi, Hv. fold invested in Hi. fold value in Hv.
  assert (Hret : total_ret report
    = (if fgtb (total_invested report) (F 0)
       then fmul (fdiv (fsub (total_value report) (total_invested report))
                       (total_invested report)) (F 100) else F 0)).
  { revert Hrun. unfold update_portfolio_values.
    destruct (pandas.empty (glob fs)); [done|].
    destruct (foldl _ _ _) as [fs2 tot]. by intros [= <- <-]. }
  rewrite Hi, Hv in Hret. repeat split; try done.
  intros H0. rewrite Hret, H0. reflexivity.
Qed.

Lemma aggregate_return_witness :
  let row (symbol : string) (price value ret : Z) :=
    {| e_Date := "2024-01-02"; e_Symbol := symbol; e_List := "Rockets";
       Entry_Price := F 100; Quantity := F 10; Initial_Value := F 1000;
       Current_Price := F price; Current_Value := F value; Return_pct := F ret |} in
  let yf (symbol : string) :=
    {| info := None; history := None; fast_info_last_price := Some (PyNum (F 110)) |} in
  let fs : Store :=
    {[ "Portfolios/Portfolio_2024-01-02.csv" := Rows [row "ABC" 100 1000 0];
       "Portfolios/Portfolio_2024-01-03.csv" := Corrupt ]}%Z in
  let fs' : Store :=
    {[ "Portfolios/Portfolio_2024-01-02.csv" := Rows [row "ABC" 110 1100 10];
       "Portfolios/Portfolio_2024-01-03.csv" := Corrupt ]}%Z in
  let report := {| total_invested := F 1000; total_value := F 1100; total_ret := F 10 |} in
  update_portfolio_values yf fs = (fs', Some report)
  ∧ total_invested report = pandas.sum (Initial_Value <$> ledger_rows fs')
  ∧ total_value report = pandas.sum (Current_Value <$> ledger_rows fs').
Proof.
  intros row yf fs fs' report.
  assert (update_portfolio_values yf fs = (fs', Some report)) as H by compute_done.
  split; [exact H|].
  destruct (aggregate_return yf fs) as [_ Hagg].
  destruct Hagg as (report' & Hr & H1 & H2 & _).
  { intros Hempty. apply (f_equal (λ m : Store, m !! "Portfolios/Portfolio_2024-01-03.csv"))
      in Hempty. vm_compute in Hempty. discriminate. }
  rewrite H in Hr, H1, H2. cbn [fst snd] in Hr, H1, H2. injection Hr as <-.
  split; [exact H1|exact H2].
Defined.


(** *** The classifier: claim C3 *)

Import scanner_bot.

Section Classifier.

Lemma loc_set_lookup {A : Type} (index : list nat) (value : A) (col : list A) (i : nat) :
  pandas.loc_set index value col !! i
  = if decide (i ∈ index) then const value <$> col !! i else col !! i.
Proof.
  unfold pandas.loc_set. revert col.
  induction index as [|j index IH]; intros col; cbn [foldl].
  - destruct (decide (i ∈ [])) as [Hin|]; [|done]. by apply elem_of_nil in Hin.
  - rewrite IH. clear IH.
    assert (Hj : <[j:=value]> col !! i
                 = if decide (i = j) then const value <$> col !! i else col !! i).
    { destruct (decide (i = j)) as [->|Hne].
      - destruct (decide (j < length col)) as [Hlt|Hge].
        + rewrite list_lookup_insert_eq by done.
          destruct (lookup_lt_is_Some_2 col j Hlt) as [x ->]. done.
        + rewrite list_insert_ge by lia. rewrite lookup_ge_None_2 by lia. done.
      - by rewrite list_lookup_insert_ne. }
    rewrite Hj. clear Hj.
    destruct (decide (i = j)) as [->|Hne].
    + destruct (decide (j ∈ j :: index)) as [_|Hn]; [|exfalso; apply Hn; left].
      destruct (decide (j ∈ index)); [|done]. by destruct (col !! j).
    + destruct (decide (i ∈ index)) as [Hin|Hin],
        (decide (i ∈ j :: index)) as [Hin'|Hin']; try done.
      * exfalso. apply Hin'. by right.
      * apply elem_of_cons in Hin' as [?|?]; done.
Qed.

Lemma elem_of_mask_index {A : Type} (mask : A → bool) (df : list A) (i : nat) :
  i ∈ pandas.mask_index mask df ↔ ∃ r, df !! i = Some r ∧ mask r = true.
Proof.
  unfold pandas.mask_index. rewrite list_elem_of_fmap. split.
  - intros ([j r] & -> & [Hm Hin]%list_elem_of_filter).
    apply elem_of_lookup_imap in Hin as (k & y & [= -> ->] & Hk). simpl in *. eauto.
  - intros (r & Hi & Hm). exists (i, r). split; [done|].
    apply list_elem_of_filter. split; [done|].
    apply elem_of_lookup_imap. eauto.
Qed.

Lemma loc_set_guard {A : Type} (index : list nat) (value : A) (col : list A) :
  (if negb (pandas.empty index) then pandas.loc_set index value col else col)
  = pandas.loc_set index value col.
Proof. by destruct index. Qed.

(** The label of a row depends on the row alone: the last of the three
    masks that selects it. *)
Lemma assign_lists_lookup df i :
  assign_lists df !! i
  = (λ r, {| metrics := r;
             List_ := if is_turnaround r then "Turnarounds"
                      else if is_rocket r then "Rockets"
                      else if is_simmering r then "Simmering Growth"
                      else "Other" |}) <$> df !! i.
Proof.
  unfold assign_lists. rewrite !loc_set_guard, lookup_zip_with, !loc_set_lookup.
  destruct (df !! i) as [r|] eqn:Hi; [|done]. simpl.
  rewrite lookup_replicate_2 by (by eapply lookup_lt_Some).
  assert (Hmask : ∀ mask, (∃ r', df !! i = Some r' ∧ mask r' = true) ↔ mask r = true).
  { intros mask. split; [intros (r' & Hr' & ?); congruence|eauto]. }
  destruct (decide (i ∈ pandas.mask_index is_turnaround df)) as [H3|H3];
    rewrite elem_of_mask_index, Hmask in H3;
    destruct (decide (i ∈ pandas.mask_index is_rocket df)) as [H2|H2];
    rewrite elem_of_mask_index, Hmask in H2;
    destruct (decide (i ∈ pandas.mask_index is_simmering df)) as [H1|H1];
    rewrite elem_of_mask_index, Hmask in H1;
    simpl; repeat case_match; congruence.
Qed.



(** The edges of the three rules, on the code: 52-week returns of 10 and 20
    are inside Simmering Growth, 50 is outside Rockets, 0 is outside
    Turnarounds; monthly returns of 5 and 10 are outside. *)
Example assign_lists_edges :
  let r (y m : Z) :=
    {| Symbol := "S"; Price := F 1; Change_pct := F 0; RSI_14 := Str "N/A";
       Weekly_Ret := F 0; Monthly_Ret := Fin (Q2Qc (m # 100)); YTD_Ret := F 0;
       Ret_52W := Fin (Q2Qc (y # 100)) |} in
  (* returns in hundredths of a percent point: 1000 is 10.00 *)
  List_ <$> assign_lists
    [r 1000 600; r 2000 600; r 999 600; r 2001 600; r 1500 500; r 1500 501;
     r 5000 1100; r 5001 1100; r 6000 1000; r 6000 1001;
     r 0 1100; r (-1) 1100; r (-500) 1000; r (-500) 1001; r 3000 5000]%Z
  = ["Simmering Growth"; "Simmering Growth"; "Other"; "Other"; "Other"; "Simmering Growth";
     "Other"; "Rockets"; "Other"; "Rockets";
     "Other"; "Turnarounds"; "Other"; "Turnarounds"; "Other"].
Proof. vm_compute. reflexivity. Qed.

End Classifier.

(** *** The metric engine *)

Section Series.

Lemma iloc_last {A : Type} (s : list A) :
  pandas.iloc s (-1) = s !! (length s - 1).
Proof.
  unfold pandas.iloc. cbn [Z.ltb Z.compare]. destruct s as [|x s]; [done|].
  rewrite (proj2 (Z.ltb_ge _ _)) by (simpl length; lia).
  f_equal. simpl length. lia.
Qed.

Lemma iloc_from_end {A : Type} (s : list A) (k : nat) :
  0 < k ≤ length s → pandas.iloc s (- Z.of_nat k) = s !! (length s - k).
Proof.
  intros Hk. unfold pandas.iloc.
  rewrite (proj2 (Z.ltb_lt _ _)) by lia.
  rewrite (proj2 (Z.ltb_ge _ _)) by lia.
  f_equal. lia.
Qed.

Lemma iloc_first {A : Type} (s : list A) : pandas.iloc s 0 = s !! 0.
Proof. done. Qed.

(** The sum of finite values is their finite sum. *)
Lemma foldr_fadd_Fin (l : list Qc) :
  foldr fadd (F 0) (Fin <$> l) = Fin (foldr Qcplus 0%Qc l).
Proof.
  induction l as [|x l IH]; [done|].
  rewrite fmap_cons. cbn [foldr]. by rewrite IH.
Qed.

Lemma zq_neq_0 (n : nat) : 0 < n → zq (Z.of_nat n) ≠ zq 0.
Proof.
  intros Hn Heq. apply (f_equal this) in Heq. unfold zq, Q2Qc in Heq. cbn [this] in Heq.
  assert (inject_Z (Z.of_nat n) == inject_Z 0)%Q as Hq
    by (rewrite <- (Qred_correct (inject_Z (Z.of_nat n))), Heq; apply Qred_correct).
  unfold Qeq in Hq. simpl in Hq. lia.
Qed.

Lemma window_mean_Fin (w : list Qc) :
  0 < length w →
  pandas.window_mean (Fin <$> w)
  = Fin (foldr Qcplus 0%Qc w / zq (Z.of_nat (length w))).
Proof.
  intros Hw. unfold pandas.window_mean. rewrite foldr_fadd_Fin, length_fmap.
  unfold F, fdiv. rewrite (proj2 (Qc_eqb_false _ _) (zq_neq_0 _ Hw)). done.
Qed.

(** The latest value of a rolling mean over a finite series that is long
    enough is the mean of its last [n] values. *)
Lemma rolling_mean_last (n : nat) (l : list Qc) :
  0 < n ≤ length l →
  pandas.iloc (pandas.rolling_mean n (Fin <$> l)) (-1) = Some (Fin (mean_last n l)).
Proof.
  intros Hn. rewrite iloc_last. unfold pandas.rolling_mean.
  rewrite length_imap, list_lookup_imap, length_fmap.
  destruct (lookup_lt_is_Some_2 (Fin <$> l) (length l - 1)) as [x Hx].
  { rewrite length_fmap. lia. }
  rewrite Hx. simpl.
  rewrite (proj2 (Nat.ltb_ge _ _)) by lia.
  replace (length l - 1 + 1 - n) with (length l - n) by lia.
  rewrite <- fmap_drop, <- fmap_take, window_mean_Fin.
  - rewrite take_ge by (rewrite length_drop; lia).
    rewrite length_drop. unfold mean_last.
    by replace (length l - (length l - n)) with n by lia.
  - rewrite length_take, length_drop. lia.
Qed.

End Series.

Section RSI.

Lemma gain_zip (t s : list Qc) :
  (λ x, if fgtb x (F 0) then x else F 0) <$> zip_with fsub (Fin <$> t) (Fin <$> s)
  = Fin <$> zip_with (λ c prev, Qc_max (c - prev) 0) t s.
Proof.
  revert s. induction t as [|x t IH]; intros [|p s]; try done.
  rewrite !fmap_cons. cbn [zip_with]. rewrite !fmap_cons, IH. f_equal.
  unfold fgtb, fsub, fneg, fadd, fltb, F, Qc_max, Qc_ltb, Qc_leb.
  change (zq 0) with 0%Qc. change (x + - p)%Qc with (x - p)%Qc.
  repeat case_bool_decide; try done.
  - exfalso. eapply Qclt_not_le; eauto.
  - exfalso. eauto using Qcnot_lt_le.
Qed.

Lemma loss_zip (t s : list Qc) :
  fneg <$> ((λ x, if fltb x (F 0) then x else F 0)
              <$> zip_with fsub (Fin <$> t) (Fin <$> s))
  = Fin <$> zip_with (λ c prev, Qc_max (- (c - prev)) 0) t s.
Proof.
  revert s. induction t as [|x t IH]; intros [|p s]; try done.
  rewrite !fmap_cons. cbn [zip_with]. rewrite !fmap_cons, IH. f_equal.
  unfold fsub, fneg, fadd, fltb, F, Qc_max, Qc_ltb, Qc_leb.
  change (zq 0) with 0%Qc. change (x + - p)%Qc with (x - p)%Qc.
  assert (Hopp : ∀ d : Qc, (d < 0 ↔ ¬ (- d <= 0))%Qc).
  { intros d. split.
    - intros Hd Hle. apply (Qclt_not_le _ _ Hd). qc_to_q. lra.
    - intros Hn. apply Qcnot_le_lt in Hn. qc_to_q. lra. }
  repeat case_bool_decide; try done.
  - exfalso. by apply (proj1 (Hopp (x - p)%Qc)).
  - exfalso. by apply (proj2 (Hopp (x - p)%Qc)) in H0.
Qed.

(** The gain and loss series of the code are the gains and losses of the
    specification, after a leading zero for the first bar. *)
Lemma gain_series (c : Qc) (cs : list Qc) :
  pandas.where_ (λ d, fgtb d (F 0)) (F 0) (pandas.diff (Fin <$> (c :: cs)))
  = Fin <$> (0%Qc :: day_gains (c :: cs)).
Proof.
  unfold pandas.where_, pandas.diff, day_gains.
  rewrite (fmap_cons Fin c cs), (fmap_cons Fin 0%Qc), fmap_cons.
  rewrite <- (fmap_cons Fin c cs). cbn [tail]. by rewrite gain_zip.
Qed.

Lemma loss_series (c : Qc) (cs : list Qc) :
  fneg <$> pandas.where_ (λ d, fltb d (F 0)) (F 0) (pandas.diff (Fin <$> (c :: cs)))
  = Fin <$> (0%Qc :: day_losses (c :: cs)).
Proof.
  unfold pandas.where_, pandas.diff, day_losses.
  rewrite (fmap_cons Fin c cs), (fmap_cons Fin 0%Qc), !fmap_cons.
  rewrite <- (fmap_cons Fin c cs). cbn [tail]. by rewrite loss_zip.
Qed.

Lemma Qc_max_nonneg (a : Qc) : (0 <= Qc_max a 0)%Qc.
Proof.
  unfold Qc_max, Qc_leb. case_bool_decide as H; [apply Qcle_refl|].
  apply Qclt_le_weak. by apply Qcnot_le_lt.
Qed.

Lemma day_gains_nonneg (cs : list Qc) : Forall (λ q, (0 <= q)%Qc) (day_gains cs).
Proof.
  unfold day_gains. generalize (tail cs) as t. intros t. revert cs.
  induction t as [|x t IH]; intros [|p s]; try constructor; auto using Qc_max_nonneg.
Qed.

Lemma day_losses_nonneg (cs : list Qc) : Forall (λ q, (0 <= q)%Qc) (day_losses cs).
Proof.
  unfold day_losses. generalize (tail cs) as t. intros t. revert cs.
  induction t as [|x t IH]; intros [|p s]; try constructor; auto using Qc_max_nonneg.
Qed.

Lemma foldr_Qcplus_nonneg (l : list Qc) :
  Forall (λ q, (0 <= q)%Qc) l → (0 <= foldr Qcplus 0 l)%Qc.
Proof.
  induction 1 as [|x l Hx _ IH]; [apply Qcle_refl|].
  cbn [foldr]. revert IH. generalize (foldr Qcplus 0%Qc l). intros s IH.
  qc_to_q. lra.
Qed.

Lemma mean_last_nonneg (n : nat) (l : list Qc) :
  Forall (λ q, (0 <= q)%Qc) l → (0 <= mean_last n l)%Qc.
Proof.
  intros Hl. unfold mean_last.
  assert (0 <= foldr Qcplus 0 (drop (length l - n) l))%Qc as Hs.
  { apply foldr_Qcplus_nonneg. by apply Forall_drop. }
  revert Hs. generalize (foldr Qcplus 0%Qc (drop (length l - n) l)). intros s Hs.
  destruct n as [|n].
  - assert (s / zq (Z.of_nat 0) = 0)%Qc as ->; [|apply Qcle_refl].
    apply Qc_is_canon. qc_to_q. simpl. unfold Qinv. simpl. lra.
  - qc_to_q. apply Qle_shift_div_l.
    + unfold inject_Z. unfold Qlt. simpl. lia.
    + unfold inject_Z in *. lra.
Qed.

Lemma mean_last_cons (n : nat) (x : Qc) (l : list Qc) :
  n ≤ length l → mean_last n (x :: l) = mean_last n l.
Proof.
  intros Hn. unfold mean_last. do 2 f_equal. simpl length.
  replace (S (length l) - n) with (S (length l - n)) by lia. done.
Qed.

Lemma length_day_gains (cs : list Qc) : length (day_gains cs) = length cs - 1.
Proof.
  unfold day_gains. rewrite length_zip_with. destruct cs; simpl; lia.
Qed.

Lemma length_day_losses (cs : list Qc) : length (day_losses cs) = length cs - 1.
Proof.
  unfold day_losses. rewrite length_zip_with. destruct cs; simpl; lia.
Qed.

Lemma length_rolling_mean (n : nat) (s : list fnum) :
  length (pandas.rolling_mean n s) = length s.
Proof. unfold pandas.rolling_mean. apply length_imap. Qed.

Lemma rolling_mean_lookup_last (n : nat) (l : list Qc) :
  0 < n ≤ length l →
  pandas.rolling_mean n (Fin <$> l) !! (length l - 1) = Some (Fin (mean_last n l)).
Proof.
  intros Hn. rewrite <- (rolling_mean_last n l Hn), iloc_last.
  by rewrite length_rolling_mean, length_fmap.
Qed.

Lemma rsi_14_short (closes : list fnum) :
  length closes < 15 → rsi_14 closes = Some NaN.
Proof.
  intros Hn. unfold rsi_14. by rewrite (proj2 (Nat.leb_gt _ _)) by lia.
Qed.

(** With 15 bars or more, the RSI before rounding, from the two 14-day
    means of the specification. *)
Lemma rsi_14_value (cs : list Qc) :
  15 ≤ length cs →
  let G := mean_last 14 (day_gains cs) in
  let L := mean_last 14 (day_losses cs) in
  rsi_14 (Fin <$> cs)
  = Some (if Qc_eqb L (zq 0) then (if Qc_ltb (zq 0) G then F 100 else F 50)
          else Fin (zq 100 - zq 100 / (zq 1 + G / L))).
Proof.
  intros Hn G L.
  assert (HG0 : (0 <= G)%Qc) by apply mean_last_nonneg, day_gains_nonneg.
  assert (HL0 : (0 <= L)%Qc) by apply mean_last_nonneg, day_losses_nonneg.
  destruct cs as [|c cs']; [simpl in Hn; lia|].
  unfold rsi_14. rewrite length_fmap, (proj2 (Nat.leb_le _ _)) by lia.
  rewrite gain_series, loss_series.
  set (cs := c :: cs') in *. clearbody cs.
  set (gain := pandas.rolling_mean 14 (Fin <$> 0%Qc :: day_gains cs)).
  set (loss := pandas.rolling_mean 14 (Fin <$> 0%Qc :: day_losses cs)).
  assert (Hg : gain !! (length cs - 1) = Some (Fin G)).
  { unfold gain, G. rewrite <- (mean_last_cons 14 0%Qc) by (rewrite length_day_gains; lia).
    replace (length cs - 1) with (length (0%Qc :: day_gains cs) - 1)
      by (rewrite length_cons, length_day_gains; lia).
    apply rolling_mean_lookup_last. rewrite length_cons, length_day_gains. lia. }
  assert (Hl : loss !! (length cs - 1) = Some (Fin L)).
  { unfold loss, L. rewrite <- (mean_last_cons 14 0%Qc) by (rewrite length_day_losses; lia).
    replace (length cs - 1) with (length (0%Qc :: day_losses cs) - 1)
      by (rewrite length_cons, length_day_losses; lia).
    apply rolling_mean_lookup_last. rewrite length_cons, length_day_losses. lia. }
  assert (Hlen_g : length gain = length cs).
  { unfold gain. rewrite length_rolling_mean, length_fmap, length_cons.
    rewrite length_day_gains. lia. }
  assert (Hlen_l : length loss = length cs).
  { unfold loss. rewrite length_rolling_mean, length_fmap, length_cons.
    rewrite length_day_losses. lia. }
  rewrite !iloc_last, length_fmap, length_zip_with, Hlen_g, Hlen_l, Nat.min_id.
  rewrite list_lookup_fmap, lookup_zip_with, Hg, Hl. cbn [mbind option_bind fmap option_fmap option_map].
  clearbody gain loss G L. clear Hg Hl Hlen_g Hlen_l.
  assert (Hrs : fdiv (Fin G) (Fin L)
                = if Qc_eqb L (zq 0) then (if Qc_ltb (zq 0) G then PInf else NaN)
                  else Fin (G / L)).
  { unfold fdiv. destruct (Qc_eqb L (zq 0)); [|done].
    destruct (Qc_ltb (zq 0) G) eqn:HG; [done|].
    by rewrite (proj2 (Qc_ltb_false _ _)). }
  rewrite Hrs. clear Hrs. unfold F.
  destruct (Qc_eqb L (zq 0)) eqn:HL; [destruct (Qc_ltb (zq 0) G) eqn:HG|].
  - cbn [fadd fdiv fsub fneg isna F]. unfold F. cbn [fadd isna].
    reflexivity.
  - cbn [fadd fdiv fsub fneg isna]. unfold fgtb, fltb. by rewrite HG.
  - apply Qc_eqb_false in HL.
    assert (HL1 : (zq 0 < L)%Qc).
    { apply Qcnot_le_lt. intros Hle. apply HL. by apply Qcle_antisym. }
    assert (Hr : (zq 0 <= G / L)%Qc).
    { qc_to_q. apply Qle_shift_div_l; [exact HL1|]. unfold inject_Z in *. lra. }
    cbn [fadd]. unfold fdiv.
    assert (Qc_eqb (zq 1 + G / L) (zq 0) = false) as ->.
    { apply Qc_eqb_false. intros Heq. rewrite <- Heq in Hr.
      revert Hr. generalize (G / L)%Qc. intros r Hr. qc_to_q. unfold inject_Z in *. lra. }
    cbn [fsub fneg fadd isna]. done.
Qed.

End RSI.

Section Metrics.

Lemma rsi_bounds (r : Qc) :
  (zq 0 <= r)%Qc →
  (zq 0 <= zq 100 - zq 100 / (zq 1 + r))%Qc ∧ (zq 100 - zq 100 / (zq 1 + r) <= zq 100)%Qc.
Proof.
  intros Hr. qc_to_q. unfold inject_Z in *.
  assert (0 < 1 + r)%Q as Hd by lra.
  assert (100 / (1 + r) <= 100)%Q as H1.
  { apply Qle_shift_div_r; [exact Hd|]. lra. }
  assert (0 <= 100 / (1 + r))%Q as H2.
  { apply Qle_shift_div_l; [exact Hd|]. lra. }
  unfold Qdiv in *. revert H1 H2. generalize (/ (1 + r))%Q. intros t H1 H2. lra.
Qed.

Lemma closes_finite (hist : list Bar) :
  (λ b, Fin (bar_close b)) <$> hist = Fin <$> (bar_close <$> hist).
Proof. by rewrite <- list_fmap_compose. Qed.

Lemma rsi_14_total (hist : list Bar) :
  is_Some (rsi_14 ((λ b, Fin (bar_close b)) <$> hist)).
Proof.
  rewrite closes_finite.
  destruct (decide (length (bar_close <$> hist) < 15)) as [Hlt|Hge].
  - rewrite rsi_14_short; [eauto|]. by rewrite length_fmap.
  - rewrite rsi_14_value by lia. eauto.
Qed.

Lemma current_price_of_total (i : Info) (closes : list fnum) :
  closes ≠ [] → is_Some (current_price_of i closes).
Proof.
  intros Hne. unfold current_price_of.
  destruct (truthy _) eqn:Ht; simpl.
  - destruct (dict_get _ _); [done|eauto].
  - rewrite iloc_last. apply lookup_lt_is_Some_2.
    destruct closes; [done|]. simpl. lia.
Qed.

Lemma round_zero_return : py_round (fmul (F 0) (F 100)) 2 = F 0.
Proof. compute_done. Qed.

Lemma iloc_from_end_is_Some {A : Type} (s : list A) (k : nat) :
  0 < k ≤ length s → is_Some (pandas.iloc s (- Z.of_nat k)).
Proof.
  intros Hk. rewrite iloc_from_end by done. apply lookup_lt_is_Some_2. lia.
Qed.

(** No price, zero included, makes the metrics of a non-empty history
    fail: the only failure left is a change percentage that is not a
    number. *)
Lemma stock_metrics_total sym (i : Info) (hist : list Bar) year cp :
  hist ≠ [] →
  is_Some (times_100 (dict_get (regularMarketChangePercent i) (PyNum (F 0)))) →
  is_Some (stock_metrics sym i hist year cp).
Proof.
  intros Hne [change Hchange]. unfold stock_metrics.
  set (closes := (λ b, Fin (bar_close b)) <$> hist).
  assert (Hlen : length closes = length hist) by apply length_fmap.
  assert (Hw : ∀ k, 0 < k →
    is_Some (if (k <=? length hist)%nat
             then price ← pandas.iloc closes (- Z.of_nat k);
                  Some (fdiv (fsub cp price) price)
             else Some (F 0))).
  { intros k Hk. destruct (k <=? length hist)%nat eqn:E; [|eauto].
    apply Nat.leb_le in E.
    destruct (iloc_from_end_is_Some closes k) as [p ->]; [lia|]. simpl. eauto. }
  pose proof (Hw 6 ltac:(lia)) as H6. pose proof (Hw 22 ltac:(lia)) as H22.
  change (- Z.of_nat 6)%Z with (-6)%Z in H6.
  change (- Z.of_nat 22)%Z with (-22)%Z in H22.
  destruct H6 as [weekly ->]. destruct H22 as [monthly ->]. cbn [mbind option_bind].
  set (hist_ytd := filter _ hist).
  assert (Hy : is_Some (if negb (pandas.empty hist_ytd)
                        then price ← pandas.iloc ((λ b, Fin (bar_open b)) <$> hist_ytd) 0;
                             Some (fdiv (fsub cp price) price)
                        else Some (F 0))).
  { destruct hist_ytd as [|b rest]; simpl; eauto. }
  destruct Hy as [ytd ->]. cbn [mbind option_bind].
  assert (Hyr : is_Some (if (0 <? length hist)%nat
                         then price ← pandas.iloc closes 0;
                              Some (fdiv (fsub cp price) price)
                         else Some (F 0))).
  { destruct hist as [|b rest]; [done|]. simpl. eauto. }
  destruct Hyr as [yr ->]. cbn [mbind option_bind].
  destruct (rsi_14_total hist) as [rsi Hrsi]. fold closes in Hrsi. rewrite Hrsi.
  cbn [mbind option_bind]. rewrite Hchange. cbn [mbind option_bind]. eauto.
Qed.

Lemma filter_none {A : Type} (p : A → bool) (l : list A) :
  Forall (λ x, p x = false) l → filter (λ x, p x = true) l = [].
Proof.
  induction 1 as [|x rest Hx _ IH]; [done|].
  rewrite filter_cons. destruct (decide _); [congruence|exact IH].
Qed.

(** What a returned row holds. *)
Lemma stock_metrics_fields sym (i : Info) (hist : list Bar) year cp row :
  stock_metrics sym i hist year cp = Some row →
  Symbol row = sym ∧ Price row = cp
  ∧ (∃ rsi, rsi_14 ((λ b, Fin (bar_close b)) <$> hist) = Some rsi
            ∧ RSI_14 row = if negb (isna rsi) then Num (py_round rsi 2) else Str "N/A")
  ∧ (length hist < 6 → Weekly_Ret row = F 0)
  ∧ (length hist < 22 → Monthly_Ret row = F 0)
  ∧ (Forall (λ b, date_geb (bar_date b) {| year := year; month := 1; day := 1 |} = false)
            hist → YTD_Ret row = F 0).
Proof.
  unfold stock_metrics. intros H.
  apply bind_Some in H as (weekly & Hw & H).
  apply bind_Some in H as (monthly & Hm & H).
  apply bind_Some in H as (ytd & Hy & H).
  apply bind_Some in H as (yr & Hyr & H).
  apply bind_Some in H as (rsi & Hrsi & H).
  apply bind_Some in H as (change & Hc & H).
  injection H as <-. cbn. split; [done|]. split; [done|]. split; [eauto|].
  split; [|split].
  - intros Hlt. rewrite (proj2 (Nat.leb_gt _ _)) in Hw by lia.
    injection Hw as <-. apply round_zero_return.
  - intros Hlt. rewrite (proj2 (Nat.leb_gt _ _)) in Hm by lia.
    injection Hm as <-. apply round_zero_return.
  - intros Hall.
    assert (filter (λ b, date_geb (bar_date b) {| year := year; month := 1; day := 1 |} = true)
                   hist = []) as Hnil.
    { by apply filter_none. }
    rewrite Hnil in Hy. injection Hy as <-. apply round_zero_return.
Qed.

(** The four returns of a returned row: each is the return of the current
    price against the price its window starts from, whatever that price
    is. *)
Lemma stock_metrics_returns sym (i : Info) (hist : list Bar) year cp row :
  stock_metrics sym i hist year cp = Some row →
  (∀ b, 6 ≤ length hist → hist !! (length hist - 6) = Some b →
        Weekly_Ret row = return_pct cp (Fin (bar_close b)))
  ∧ (∀ b, 22 ≤ length hist → hist !! (length hist - 22) = Some b →
          Monthly_Ret row = return_pct cp (Fin (bar_close b)))
  ∧ (∀ b, head (filter (λ b, date_geb (bar_date b)
                               {| year := year; month := 1; day := 1 |} = true) hist)
          = Some b →
          YTD_Ret row = return_pct cp (Fin (bar_open b)))
  ∧ (∀ b, head hist = Some b → Ret_52W row = return_pct cp (Fin (bar_close b))).
Proof.
  unfold stock_metrics. intros H.
  apply bind_Some in H as (weekly & Hw & H).
  apply bind_Some in H as (monthly & Hm & H).
  apply bind_Some in H as (ytd & Hy & H).
  apply bind_Some in H as (yr & Hyr & H).
  apply bind_Some in H as (rsi & Hrsi & H).
  apply bind_Some in H as (change & Hc & H).
  injection H as <-. cbn. unfold return_pct.
  set (closes := (λ b, Fin (bar_close b)) <$> hist) in *.
  assert (Hlen : length closes = length hist) by apply length_fmap.
  assert (Hwin : ∀ (k : nat) b, 0 < k ≤ length hist → hist !! (length hist - k) = Some b →
            pandas.iloc closes (- Z.of_nat k) = Some (Fin (bar_close b))).
  { intros k b Hk Hb. rewrite iloc_from_end by lia.
    unfold closes. by rewrite list_lookup_fmap, length_fmap, Hb. }
  split; [|split; [|split]].
  - intros b Hge Hb. rewrite (proj2 (Nat.leb_le _ _) Hge) in Hw.
    pose proof (Hwin 6 b ltac:(lia) Hb) as Hi. change (- Z.of_nat 6)%Z with (-6)%Z in Hi.
    rewrite Hi in Hw. by injection Hw as <-.
  - intros b Hge Hb. rewrite (proj2 (Nat.leb_le _ _) Hge) in Hm.
    pose proof (Hwin 22 b ltac:(lia) Hb) as Hi. change (- Z.of_nat 22)%Z with (-22)%Z in Hi.
    rewrite Hi in Hm. by injection Hm as <-.
  - intros b Hb. destruct (filter _ hist) as [|b0 rest]; [done|].
    injection Hb as ->. cbn in Hy. by injection Hy as <-.
  - intros b Hb. destruct hist as [|b0 rest]; [done|].
    injection Hb as ->. cbn in Hyr. by injection Hyr as <-.
Qed.

(** A return against a price of zero is no finite number: it is an
    infinity or NaN. *)
Lemma return_pct_zero (cp : fnum) (d : Qc) :
  d = zq 0 → return_pct cp (Fin d) ∈ [PInf; NInf; NaN].
Proof.
  intros ->. unfold return_pct.
  assert (Qc_eqb (zq 0) (zq 0) = true) as Hz by (by apply bool_decide_eq_true_2).
  destruct cp as [a| | |].
  - unfold fsub, fdiv. cbn [fneg fadd]. rewrite Hz.
    destruct (Qc_ltb (zq 0) _); [cbn; set_solver|].
    destruct (Qc_ltb _ (zq 0)); cbn; set_solver.
  - cbn. set_solver.
  - cbn. set_solver.
  - cbn. set_solver.
Qed.

Lemma get_stock_data_run yf year sym (i : Info) (hist : list Bar) :
  info (yf sym) = Some i → history (yf sym) = Some hist → hist ≠ [] →
  get_stock_data yf year sym
  = current_price_of i ((λ b, Fin (bar_close b)) <$> hist)
      ≫= stock_metrics sym i hist year.
Proof.
  intros Hi Hh Hne. unfold get_stock_data. rewrite Hi, Hh. simpl.
  by destruct hist.
Qed.

End Metrics.

(** *** The metric engine: claims C4, C5 and C10 *)

(** C4 (the input that breaks the claim as stated).  Six bars whose oldest
    close is 0, current price 1: the weekly window divides by that close;
    no error is raised and the weekly return is +infinity, not 0. *)
Lemma weekly_return_zero_denominator :
  let bar (c : Z) :=
    {| bar_date := {| year := 2024; month := 3; day := 1 |};
       bar_open := zq c; bar_close := zq c |} in
  let hist := bar <$> [0; 1; 1; 1; 1; 1]%Z in
  let yf (_ : string) :=
    {| info := Some {| currentPrice := Some (PyNum (F 1)); regularMarketPrice := None;
                       regularMarketChangePercent := None |};
       history := Some hist; fast_info_last_price := None |} in
  pandas.iloc ((λ b, Fin (bar_close b)) <$> hist) (-6) = Some (F 0)
  ∧ Weekly_Ret <$> get_stock_data yf 2024 "A" = Some PInf.
Proof. intros bar hist yf. split; compute_done. Qed.

(** C4 (amended).  The return windows are guarded by the number of bars
    only.  Whatever the prices, zero and negative ones included, the metrics
    of a non-empty history are computed without an arithmetic fault (a row
    is returned as soon as the change percentage is a number); the weekly
    return is 0 with fewer than 6 bars, the monthly return is 0 with fewer
    than 22 bars and the year-to-date return is 0 when no bar falls in the
    current year.  A window that has its bars divides by the price it
    starts from, whatever that price is: the close 6 and 22 bars from the
    end, the open of the first bar of the year, the first close.  Against a
    price of zero the return is an infinity or NaN, not 0. *)
Theorem window_returns_guarded_by_bar_count yf year sym (i : Info) (hist : list Bar) :
  info (yf sym) = Some i → history (yf sym) = Some hist → hist ≠ [] →
  is_Some (times_100 (dict_get (regularMarketChangePercent i) (PyNum (F 0)))) →
  ∃ row, get_stock_data yf year sym = Some row
    ∧ (length hist < 6 → Weekly_Ret row = F 0)
    ∧ (length hist < 22 → Monthly_Ret row = F 0)
    ∧ (Forall (λ b, date_geb (bar_date b) {| year := year; month := 1; day := 1 |} = false)
              hist → YTD_Ret row = F 0)
    ∧ (∀ b, 6 ≤ length hist → hist !! (length hist - 6) = Some b →
            Weekly_Ret row = return_pct (Price row) (Fin (bar_close b)))
    ∧ (∀ b, 22 ≤ length hist → hist !! (length hist - 22) = Some b →
            Monthly_Ret row = return_pct (Price row) (Fin (bar_close b)))
    ∧ (∀ b, head (filter (λ b, date_geb (bar_date b)
                                 {| year := year; month := 1; day := 1 |} = true) hist)
            = Some b →
            YTD_Ret row = return_pct (Price row) (Fin (bar_open b)))
    ∧ (∀ b, head hist = Some b → Ret_52W row = return_pct (Price row) (Fin (bar_close b)))
    ∧ (∀ d, d = zq 0 → return_pct (Price row) (Fin d) ∈ [PInf; NInf; NaN]).
Proof.
  intros Hi Hh Hne Hc. rewrite (get_stock_data_run yf year sym i hist Hi Hh Hne).
  destruct (current_price_of_total i ((λ b, Fin (bar_close b)) <$> hist)) as [cp ->].
  { by destruct hist. }
  cbn [mbind option_bind].
  destruct (stock_metrics_total sym i hist year cp Hne Hc) as [row Hrow].
  exists row. split; [exact Hrow|].
  destruct (stock_metrics_fields sym i hist year cp row Hrow) as (_ & -> & _ & ? & ? & ?).
  destruct (stock_metrics_returns sym i hist year cp row Hrow) as (? & ? & ? & ?).
  do 7 (split; [done|]). intros d. apply return_pct_zero.
Qed.

Lemma window_returns_guarded_by_bar_count_witness :
  let bar (c : Z) :=
    {| bar_date := {| year := 2023; month := 12; day := 1 |};
       bar_open := zq c; bar_close := zq c |} in
  let hist := bar <$> [0; 5; 7]%Z in
  let i := {| currentPrice := Some (PyNum (F 8)); regularMarketPrice := None;
              regularMarketChangePercent := None |} in
  let yf (_ : string) :=
    {| info := Some i; history := Some hist; fast_info_last_price := None |} in
  ∃ row, get_stock_data yf 2024 "A" = Some row
    ∧ Weekly_Ret row = F 0 ∧ Monthly_Ret row = F 0 ∧ YTD_Ret row = F 0
    ∧ Ret_52W row = return_pct (Price row) (F 0)
    ∧ Ret_52W row ∈ [PInf; NInf; NaN].
Proof.
  intros bar hist i yf.
  destruct (window_returns_guarded_by_bar_count yf 2024 "A" i hist)
    as (row & Hrow & Hw & Hm & Hy & _ & _ & _ & H52 & H0);
    [reflexivity|reflexivity|discriminate|by eexists|].
  exists row. split; [exact Hrow|].
  assert (Ret_52W row = return_pct (Price row) (F 0)) as Hr by (by apply (H52 (bar 0%Z))).
  split; [|split; [|split; [|split]]].
  - apply Hw. simpl. lia.
  - apply Hm. simpl. lia.
  - apply Hy. repeat constructor.
  - exact Hr.
  - rewrite Hr. by apply (H0 (zq 0)).
Defined.

Lemma round_rsi_edges : py_round (F 100) 2 = F 100 ∧ py_round (F 50) 2 = F 50.
Proof. split; compute_done. Qed.

(** C5 (the input that breaks the claim as stated).  Twenty closes that
    rise from 1 to 19 and then stay at 19 for a day: the rolling mean of
    losses is 0 and the latest day-over-day gain is 0, not positive, yet
    the RSI is 100, not 50.  Line 178 tests [gain.iloc[-1]], the latest
    value of the rolling mean of gains, here 13/14. *)
Lemma rsi_100_after_a_flat_day :
  let bar (c : Z) :=
    {| bar_date := {| year := 2024; month := 3; day := 1 |};
       bar_open := zq c; bar_close := zq c |} in
  let hist := bar <$> [1; 2; 3; 4; 5; 6; 7; 8; 9; 10;
                       11; 12; 13; 14; 15; 16; 17; 18; 19; 19]%Z in
  let yf (_ : string) :=
    {| info := Some {| currentPrice := None; regularMarketPrice := None;
                       regularMarketChangePercent := None |};
       history := Some hist; fast_info_last_price := None |} in
  let closes := bar_close <$> hist in
  mean_last 14 (day_losses closes) = zq 0
  ∧ last (day_gains closes) = Some (zq 0)
  ∧ mean_last 14 (day_gains closes) = Q2Qc (13 # 14)
  ∧ RSI_14 <$> get_stock_data yf 2024 "A" = Some (Num (F 100)).
Proof. intros bar hist yf closes. repeat split; compute_done. Qed.

(** C5 (amended).  The RSI cell of a returned row: "N/A" with fewer than
    15 bars; with 15 bars or more a number between 0 and 100, computed from
    G and L, the means of the last 14 day-over-day gains max(delta, 0) and
    losses max(-delta, 0), as round(100 - 100 / (1 + G / L), 2) when L is
    not 0; when L is 0 it is 100 if G, the latest value of the rolling mean
    of gains, is positive and 50 otherwise, whatever the latest day-over-day
    gain is. *)
Theorem rsi_14_cell yf year sym row (hist : list Bar) :
  get_stock_data yf year sym = Some row →
  history (yf sym) = Some hist →
  let G := mean_last 14 (day_gains (bar_close <$> hist)) in
  let L := mean_last 14 (day_losses (bar_close <$> hist)) in
  (length hist < 15 → RSI_14 row = Str "N/A")
  ∧ (15 ≤ length hist →
       ∃ q, RSI_14 row = Num (Fin q) ∧ (zq 0 <= q)%Qc ∧ (q <= zq 100)%Qc
         ∧ (L = zq 0 → q = if Qc_ltb (zq 0) G then zq 100 else zq 50)
         ∧ (L ≠ zq 0 →
              Fin q = py_round (Fin (zq 100 - zq 100 / (zq 1 + G / L))) 2)).
Proof.
  intros Hrun Hh G L. unfold get_stock_data in Hrun. rewrite Hh in Hrun.
  destruct (info (yf sym)) as [i|]; [|done]. cbn [mbind option_bind] in Hrun.
  destruct (pandas.empty hist); [done|].
  apply bind_Some in Hrun as (cp & _ & Hrow).
  destruct (stock_metrics_fields sym i hist year cp row Hrow)
    as (_ & _ & (rsi & Hrsi & Hcell) & _).
  rewrite closes_finite in Hrsi. split.
  - intros Hlt. rewrite rsi_14_short in Hrsi by (by rewrite !length_fmap).
    injection Hrsi as <-. exact Hcell.
  - intros Hge. rewrite rsi_14_value in Hrsi by (by rewrite length_fmap).
    fold G L in Hrsi. injection Hrsi as <-.
    assert (HG0 : (0 <= G)%Qc) by apply mean_last_nonneg, day_gains_nonneg.
    assert (HL0 : (0 <= L)%Qc) by apply mean_last_nonneg, day_losses_nonneg.
    destruct round_rsi_edges as [H100 H50].
    destruct (Qc_eqb L (zq 0)) eqn:HL.
    + apply Qc_eqb_true in HL.
      destruct (Qc_ltb (zq 0) G) eqn:HGpos; cbn [isna negb F] in Hcell.
      * rewrite H100 in Hcell. exists (zq 100). by repeat split.
      * rewrite H50 in Hcell. exists (zq 50). by repeat split.
    + apply Qc_eqb_false in HL. cbn [isna negb] in Hcell.
      assert (HL1 : (zq 0 < L)%Qc).
      { apply Qcnot_le_lt. intros Hle. apply HL. by apply Qcle_antisym. }
      assert (Hr : (zq 0 <= G / L)%Qc).
      { clear Hcell. qc_to_q. apply Qle_shift_div_l; [exact HL1|].
        unfold inject_Z in *. lra. }
      destruct (rsi_bounds _ Hr) as [Hlo Hhi].
      destruct (py_round_2_percent _ Hlo Hhi) as (q & Hq & Hq0 & Hq100).
      exists q. rewrite Hq in Hcell. repeat split; try done.
Qed.

Lemma rsi_14_cell_witness :
  let bar (c : Z) :=
    {| bar_date := {| year := 2024; month := 3; day := 1 |};
       bar_open := zq c; bar_close := zq c |} in
  let hist := bar <$> [1; 2; 3; 4; 5; 6; 7; 8; 9; 10;
                       11; 12; 13; 14; 15; 16; 17; 18; 19; 18]%Z in
  let yf (_ : string) :=
    {| info := Some {| currentPrice := None; regularMarketPrice := None;
                       regularMarketChangePercent := None |};
       history := Some hist; fast_info_last_price := None |} in
  ∃ row, get_stock_data yf 2024 "A" = Some row
    ∧ ∃ q, RSI_14 row = Num (Fin q) ∧ (zq 0 <= q)%Qc ∧ (q <= zq 100)%Qc.
Proof.
  intros bar hist yf.
  destruct (get_stock_data yf 2024 "A") as [row|] eqn:Hrow; [|vm_compute in Hrow; discriminate].
  exists row. split; [reflexivity|].
  destruct (rsi_14_cell yf 2024 "A" row hist Hrow eq_refl) as [_ H].
  destruct H as (q & Hq & H0 & H100 & _); [simpl; lia|].
  exists q. split; [exact Hq|]. split; [exact H0|exact H100].
Defined.

(** A rising series and a flat one, in figures: twenty closes 1, 2, ..., 20
    give an RSI of 100; with the last close back at 18 it is 92.86; twenty
    equal closes give 50; fourteen bars give "N/A".  The series rising to
    19 and then flat for a day also gives 100: its last day-over-day gain
    is 0, the latest rolling mean of gains is not. *)
Example rsi_14_figures :
  let rsi (closes : list Z) :=
    (λ x, if negb (isna x) then Num (py_round x 2) else Str "N/A")
      <$> rsi_14 ((λ c, Fin (zq c)) <$> closes) in
  rsi [1; 2; 3; 4; 5; 6; 7; 8; 9; 10; 11; 12; 13; 14; 15; 16; 17; 18; 19; 20]%Z
    = Some (Num (F 100))
  ∧ rsi [1; 2; 3; 4; 5; 6; 7; 8; 9; 10; 11; 12; 13; 14; 15; 16; 17; 18; 19; 18]%Z
    = Some (Num (Fin (Q2Qc (9286 # 100))))
  ∧ rsi [7; 7; 7; 7; 7; 7; 7; 7; 7; 7; 7; 7; 7; 7; 7; 7; 7; 7; 7; 7]%Z
    = Some (Num (F 50))
  ∧ rsi [1; 2; 3; 4; 5; 6; 7; 8; 9; 10; 11; 12; 13; 14]%Z = Some (Str "N/A")
  ∧ rsi [1; 2; 3; 4; 5; 6; 7; 8; 9; 10; 11; 12; 13; 14; 15; 16; 17; 18; 19; 19]%Z
    = Some (Num (F 100)).
Proof. intros rsi. repeat split; compute_done. Qed.

(** C10.  When neither [currentPrice] nor [regularMarketPrice] holds a
    price (each is missing, None or zero) and the history is not empty, the
    current price is the last close of the history: the row is the one the
    metrics give against that close, the fetch does not fail for want of a
    price, the price of the row is that close, and each of its four returns
    is the return of that close against the price its window starts from
    (0 for a window that lacks its bars). *)
Theorem last_close_stands_in yf year sym (i : Info) (hist : list Bar) :
  info (yf sym) = Some i → history (yf sym) = Some hist → hist ≠ [] →
  no_price (currentPrice i) → no_price (regularMarketPrice i) →
  ∃ b, last hist = Some b
    ∧ current_price_of i ((λ b, Fin (bar_close b)) <$> hist) = Some (Fin (bar_close b))
    ∧ get_stock_data yf year sym = stock_metrics sym i hist year (Fin (bar_close b))
    ∧ (∀ row, get_stock_data yf year sym = Some row → Price row = Fin (bar_close b))
    ∧ (is_Some (times_100 (dict_get (regularMarketChangePercent i) (PyNum (F 0)))) →
       is_Some (get_stock_data yf year sym))
    ∧ (∀ row, get_stock_data yf year sym = Some row →
         let last_close := Fin (bar_close b) in
         (length hist < 6 → Weekly_Ret row = F 0)
         ∧ (∀ d, 6 ≤ length hist → hist !! (length hist - 6) = Some d →
                 Weekly_Ret row = return_pct last_close (Fin (bar_close d)))
         ∧ (length hist < 22 → Monthly_Ret row = F 0)
         ∧ (∀ d, 22 ≤ length hist → hist !! (length hist - 22) = Some d →
                 Monthly_Ret row = return_pct last_close (Fin (bar_close d)))
         ∧ (Forall (λ b, date_geb (bar_date b)
                           {| year := year; month := 1; day := 1 |} = false) hist →
            YTD_Ret row = F 0)
         ∧ (∀ d, head (filter (λ b, date_geb (bar_date b)
                                      {| year := year; month := 1; day := 1 |} = true) hist)
                 = Some d →
                 YTD_Ret row = return_pct last_close (Fin (bar_open d)))
         ∧ (∀ d, head hist = Some d →
                 Ret_52W row = return_pct last_close (Fin (bar_close d)))).
Proof.
  intros Hi Hh Hne Hc Hr.
  destruct (last hist) as [b|] eqn:Hlast.
  2: { apply last_None in Hlast. done. }
  exists b. split; [done|].
  assert (Hcp : current_price_of i ((λ b, Fin (bar_close b)) <$> hist)
                = Some (Fin (bar_close b))).
  { unfold current_price_of.
    assert (truthy (dict_get (currentPrice i)
                      (dict_get (regularMarketPrice i) (PyNum (F 0)))) = false) as ->.
    { unfold no_price in *. destruct (currentPrice i) as [v|]; [exact Hc|].
      destruct (regularMarketPrice i) as [v|]; [exact Hr|]. reflexivity. }
    cbn [negb]. rewrite iloc_last, length_fmap, list_lookup_fmap.
    rewrite last_lookup in Hlast. replace (length hist - 1) with (pred (length hist)) by lia.
    by rewrite Hlast. }
  split; [exact Hcp|].
  assert (Hrun : get_stock_data yf year sym
                 = stock_metrics sym i hist year (Fin (bar_close b))).
  { rewrite (get_stock_data_run yf year sym i hist Hi Hh Hne), Hcp. done. }
  split; [exact Hrun|]. split; [|split].
  - intros row Hrow. rewrite Hrun in Hrow.
    by destruct (stock_metrics_fields _ _ _ _ _ _ Hrow) as (_ & ? & _).
  - intros Hchange. rewrite Hrun. by apply stock_metrics_total.
  - intros row Hrow last_close. subst last_close. rewrite Hrun in Hrow.
    destruct (stock_metrics_fields _ _ _ _ _ _ Hrow) as (_ & _ & _ & ? & ? & ?).
    destruct (stock_metrics_returns _ _ _ _ _ _ Hrow) as (? & ? & ? & ?).
    repeat split; done.
Qed.

Lemma last_close_stands_in_witness :
  let bar (c : Z) :=
    {| bar_date := {| year := 2024; month := 3; day := 1 |};
       bar_open := zq c; bar_close := zq c |} in
  let hist := bar <$> [4; 5; 7]%Z in
  let i := {| currentPrice := Some PyNone; regularMarketPrice := Some (PyNum (F 0));
              regularMarketChangePercent := None |} in
  let yf (_ : string) :=
    {| info := Some i; history := Some hist; fast_info_last_price := None |} in
  ∃ b row, last hist = Some b
    ∧ current_price_of i ((λ b, Fin (bar_close b)) <$> hist) = Some (Fin (bar_close b))
    ∧ get_stock_data yf 2024 "A" = Some row
    ∧ Price row = F 7
    ∧ Ret_52W row = return_pct (F 7) (F 4)
    ∧ YTD_Ret row = return_pct (F 7) (F 4)
    ∧ Weekly_Ret row = F 0.
Proof.
  intros bar hist i yf.
  destruct (last_close_stands_in yf 2024 "A" i hist)
    as (b & H1 & H2 & H3 & H4 & H5 & H6);
    [reflexivity|reflexivity|discriminate|reflexivity|reflexivity|].
  destruct H5 as [row Hrow]; [by eexists|].
  assert (b = bar 7%Z) as -> by (by injection H1).
  destruct (H6 row Hrow) as (Hw & _ & _ & _ & _ & Hy & H52).
  exists (bar 7%Z), row. split; [exact H1|]. split; [exact H2|]. split; [exact Hrow|].
  split; [exact (H4 row Hrow)|]. split; [|split].
  - exact (H52 (bar 4%Z) eq_refl).
  - exact (Hy (bar 4%Z) eq_refl).
  - apply Hw. simpl. lia.
Defined.

(** *** The two scripts: claim C9 *)

Lemma main_returns tickers yf now fs : is_Some (main tickers yf now fs).
Proof.
  unfold main. destruct (pandas.empty tickers); [eauto|].
  destruct (pandas.empty _); [eauto|].
  destruct (add_new_positions _ _ _) as [[fs1 r]|]; [|eauto].
  destruct (update_portfolio_values yf fs1). eauto.
Qed.

(** C9 (the input that breaks the claim as stated).  A discovery that
    yields no symbol: [main] prints its message and returns, and the
    interpreter exits with status 0, not with a non-zero status. *)
Lemma empty_discovery_exits_zero :
  let yf (_ : string) := {| info := None; history := None; fast_info_last_price := None |} in
  python.exit_status (main [] yf {| today := "2024-01-02"; current_year := 2024 |} ∅)
  = 0%Z.
Proof. reflexivity. Qed.

(** C9 (amended).  Both scripts exit with status 0 on completion, whatever
    the per-symbol fetches do and also when the discovery yields no symbol
    at all; in that case the scan stops before any file is written and
    leaves the portfolio directory as it was. *)
Theorem scripts_exit_zero tickers yf now fs :
  python.exit_status (main tickers yf now fs) = 0%Z
  ∧ python.exit_status (script yf fs) = 0%Z
  ∧ main [] yf now fs = Some {| scan_csv := None; portfolios := fs; totals := None |}.
Proof.
  split; [|split]; [|reflexivity|reflexivity].
  by destruct (main_returns tickers yf now fs) as [r ->].
Qed.

(** ** Part III. Further properties of the two scripts *)

(** *** More on the ledger store *)

Section LedgerMore.

Implicit Types (today : string) (fs : Store) (df : list ScanRow).
Implicit Types (yf : string → Ticker).

Lemma string_length_app (s t : string) :
  String.length (s +:+ t) = String.length s + String.length t.
Proof. induction s as [|c s IH]; simpl; [done|]. by rewrite IH. Qed.

Lemma string_app_inj_r (s1 s2 t : string) : s1 +:+ t = s2 +:+ t → s1 = s2.
Proof.
  revert s2. induction s1 as [|c s1 IH]; intros [|c' s2] H; simpl in *.
  - done.
  - apply (f_equal String.length) in H. simpl in H.
    rewrite !string_length_app in H. simpl in H. lia.
  - apply (f_equal String.length) in H. simpl in H.
    rewrite !string_length_app in H. simpl in H. lia.
  - injection H as -> H. f_equal. by apply IH.
Qed.

(** X1.  Different days have different portfolio files. *)
Lemma get_todays_portfolio_path_inj today1 today2 :
  get_todays_portfolio_path today1 = get_todays_portfolio_path today2 →
  today1 = today2.
Proof.
  unfold get_todays_portfolio_path, PORTFOLIOS_DIR. intros H.
  apply String.app_inj, String.app_inj, String.app_inj in H.
  by apply string_app_inj_r in H.
Qed.

Lemma get_todays_portfolio_path_inj_witness :
  get_todays_portfolio_path "2024-01-02" = "Portfolios/Portfolio_2024-01-02.csv"
  ∧ ∀ today, get_todays_portfolio_path today = "Portfolios/Portfolio_2024-01-02.csv" →
             today = "2024-01-02".
Proof.
  split; [reflexivity|]. intros today H.
  exact (get_todays_portfolio_path_inj today "2024-01-02" H).
Defined.

Local Abbreviation rows_at fs filepath := (default [] (read_csv fs filepath)).

(** The two ways a call that returns can end: nothing written, or today's
    file saved with the new entries after the rows it had. *)
Lemma add_new_positions_cases today fs df fs1 r1 :
  add_new_positions today fs df = Some (fs1, r1) →
  (fs1 = fs ∧ added r1 = 0)
  ∨ ∃ portfolio e new_entries,
      rows_at fs (get_todays_portfolio_path today) = portfolio
      ∧ read_row <$> portfolio = portfolio
      ∧ add_loop today portfolio (filter (λ r, List_ r ∈ focus_lists) df) []
        = e :: new_entries
      ∧ fs1 = save_portfolio (portfolio ++ e :: new_entries)
                (get_todays_portfolio_path today) fs
      ∧ r1 = Saved (S (length new_entries)).
Proof.
  intros Hrun. destruct (pandas.empty df) eqn:Hdf.
  { unfold add_new_positions in Hrun. rewrite Hdf in Hrun.
    injection Hrun as <- <-. by left. }
  destruct (add_new_positions_loaded _ _ _ _ Hdf Hrun) as [portfolio Hload].
  rewrite (add_new_positions_run _ _ _ _ Hdf Hload) in Hrun. cbv zeta in Hrun.
  destruct (add_loop today portfolio _ []) as [|e new_entries] eqn:Hloop.
  - injection Hrun as <- <-. by left.
  - cbn [pandas.empty] in Hrun. injection Hrun as <- <-. right.
    exists portfolio, e, new_entries.
    by rewrite (loaded_rows _ _ _ Hload), (loaded_read _ _ _ Hload).
Qed.

(** The rows read from today's file after a call that saved it: the rows
    read before, then the new entries as they are read back. *)
Lemma rows_at_save today fs portfolio new_entries :
  read_row <$> portfolio = portfolio →
  rows_at (save_portfolio (portfolio ++ new_entries) (get_todays_portfolio_path today) fs)
          (get_todays_portfolio_path today)
  = portfolio ++ (read_row <$> new_entries).
Proof.
  intros Hp. unfold save_portfolio, read_csv. rewrite lookup_insert_eq. cbn [default].
  by rewrite fmap_app, Hp.
Qed.

(** A symbol that is read back leaves its entry's symbol as written. *)
Lemma entry_symbol_read today (row : ScanRow) :
  pandas.reads_back (Symbol (metrics row)) = true →
  e_Symbol (read_row (entry_of today row)) = Symbol (metrics row).
Proof. intros H. cbn. by apply reads_back_text. Qed.

(** X2.  A call writes no file but today's. *)
Theorem add_new_positions_other_files today fs df fs1 r1 filepath :
  add_new_positions today fs df = Some (fs1, r1) →
  filepath ≠ get_todays_portfolio_path today →
  fs1 !! filepath = fs !! filepath.
Proof.
  intros Hrun Hne.
  destruct (add_new_positions_cases _ _ _ _ _ Hrun)
    as [[-> _]|(p & e & new & _ & _ & _ & -> & _)]; [done|].
  unfold save_portfolio. by rewrite lookup_insert_ne.
Qed.

Lemma add_new_positions_other_files_witness :
  let xyz :=
    {| metrics := {| Symbol := "XYZ"; Price := F 10; Change_pct := F 0;
                     RSI_14 := Str "N/A"; Weekly_Ret := F 0; Monthly_Ret := F 12;
                     YTD_Ret := F 0; Ret_52W := F 60 |};
       List_ := "Rockets" |} in
  let today := "2024-01-02" in
  let fs1 := save_portfolio [entry_of today xyz] (get_todays_portfolio_path today) ∅ in
  add_new_positions today ∅ [xyz] = Some (fs1, Saved 1)
  ∧ fs1 !! "Portfolios/Portfolio_2024-01-01.csv"
    = (∅ : Store) !! "Portfolios/Portfolio_2024-01-01.csv".
Proof.
  intros xyz today fs1.
  assert (add_new_positions today ∅ [xyz] = Some (fs1, Saved 1)) as H
    by (vm_compute; reflexivity).
  split; [exact H|].
  apply (add_new_positions_other_files today ∅ [xyz] fs1 (Saved 1) _ H). discriminate.
Defined.

(** X3.  A call that reports no addition has written nothing: today's file is
    neither rewritten nor created. *)
Theorem add_new_positions_nothing_added today fs df fs1 r1 :
  add_new_positions today fs df = Some (fs1, r1) →
  added r1 = 0 → fs1 = fs.
Proof.
  intros Hrun Hr.
  destruct (add_new_positions_cases _ _ _ _ _ Hrun)
    as [[-> _]|(p & e & new & _ & _ & _ & _ & ->)]; [done|]. simpl in Hr. lia.
Qed.

Lemma add_new_positions_nothing_added_witness :
  let xyz :=
    {| metrics := {| Symbol := "XYZ"; Price := F 10; Change_pct := F 0;
                     RSI_14 := Str "N/A"; Weekly_Ret := F 0; Monthly_Ret := F 12;
                     YTD_Ret := F 0; Ret_52W := F 60 |};
       List_ := "Rockets" |} in
  let today := "2024-01-02" in
  let fs1 := save_portfolio [entry_of today xyz] (get_todays_portfolio_path today) ∅ in
  ∃ fs2, add_new_positions today fs1 [xyz] = Some (fs2, NoNewPositions) ∧ fs2 = fs1.
Proof.
  intros xyz today fs1.
  destruct (add_new_positions today fs1 [xyz]) as [[fs2 r2]|] eqn:H;
    [|vm_compute in H; discriminate].
  assert (r2 = NoNewPositions) as ->.
  { assert (snd <$> add_new_positions today fs1 [xyz] = Some NoNewPositions) as H'
      by (vm_compute; reflexivity).
    rewrite H in H'. by injection H'. }
  exists fs2. split; [reflexivity|].
  exact (add_new_positions_nothing_added today fs1 [xyz] fs2 NoNewPositions H eq_refl).
Defined.

(** X4.  Where the rows read from today's file come from after a call, when
    the symbols of the scan are texts that are read back as written: a row
    is either one the file held before, or an entry dated today, on one of
    the three focus lists, for a symbol the file did not hold. *)
Theorem add_new_positions_new_rows today fs df fs1 r1 e :
  add_new_positions today fs df = Some (fs1, r1) →
  today ∉ pandas.na_values →
  (∀ row, row ∈ df → pandas.reads_back (Symbol (metrics row)) = true) →
  e ∈ rows_at fs1 (get_todays_portfolio_path today) →
  e ∈ rows_at fs (get_todays_portfolio_path today)
  ∨ (e_Date e = today
     ∧ e_List e ∈ focus_lists
     ∧ e_Symbol e ∉ (e_Symbol <$> rows_at fs (get_todays_portfolio_path today))).
Proof.
  intros Hrun Htoday Hsym Hin.
  destruct (add_new_positions_cases _ _ _ _ _ Hrun)
    as [[-> _]|(p & e0 & new & Hp & Hread & Hloop & -> & _)]; [by left|].
  rewrite (rows_at_save _ _ _ _ Hread) in Hin.
  apply elem_of_app in Hin as [Hin|Hin].
  - left. by rewrite Hp.
  - right. rewrite <- Hloop in Hin.
    apply list_elem_of_fmap in Hin as (e1 & -> & Hin).
    apply add_loop_entries in Hin as (row & Hrow & _ & Hfresh & ->).
    apply list_elem_of_filter in Hrow as [Hlist Hrow]. rewrite Hp.
    destruct (reads_back_text _ (Hsym row Hrow)) as [Hne Hrt].
    split; [|split].
    + cbn. unfold pandas.read_text. by rewrite decide_False.
    + cbn. by rewrite read_text_focus_list.
    + rewrite entry_symbol_read by auto. intros Hheld. apply Hfresh. by split.
Qed.

Lemma add_new_positions_new_rows_witness :
  let xyz :=
    {| metrics := {| Symbol := "XYZ"; Price := F 10; Change_pct := F 0;
                     RSI_14 := Str "N/A"; Weekly_Ret := F 0; Monthly_Ret := F 12;
                     YTD_Ret := F 0; Ret_52W := F 60 |};
       List_ := "Rockets" |} in
  let today := "2024-01-02" in
  let fs1 := save_portfolio [entry_of today xyz] (get_todays_portfolio_path today) ∅ in
  add_new_positions today ∅ [xyz] = Some (fs1, Saved 1)
  ∧ e_Date (entry_of today xyz) = today
  ∧ e_List (entry_of today xyz) ∈ focus_lists.
Proof.
  intros xyz today fs1.
  assert (add_new_positions today ∅ [xyz] = Some (fs1, Saved 1)) as H
    by (vm_compute; reflexivity).
  split; [exact H|].
  destruct (add_new_positions_new_rows today ∅ [xyz] fs1 (Saved 1) (entry_of today xyz) H)
    as [Hold|(H1 & H2 & _)].
  - vm_compute. intros Hin.
    repeat (apply elem_of_cons in Hin as [Heq|Hin]; [discriminate|]).
    by apply elem_of_nil in Hin.
  - intros row ->%list_elem_of_singleton. reflexivity.
  - unfold fs1, save_portfolio, read_csv. rewrite lookup_insert_eq. left.
  - unfold read_csv in Hold. rewrite lookup_empty in Hold. by apply elem_of_nil in Hold.
  - split; [exact H1|exact H2].
Defined.

(** X5.  A scan that lists no symbol twice, its symbols being texts that are
    read back as written, keeps the symbols read from today's file
    distinct. *)
Theorem add_new_positions_unique today fs df fs1 r1 :
  add_new_positions today fs df = Some (fs1, r1) →
  (∀ row, row ∈ df → pandas.reads_back (Symbol (metrics row)) = true) →
  NoDup (symbols_on fs today) →
  NoDup ((λ r, Symbol (metrics r)) <$> df) →
  NoDup (symbols_on fs1 today).
Proof.
  intros Hrun Hsym Hfs Hdf. unfold symbols_on in *.
  destruct (add_new_positions_cases _ _ _ _ _ Hrun)
    as [[-> _]|(p & e0 & new & Hp & Hread & Hloop & -> & _)]; [done|].
  rewrite (rows_at_save _ _ _ _ Hread), <- Hloop.
  set (targets := filter (λ r, List_ r ∈ focus_lists) df) in *.
  assert (Htargets : ∀ r, r ∈ targets → pandas.reads_back (Symbol (metrics r)) = true).
  { intros r [_ Hr]%list_elem_of_filter. by apply Hsym. }
  assert (e_Symbol <$> (read_row <$> add_loop today p targets [])
          = e_Symbol <$> add_loop today p targets []) as Hsame.
  { rewrite <- list_fmap_compose. apply list_fmap_ext. intros i e He.
    apply list_elem_of_lookup_2, add_loop_entries in He as (row & Hrow & _ & _ & ->).
    apply entry_symbol_read. by apply Htargets. }
  rewrite fmap_app, Hsame, <- fmap_app.
  apply add_loop_NoDup; [by rewrite <- Hp| |].
  - eapply sublist_NoDup; [exact Hdf|]. apply fmap_sublist, sublist_filter.
  - intros r Hr. by apply reads_back_text, Htargets.
Qed.

Lemma add_new_positions_unique_witness :
  let xyz :=
    {| metrics := {| Symbol := "XYZ"; Price := F 10; Change_pct := F 0;
                     RSI_14 := Str "N/A"; Weekly_Ret := F 0; Monthly_Ret := F 12;
                     YTD_Ret := F 0; Ret_52W := F 60 |};
       List_ := "Rockets" |} in
  let today := "2024-01-02" in
  let fs1 := save_portfolio [entry_of today xyz] (get_todays_portfolio_path today) ∅ in
  add_new_positions today ∅ [xyz] = Some (fs1, Saved 1)
  ∧ NoDup (symbols_on fs1 today).
Proof.
  intros xyz today fs1.
  assert (add_new_positions today ∅ [xyz] = Some (fs1, Saved 1)) as H
    by (vm_compute; reflexivity).
  split; [exact H|].
  apply (add_new_positions_unique today ∅ [xyz] fs1 (Saved 1) H).
  - intros row ->%list_elem_of_singleton. reflexivity.
  - unfold symbols_on, read_csv. rewrite lookup_empty. constructor.
  - apply NoDup_singleton.
Defined.

(** X24.  [add_new_positions] is idempotent on a scan whose symbols are texts
    that are read back as written: a second call on the same day with the
    same scan leaves the directory as the first call left it and reports no
    addition, also when the scan itself lists a symbol twice. *)
Theorem add_new_positions_idempotent today fs df fs1 r1 :
  add_new_positions today fs df = Some (fs1, r1) →
  (∀ row, row ∈ df → pandas.reads_back (Symbol (metrics row)) = true) →
  ∃ r2, add_new_positions today fs1 df = Some (fs1, r2) ∧ added r2 = 0.
Proof.
  intros Hrun Hsym. destruct (pandas.empty df) eqn:Hdf.
  { unfold add_new_positions in *. rewrite Hdf in *.
    injection Hrun as <- <-. by exists NoNewStocks. }
  destruct (add_new_positions_loaded _ _ _ _ Hdf Hrun) as [portfolio Hload].
  rewrite (add_new_positions_run _ _ _ _ Hdf Hload) in Hrun. cbv zeta in Hrun.
  set (targets := filter (λ r, List_ r ∈ focus_lists) df) in *.
  destruct (add_loop today portfolio targets []) as [|e new_entries] eqn:Hnew.
  - injection Hrun as <- <-. exists NoNewPositions.
    rewrite (add_new_positions_run _ _ _ _ Hdf Hload). cbv zeta.
    fold targets. by rewrite Hnew.
  - cbn [pandas.empty] in Hrun. injection Hrun as <- <-. exists NoNewPositions.
    rewrite (add_new_positions_run _ _ _ _ Hdf (loaded_save _ _ _)). cbv zeta.
    fold targets. rewrite add_loop_nothing; [done|].
    intros row Hin Hu.
    assert (row ∈ df) as Hrow by (by apply list_elem_of_filter in Hin as [_ ?]).
    destruct (reads_back_text _ (Hsym row Hrow)) as [Hne Hrt]. split; [done|].
    pose proof (add_loop_covers today portfolio targets row Hin Hu) as Hc.
    rewrite Hnew in Hc. apply list_elem_of_fmap in Hc as (e1 & He1 & Hin1).
    apply list_elem_of_fmap. exists (read_row e1). split.
    + cbn. by rewrite <- He1, Hrt.
    + by apply list_elem_of_fmap_2.
Qed.

Lemma add_new_positions_idempotent_witness :
  let xyz :=
    {| metrics := {| Symbol := "XYZ"; Price := F 10; Change_pct := F 0;
                     RSI_14 := Str "N/A"; Weekly_Ret := F 0; Monthly_Ret := F 12;
                     YTD_Ret := F 0; Ret_52W := F 60 |};
       List_ := "Rockets" |} in
  let fs1 := save_portfolio [entry_of "2024-01-02" xyz]
               (get_todays_portfolio_path "2024-01-02") ∅ in
  add_new_positions "2024-01-02" ∅ [xyz] = Some (fs1, Saved 1)
  ∧ ∃ r2, add_new_positions "2024-01-02" fs1 [xyz] = Some (fs1, r2) ∧ added r2 = 0.
Proof.
  intros xyz fs1.
  assert (add_new_positions "2024-01-02" ∅ [xyz] = Some (fs1, Saved 1)) as H
    by (vm_compute; reflexivity).
  split; [exact H|].
  apply (add_new_positions_idempotent "2024-01-02" ∅ [xyz] fs1 (Saved 1) H).
  intros row ->%list_elem_of_singleton. reflexivity.
Defined.

Lemma fresh_value (p : Qc) :
  (zq 0 < p)%Qc → py_round (fmul (fdiv CAPITAL_PER_TRADE (Fin p)) (Fin p)) 2 = F 1000.
Proof.
  intros Hp. unfold CAPITAL_PER_TRADE, F, fdiv.
  assert (p ≠ zq 0) as Hne.
  { intros ->. by apply Qclt_not_eq in Hp. }
  rewrite (proj2 (Qc_eqb_false _ _) Hne). cbn [fmul].
  assert (zq 1000 / p * p = zq 1000)%Qc as -> by (field; exact Hne).
  compute_done.
Qed.

(** X6.  Every position is opened with the same stake: an entry created from a
    row with a finite price has initial value and current value 1000.00
    and return 0, whatever the price. *)
Theorem add_new_positions_fresh_value today fs df fs1 r1 e :
  add_new_positions today fs df = Some (fs1, r1) →
  (∀ row, row ∈ df → ∃ p, Price (metrics row) = Fin p) →
  e ∈ rows_at fs1 (get_todays_portfolio_path today) →
  e ∈ rows_at fs (get_todays_portfolio_path today)
  ∨ (Initial_Value e = F 1000 ∧ Current_Value e = F 1000 ∧ Return_pct e = F 0
     ∧ Current_Price e = Entry_Price e).
Proof.
  intros Hrun Hfin Hin.
  destruct (add_new_positions_cases _ _ _ _ _ Hrun)
    as [[-> _]|(p & e0 & new & Hp & Hread & Hloop & -> & _)]; [by left|].
  rewrite (rows_at_save _ _ _ _ Hread) in Hin.
  apply elem_of_app in Hin as [Hin|Hin].
  - left. by rewrite Hp.
  - right. rewrite <- Hloop in Hin.
    apply list_elem_of_fmap in Hin as (e1 & -> & Hin).
    apply add_loop_entries in Hin as (row & Hrow & Hu & _ & ->).
    apply list_elem_of_filter in Hrow as [_ Hrow].
    destruct (Hfin row Hrow) as [q Hq]. apply usable_positive in Hu.
    rewrite Hq in Hu. assert (zq 0 < q)%Qc as Hpos by (by apply Qc_ltb_true).
    unfold entry_of, read_row.
    cbn [Initial_Value Current_Value Return_pct Current_Price Entry_Price].
    by rewrite Hq, fresh_value.
Qed.

Lemma add_new_positions_fresh_value_witness :
  let xyz :=
    {| metrics := {| Symbol := "XYZ"; Price := F 10; Change_pct := F 0;
                     RSI_14 := Str "N/A"; Weekly_Ret := F 0; Monthly_Ret := F 12;
                     YTD_Ret := F 0; Ret_52W := F 60 |};
       List_ := "Rockets" |} in
  let today := "2024-01-02" in
  let fs1 := save_portfolio [entry_of today xyz] (get_todays_portfolio_path today) ∅ in
  add_new_positions today ∅ [xyz] = Some (fs1, Saved 1)
  ∧ Initial_Value (entry_of today xyz) = F 1000
  ∧ Current_Value (entry_of today xyz) = F 1000.
Proof.
  intros xyz today fs1.
  assert (add_new_positions today ∅ [xyz] = Some (fs1, Saved 1)) as H
    by (vm_compute; reflexivity).
  split; [exact H|].
  destruct (add_new_positions_fresh_value today ∅ [xyz] fs1 (Saved 1)
              (entry_of today xyz) H) as [Hold|(H1 & H2 & _)].
  - intros row ->%list_elem_of_singleton. by eexists.
  - unfold fs1, save_portfolio, read_csv. rewrite lookup_insert_eq. left.
  - unfold read_csv in Hold. rewrite lookup_empty in Hold. by apply elem_of_nil in Hold.
  - split; [exact H1|exact H2].
Defined.

(** X7.  A revaluation creates no file and removes none, and a file is
    unreadable after it exactly when it was unreadable before. *)
Theorem update_portfolio_values_files yf fs filepath :
  (is_Some ((update_portfolio_values yf fs).1 !! filepath) ↔ is_Some (fs !! filepath))
  ∧ ((update_portfolio_values yf fs).1 !! filepath = Some Corrupt
     ↔ fs !! filepath = Some Corrupt).
Proof.
  rewrite update_portfolio_values_lookup. split.
  - apply fmap_is_Some.
  - destruct (fs !! filepath) as [[|rows]|]; simpl; [done| |done].
    destruct (revalue_rows yf (read_row <$> rows) false).2; split; congruence.
Qed.

Lemma revalued_idemp yf (e : LedgerEntry) : revalued yf (revalued yf e) = revalued yf e.
Proof.
  unfold revalued. destruct (revalue_row yf e) as [[r|]|] eqn:He; rewrite ?He; try done.
  assert (revalue_row yf r = Some (Some r)) as ->; [|done].
  revert He. unfold revalue_row.
  destruct (fetch_price yf (e_Symbol e)) as [[|p]|] eqn:Hf; simpl; try done.
  destruct (nonzero p) eqn:Hp; simpl; [|done].
  destruct (py_div _ _) as [x|] eqn:Hd; simpl; [|done].
  intros [= <-]. simpl. rewrite Hf. simpl. rewrite Hp, Hd. done.
Qed.

(** A file that a revaluation has left is left as it is by the next one
    with the same quotes. *)
Lemma revalue_content_idemp yf (c : FileContent) :
  revalue_content yf (revalue_content yf c) = revalue_content yf c.
Proof.
  destruct c as [|rows]; [done|]. cbn [revalue_content].
  destruct (revalue_rows yf (read_row <$> rows) false).2 eqn:Hu; cbn [revalue_content].
  - rewrite read_revalued_read.
    assert (revalued yf <$> (revalued yf <$> (read_row <$> rows))
            = revalued yf <$> (read_row <$> rows)) as ->.
    { generalize (read_row <$> rows). intros l.
      rewrite <- list_fmap_compose. apply list_fmap_ext.
      intros i e _. apply revalued_idemp. }
    destruct (revalue_rows yf (revalued yf <$> _) false) as [? []]; reflexivity.
  - by rewrite Hu.
Qed.

(** The report of a revaluation: none for an empty directory, otherwise
    the grand total of the directory as the call leaves it. *)
Lemma update_portfolio_values_report yf fs :
  (update_portfolio_values yf fs).2
  = if decide (fs = ∅) then None
    else Some (report_of (update_portfolio_values yf fs).1).
Proof.
  destruct (update_portfolio_values yf fs) as [fs' [report|]] eqn:Hrun.
  - destruct (update_portfolio_values_totals yf fs fs' report Hrun) as [Hi Hv].
    assert (fs ≠ ∅) as Hne.
    { intros ->. unfold update_portfolio_values in Hrun. done. }
    rewrite decide_False by done. simpl. f_equal.
    assert (Hret : total_ret report
      = (if fgtb (total_invested report) (F 0)
         then fmul (fdiv (fsub (total_value report) (total_invested report))
                         (total_invested report)) (F 100) else F 0)).
    { revert Hrun. unfold update_portfolio_values.
      destruct (pandas.empty (glob fs)); [done|].
      destruct (foldl _ _ _) as [fs1 tot]. by intros [= <- <-]. }
    destruct report as [ti tv tr]. unfold report_of. simpl in *. by subst.
  - assert (fs = ∅) as ->.
    { apply (update_portfolio_values_no_report yf). by rewrite Hrun. }
    done.
Qed.

(** X8.  Revaluing again with the same quotes changes nothing: neither the
    files nor the report. *)
Theorem update_portfolio_values_idempotent yf fs :
  update_portfolio_values yf (update_portfolio_values yf fs).1
  = update_portfolio_values yf fs.
Proof.
  assert (Hfs : (update_portfolio_values yf (update_portfolio_values yf fs).1).1
                = (update_portfolio_values yf fs).1).
  { apply map_eq. intros q. rewrite !update_portfolio_values_lookup.
    destruct (fs !! q) as [c|]; [|done]. cbn [fmap option_fmap option_map].
    f_equal. apply revalue_content_idemp. }
  apply injective_projections; [exact Hfs|].
  rewrite !update_portfolio_values_report, Hfs.
  destruct (decide (fs = ∅)) as [->|Hne].
  - rewrite decide_True; [done|]. reflexivity.
  - rewrite decide_False; [done|]. intros Hempty. apply Hne.
    apply map_eq. intros q. rewrite lookup_empty.
    apply (f_equal (λ m : Store, m !! q)) in Hempty.
    rewrite update_portfolio_values_lookup, lookup_empty in Hempty.
    by destruct (fs !! q).
Qed.

(** When the quote of no row can be fetched, the flag of the loop stays
    down. *)
Lemma revalue_rows_no_quotes yf (portfolio : list LedgerEntry) :
  (∀ e, e ∈ portfolio → fetch_failed yf (e_Symbol e)) →
  (revalue_rows yf portfolio false).2 = false.
Proof.
  induction portfolio as [|row rest IH]; intros Hfail; [done|].
  cbn [revalue_rows].
  assert (revalue_row yf row = None ∨ revalue_row yf row = Some None) as Hrow.
  { pose proof (Hfail row ltac:(left)) as Hf. unfold fetch_failed in Hf.
    unfold revalue_row. destruct (fetch_price yf (e_Symbol row)) as [[|p]|]; simpl; auto.
    simpl in Hf. rewrite Hf. auto. }
  assert ((revalue_rows yf rest false).2 = false) as Hrest.
  { apply IH. intros e He. apply Hfail. by right. }
  destruct Hrow as [-> | ->]; destruct (revalue_rows yf rest false); done.
Qed.

(** X9.  When no quote can be fetched, a revaluation leaves every file as it
    was. *)
Theorem update_portfolio_values_no_quotes yf fs :
  (∀ symbol, fetch_failed yf symbol) →
  (update_portfolio_values yf fs).1 = fs.
Proof.
  intros Hfail. apply map_eq. intros q. rewrite update_portfolio_values_lookup.
  destruct (fs !! q) as [[|rows]|]; simpl; try done.
  rewrite revalue_rows_no_quotes; [done|]. intros e _. apply Hfail.
Qed.

Lemma update_portfolio_values_no_quotes_witness :
  let yf (_ : string) := {| info := None; history := None; fast_info_last_price := None |} in
  let fs : Store :=
    {[ "Portfolios/Portfolio_2024-01-02.csv" :=
         Rows [{| e_Date := "2024-01-02"; e_Symbol := "ABC"; e_List := "Rockets";
                  Entry_Price := F 100; Quantity := F 10; Initial_Value := F 1000;
                  Current_Price := F 100; Current_Value := F 1000;
                  Return_pct := F 0 |}] ]} in
  (update_portfolio_values yf fs).1 = fs.
Proof.
  intros yf fs. apply (update_portfolio_values_no_quotes yf fs).
  intros symbol. unfold fetch_failed, fetch_price, Ticker_of.
  destruct (decide (symbol = "")); exact I.
Defined.

End LedgerMore.

(** *** More on the scan *)

Section ScanMore.

Implicit Types (yf : string → Ticker) (fs : Store) (df : list MetricRow).

(** The three filters select disjoint sets of rows. *)
Lemma masks_disjoint (r : MetricRow) :
  (is_simmering r = true → is_rocket r = false ∧ is_turnaround r = false)
  ∧ (is_rocket r = true → is_turnaround r = false).
Proof.
  unfold is_simmering, is_rocket, is_turnaround, fgeb, fgtb, F.
  destruct (Ret_52W r) as [y| | |]; cbn [fleb fltb andb]; try (split; [done|]);
    try done; try (by intros _; split).
  - split.
    + intros [[H10 H20]%andb_true_iff _]%andb_true_iff.
      apply Qc_leb_true in H10, H20. split.
      * assert (Qc_ltb (zq 50) y = false) as ->; [|done].
        apply Qc_ltb_false. qc_to_q. unfold inject_Z in *. lra.
      * assert (Qc_ltb y (zq 0) = false) as ->; [|done].
        apply Qc_ltb_false. qc_to_q. unfold inject_Z in *. lra.
    + intros [H50 _]%andb_true_iff. apply Qc_ltb_true in H50.
      assert (Qc_ltb y (zq 0) = false) as ->; [|done].
      apply Qc_ltb_false. qc_to_q. unfold inject_Z in *. lra.
Qed.

(** X10.  Since no row passes two filters, the order in which the lists are
    written does not matter: a row is labelled with a list exactly when
    it passes that list's filter, and "Other" exactly when it passes
    none. *)
Theorem assign_lists_exclusive df i row :
  assign_lists df !! i = Some row →
  (List_ row = "Simmering Growth" ↔ is_simmering (metrics row) = true)
  ∧ (List_ row = "Rockets" ↔ is_rocket (metrics row) = true)
  ∧ (List_ row = "Turnarounds" ↔ is_turnaround (metrics row) = true)
  ∧ (List_ row = "Other" ↔ is_simmering (metrics row) = false
                            ∧ is_rocket (metrics row) = false
                            ∧ is_turnaround (metrics row) = false).
Proof.
  rewrite assign_lists_lookup. destruct (df !! i) as [r|]; [|done].
  intros [= <-]. cbn [metrics List_].
  destruct (masks_disjoint r) as [H1 H2].
  destruct (is_simmering r) eqn:E1, (is_rocket r) eqn:E2, (is_turnaround r) eqn:E3;
    try (destruct (H1 eq_refl); congruence);
    try (specialize (H2 eq_refl); congruence);
    clear H1 H2; intuition (try discriminate; congruence).
Qed.

Lemma assign_lists_exclusive_witness :
  let abc := {| Symbol := "ABC"; Price := F 100; Change_pct := F 0;
                RSI_14 := Str "N/A"; Weekly_Ret := F 0; Monthly_Ret := F 12;
                YTD_Ret := F 0; Ret_52W := F 60 |} in
  let row := {| metrics := abc; List_ := "Rockets" |} in
  assign_lists [abc] !! 0 = Some row
  ∧ (List_ row = "Rockets" ↔ is_rocket (metrics row) = true).
Proof.
  intros abc row.
  assert (assign_lists [abc] !! 0 = Some row) as H by (vm_compute; reflexivity).
  split; [exact H|].
  by destruct (assign_lists_exclusive [abc] 0 row H) as (_ & H2 & _).
Defined.

(** What it takes for a row to be returned. *)
Lemma get_stock_data_Some yf year sym row :
  get_stock_data yf year sym = Some row →
  ∃ i hist,
    info (yf sym) = Some i ∧ history (yf sym) = Some hist ∧ hist ≠ []
    ∧ Symbol row = sym
    ∧ current_price_of i ((λ b, Fin (bar_close b)) <$> hist) = Some (Price row).
Proof.
  unfold get_stock_data. intros Hrun.
  destruct (info (yf sym)) as [i|]; [|done]. cbn [mbind option_bind] in Hrun.
  destruct (history (yf sym)) as [hist|]; [|done]. cbn [mbind option_bind] in Hrun.
  destruct hist as [|b hist]; [done|]. cbn [pandas.empty] in Hrun.
  apply bind_Some in Hrun as (cp & Hcp & Hrow).
  destruct (stock_metrics_fields _ _ _ _ _ _ Hrow) as (Hs & Hp & _).
  exists i, (b :: hist). rewrite Hp. done.
Qed.

(** X11.  A row is returned only for a ticker whose fundamentals and history
    load and whose history is not empty; the row carries the ticker's
    symbol, and its price is either the last close of the history or a
    truthy quoted value: that of [currentPrice], or that of
    [regularMarketPrice] when the [currentPrice] key is missing. *)
Theorem get_stock_data_row yf year sym row :
  get_stock_data yf year sym = Some row →
  ∃ i hist b,
    info (yf sym) = Some i ∧ history (yf sym) = Some hist ∧ last hist = Some b
    ∧ Symbol row = sym
    ∧ (Price row = Fin (bar_close b)
       ∨ ∃ v, (currentPrice i = Some v
               ∨ (currentPrice i = None ∧ regularMarketPrice i = Some v))
              ∧ truthy v = true ∧ v = PyNum (Price row)).
Proof.
  intros Hrun.
  destruct (get_stock_data_Some _ _ _ _ Hrun) as (i & hist & Hi & Hh & Hne & Hs & Hcp).
  destruct (last hist) as [b|] eqn:Hlast; [|by apply last_None in Hlast].
  exists i, hist, b. do 4 (split; [done|]).
  unfold current_price_of in Hcp.
  destruct (truthy (dict_get _ _)) eqn:Ht; cbn [negb] in Hcp.
  - right. destruct (currentPrice i) as [v|] eqn:Hc; simpl in *.
    + exists v. destruct v as [|x]; [done|]. injection Hcp as ->. eauto.
    + destruct (regularMarketPrice i) as [v|] eqn:Hr; simpl in *.
      * exists v. destruct v as [|x]; [done|]. injection Hcp as ->. eauto.
      * exfalso. revert Ht. by vm_compute.
  - left. rewrite iloc_last, length_fmap, list_lookup_fmap in Hcp.
    rewrite last_lookup in Hlast.
    replace (length hist - 1) with (pred (length hist)) in Hcp by lia.
    rewrite Hlast in Hcp. by injection Hcp.
Qed.

Lemma get_stock_data_row_witness :
  let bar (c : Z) :=
    {| bar_date := {| year := 2024; month := 3; day := 1 |};
       bar_open := zq c; bar_close := zq c |} in
  let yf (_ : string) :=
    {| info := Some {| currentPrice := None; regularMarketPrice := Some (PyNum (F 9));
                       regularMarketChangePercent := None |};
       history := Some (bar <$> [4; 5; 7]%Z); fast_info_last_price := None |} in
  ∃ row, get_stock_data yf 2024 "A" = Some row
    ∧ ∃ i hist b,
        info (yf "A") = Some i ∧ history (yf "A") = Some hist ∧ last hist = Some b
        ∧ Symbol row = "A"
        ∧ (Price row = Fin (bar_close b)
           ∨ ∃ v, (currentPrice i = Some v
                   ∨ (currentPrice i = None ∧ regularMarketPrice i = Some v))
                  ∧ truthy v = true ∧ v = PyNum (Price row)).
Proof.
  intros bar yf.
  destruct (get_stock_data yf 2024 "A") as [row|] eqn:Hrow;
    [|vm_compute in Hrow; discriminate].
  exists row. split; [reflexivity|].
  exact (get_stock_data_row yf 2024 "A" row Hrow).
Defined.

Lemma assign_lists_metrics df : metrics <$> assign_lists df = df.
Proof.
  apply list_eq. intros i. rewrite list_lookup_fmap, assign_lists_lookup.
  by destruct (df !! i).
Qed.

Lemma scanned_symbols yf year (tickers : list string) :
  Symbol <$> omap (get_stock_data yf year) tickers `sublist_of` tickers.
Proof.
  induction tickers as [|t tickers IH]; [done|]. cbn [omap list_omap].
  destruct (get_stock_data yf year t) as [row|] eqn:Hrow.
  - destruct (get_stock_data_Some _ _ _ _ Hrow) as (i & hist & _ & _ & _ & <- & _).
    rewrite fmap_cons. by apply sublist_skip.
  - by apply sublist_cons.
Qed.

(** X12.  The scan file holds one row for every discovered ticker whose data
    could be computed, in discovery order; a ticker whose data fails is
    left out and the others are not affected. *)
Theorem main_scan_rows (tickers : list string) yf now fs result scan :
  main tickers yf now fs = Some result →
  scan_csv result = Some scan →
  metrics <$> scan = omap (get_stock_data yf (current_year now)) tickers
  ∧ (λ r, Symbol (metrics r)) <$> scan `sublist_of` tickers.
Proof.
  unfold main. intros Hrun Hscan.
  assert (scan = assign_lists (omap (get_stock_data yf (current_year now)) tickers))
    as ->.
  { destruct (pandas.empty tickers); [by injection Hrun as <-|].
    destruct (pandas.empty _); [by injection Hrun as <-|].
    destruct (add_new_positions _ _ _) as [[fs1 r]|].
    - destruct (update_portfolio_values yf fs1). injection Hrun as <-.
      simpl in Hscan. congruence.
    - injection Hrun as <-. simpl in Hscan. congruence. }
  split; [apply assign_lists_metrics|].
  rewrite (list_fmap_compose metrics Symbol), assign_lists_metrics.
  apply scanned_symbols.
Qed.

Lemma main_scan_rows_witness :
  let bar (c : Z) :=
    {| bar_date := {| year := 2024; month := 3; day := 1 |};
       bar_open := zq c; bar_close := zq c |} in
  let yf (symbol : string) :=
    if decide (symbol = "A") then
      {| info := Some {| currentPrice := Some (PyNum (F 8)); regularMarketPrice := None;
                         regularMarketChangePercent := None |};
         history := Some (bar <$> [4; 5; 7]%Z); fast_info_last_price := None |}
    else {| info := None; history := None; fast_info_last_price := None |} in
  let now := {| today := "2024-01-02"; current_year := 2024 |} in
  let scan := assign_lists (omap (get_stock_data yf 2024) ["DEAD"; "A"]) in
  ∃ result, main ["DEAD"; "A"] yf now ∅ = Some result
    ∧ scan_csv result = Some scan
    ∧ (λ r, Symbol (metrics r)) <$> scan `sublist_of` ["DEAD"; "A"].
Proof.
  intros bar yf now scan.
  destruct (main ["DEAD"; "A"] yf now ∅) as [result|] eqn:Hrun;
    [|vm_compute in Hrun; discriminate].
  assert (scan_csv result = Some scan) as Hscan.
  { assert (scan_csv <$> main ["DEAD"; "A"] yf now ∅ = Some (Some scan)) as H
      by (vm_compute; reflexivity).
    rewrite Hrun in H. by injection H. }
  exists result. split; [reflexivity|]. split; [exact Hscan|].
  by destruct (main_scan_rows ["DEAD"; "A"] yf now ∅ result scan Hrun Hscan) as [_ H].
Defined.

(** X13.  When no ticker yields data, the scan stops there: no scan file, no
    change to the portfolio directory, no report. *)
Theorem main_no_data (tickers : list string) yf now fs :
  (∀ t, t ∈ tickers → get_stock_data yf (current_year now) t = None) →
  main tickers yf now fs = Some {| scan_csv := None; portfolios := fs; totals := None |}.
Proof.
  intros Hnone. unfold main. destruct (pandas.empty tickers); [done|].
  assert (omap (get_stock_data yf (current_year now)) tickers = []) as ->; [|done].
  induction tickers as [|t tickers IH]; [done|]. cbn [omap list_omap].
  rewrite (Hnone t) by left. apply IH. intros t' ?. apply Hnone. by right.
Qed.

Lemma main_no_data_witness :
  let yf (_ : string) := {| info := None; history := None; fast_info_last_price := None |} in
  let now := {| today := "2024-01-02"; current_year := 2024 |} in
  main ["DEAD"; "GONE"] yf now ∅
  = Some {| scan_csv := None; portfolios := ∅; totals := None |}.
Proof.
  intros yf now. apply (main_no_data ["DEAD"; "GONE"] yf now ∅).
  intros t _. reflexivity.
Defined.

(** X14.  When today's portfolio file cannot be read, the error of the read is
    caught in [main]: the scan file is still written, but nothing is added
    and the revaluation of the other days' files is skipped. *)
Theorem main_unreadable_today (tickers : list string) yf now fs :
  fs !! get_todays_portfolio_path (today now) = Some Corrupt →
  omap (get_stock_data yf (current_year now)) tickers ≠ [] →
  main tickers yf now fs
  = Some {| scan_csv :=
              Some (assign_lists (omap (get_stock_data yf (current_year now)) tickers));
            portfolios := fs; totals := None |}.
Proof.
  intros Hbad Hdata. unfold main.
  destruct tickers as [|t tickers]; [done|]. cbn [pandas.empty].
  destruct (omap _ (t :: tickers)) as [|r results]; [done|]. cbn [pandas.empty].
  assert (add_new_positions (today now) fs (assign_lists (r :: results)) = None) as ->;
    [|done].
  unfold add_new_positions.
  assert (pandas.empty (assign_lists (r :: results)) = false) as ->.
  { pose proof (f_equal length (assign_lists_metrics (r :: results))) as Hlen.
    rewrite length_fmap in Hlen. by destruct (assign_lists (r :: results)). }
  rewrite decide_True by (rewrite Hbad; eauto).
  unfold read_csv. by rewrite Hbad.
Qed.

Lemma main_unreadable_today_witness :
  let bar (c : Z) :=
    {| bar_date := {| year := 2024; month := 3; day := 1 |};
       bar_open := zq c; bar_close := zq c |} in
  let yf (symbol : string) :=
    if decide (symbol = "A") then
      {| info := Some {| currentPrice := Some (PyNum (F 8)); regularMarketPrice := None;
                         regularMarketChangePercent := None |};
         history := Some (bar <$> [4; 5; 7]%Z); fast_info_last_price := None |}
    else {| info := None; history := None; fast_info_last_price := None |} in
  let now := {| today := "2024-01-02"; current_year := 2024 |} in
  let fs : Store := {[ get_todays_portfolio_path "2024-01-02" := Corrupt ]} in
  portfolios <$> main ["A"] yf now fs = Some fs.
Proof.
  intros bar yf now fs.
  rewrite (main_unreadable_today ["A"] yf now fs).
  - reflexivity.
  - unfold fs. apply lookup_singleton_eq.
  - vm_compute. discriminate.
Defined.

Lemma add_new_positions_well_labelled today fs (scan : list ScanRow) fs1 r1 :
  add_new_positions today fs scan = Some (fs1, r1) →
  well_labelled fs → well_labelled fs1.
Proof.
  intros Hrun Hwl.
  destruct (add_new_positions_cases _ _ _ _ _ Hrun)
    as [[-> _]|(p & e0 & new & Hp & _ & Hloop & -> & _)]; [done|].
  intros q rows e Hq He. unfold save_portfolio in Hq.
  destruct (decide (q = get_todays_portfolio_path today)) as [->|Hne].
  - rewrite lookup_insert_eq in Hq. injection Hq as <-.
    apply elem_of_app in He as [He|He].
    + unfold read_csv in Hp.
      destruct (fs !! get_todays_portfolio_path today) as [[|rows0]|] eqn:E;
        simpl in Hp; subst p; try (by apply elem_of_nil in He).
      apply list_elem_of_fmap in He as (e1 & -> & He1).
      pose proof (Hwl (get_todays_portfolio_path today) rows0 e1 E He1) as Hl.
      cbn. by rewrite read_text_focus_list.
    + rewrite <- Hloop in He.
      apply add_loop_entries in He as (row & Hrow & _ & _ & ->).
      by apply list_elem_of_filter in Hrow as [Hlist _].
  - rewrite lookup_insert_ne in Hq by done. by apply (Hwl q rows).
Qed.

Lemma update_portfolio_values_well_labelled yf fs :
  well_labelled fs → well_labelled (update_portfolio_values yf fs).1.
Proof.
  intros Hwl q rows e Hq He. rewrite update_portfolio_values_lookup in Hq.
  destruct (fs !! q) as [[|rows0]|] eqn:E; simpl in Hq; try done.
  destruct (revalue_rows yf (read_row <$> rows0) false).2; injection Hq as <-.
  - apply list_elem_of_fmap in He as (e0 & -> & He0).
    apply list_elem_of_fmap in He0 as (e1 & -> & He1).
    destruct (revalued_static yf (read_row e1)) as (_ & _ & -> & _).
    pose proof (Hwl q rows0 e1 E He1) as Hl. cbn. by rewrite read_text_focus_list.
  - by apply (Hwl q rows0).
Qed.

(** X15.  Rows labelled "Other" never reach the ledger: if every row of every
    readable ledger file is on one of the three focus lists before a run
    of the scan, the same holds after it. *)
Theorem main_well_labelled (tickers : list string) yf now fs result :
  main tickers yf now fs = Some result →
  well_labelled fs → well_labelled (portfolios result).
Proof.
  unfold main. intros Hrun Hwl.
  destruct (pandas.empty tickers); [by injection Hrun as <-|].
  destruct (pandas.empty _); [by injection Hrun as <-|].
  destruct (add_new_positions _ _ _) as [[fs1 r]|] eqn:Hadd.
  - pose proof (update_portfolio_values_well_labelled yf fs1
                  (add_new_positions_well_labelled _ _ _ _ _ Hadd Hwl)) as H.
    destruct (update_portfolio_values yf fs1). injection Hrun as <-. exact H.
  - by injection Hrun as <-.
Qed.

Lemma main_well_labelled_witness :
  let bar (c : Z) :=
    {| bar_date := {| year := 2024; month := 3; day := 1 |};
       bar_open := zq c; bar_close := zq c |} in
  let yf (symbol : string) :=
    if decide (symbol = "A") then
      {| info := Some {| currentPrice := Some (PyNum (F 8)); regularMarketPrice := None;
                         regularMarketChangePercent := None |};
         history := Some (bar <$> [4; 5; 7]%Z); fast_info_last_price := None |}
    else {| info := None; history := None; fast_info_last_price := None |} in
  let now := {| today := "2024-01-02"; current_year := 2024 |} in
  ∃ result, main ["A"] yf now ∅ = Some result ∧ well_labelled (portfolios result).
Proof.
  intros bar yf now.
  destruct (main ["A"] yf now ∅) as [result|] eqn:Hrun;
    [|vm_compute in Hrun; discriminate].
  exists result. split; [reflexivity|].
  apply (main_well_labelled ["A"] yf now ∅ result Hrun).
  intros q rows e Hq. by rewrite lookup_empty in Hq.
Defined.

End ScanMore.

(** *** More on the metrics *)

Section MetricsMore.

Implicit Types (yf : string → Ticker) (cs : list Qc).

Lemma day_gains_lookup cs i x :
  day_gains cs !! i = Some x →
  ∃ prev c, cs !! i = Some prev ∧ cs !! S i = Some c ∧ x = Qc_max (c - prev) 0.
Proof.
  unfold day_gains. intros (c & prev & -> & Hc & Hp)%lookup_zip_with_Some.
  rewrite lookup_tail in Hc. eauto.
Qed.

Lemma day_losses_lookup cs i x :
  day_losses cs !! i = Some x →
  ∃ prev c, cs !! i = Some prev ∧ cs !! S i = Some c ∧ x = Qc_max (- (c - prev)) 0.
Proof.
  unfold day_losses. intros (c & prev & -> & Hc & Hp)%lookup_zip_with_Some.
  rewrite lookup_tail in Hc. eauto.
Qed.

Lemma Qc_max_pos (d : Qc) : (0 < d)%Qc → Qc_max d 0 = d.
Proof.
  intros Hd. unfold Qc_max, Qc_leb. case_bool_decide as H; [|done].
  exfalso. by eapply Qclt_not_le.
Qed.

Lemma Qc_max_nonpos (d : Qc) : (d <= 0)%Qc → Qc_max d 0 = 0%Qc.
Proof. intros Hd. unfold Qc_max, Qc_leb. by case_bool_decide. Qed.

Lemma foldr_Qcplus_zero (l : list Qc) :
  Forall (λ q, q = 0%Qc) l → foldr Qcplus 0%Qc l = 0%Qc.
Proof.
  induction 1 as [|x l -> _ IH]; [done|]. cbn [foldr]. rewrite IH.
  apply Qcplus_0_l.
Qed.

Lemma foldr_Qcplus_pos (l : list Qc) :
  l ≠ [] → Forall (λ q, (0 < q)%Qc) l → (0 < foldr Qcplus 0%Qc l)%Qc.
Proof.
  intros Hne Hl. destruct Hl as [|x l Hx Hl]; [done|]. cbn [foldr].
  assert (0 <= foldr Qcplus 0%Qc l)%Qc as Hs.
  { apply foldr_Qcplus_nonneg. eapply Forall_impl; [exact Hl|].
    intros q. apply Qclt_le_weak. }
  revert Hs. generalize (foldr Qcplus 0%Qc l). intros s Hs. qc_to_q. lra.
Qed.

Lemma mean_last_zero (n : nat) (l : list Qc) :
  Forall (λ q, q = 0%Qc) l → mean_last n l = zq 0.
Proof.
  intros Hl. unfold mean_last. rewrite foldr_Qcplus_zero by (by apply Forall_drop).
  unfold Qcdiv. by rewrite Qcmult_0_l.
Qed.

Lemma mean_last_pos (n : nat) (l : list Qc) :
  0 < n → l ≠ [] → Forall (λ q, (0 < q)%Qc) l → (zq 0 < mean_last n l)%Qc.
Proof.
  intros Hn Hne Hl. unfold mean_last.
  assert (0 < foldr Qcplus 0%Qc (drop (length l - n) l))%Qc as Hs.
  { apply foldr_Qcplus_pos; [|by apply Forall_drop].
    intros Hnil. apply (f_equal length) in Hnil. rewrite length_drop in Hnil.
    destruct l; [done|]. simpl in Hnil. lia. }
  revert Hs. generalize (foldr Qcplus 0%Qc (drop (length l - n) l)). intros s Hs.
  qc_to_q. apply Qlt_shift_div_l.
  - unfold inject_Z, Qlt. simpl. lia.
  - unfold inject_Z in *. lra.
Qed.

(** The RSI cell of a returned row, from the RSI before rounding. *)
Lemma get_stock_data_rsi yf year sym row (hist : list Bar) :
  get_stock_data yf year sym = Some row →
  history (yf sym) = Some hist →
  ∃ rsi, rsi_14 (Fin <$> (bar_close <$> hist)) = Some rsi
         ∧ RSI_14 row = if negb (isna rsi) then Num (py_round rsi 2) else Str "N/A".
Proof.
  intros Hrun Hh. unfold get_stock_data in Hrun. rewrite Hh in Hrun.
  destruct (info (yf sym)) as [i|]; [|done]. cbn [mbind option_bind] in Hrun.
  destruct (pandas.empty hist); [done|].
  apply bind_Some in Hrun as (cp & _ & Hrow).
  destruct (stock_metrics_fields sym i hist year cp row Hrow)
    as (_ & _ & (rsi & Hrsi & Hcell) & _).
  rewrite closes_finite in Hrsi. eauto.
Qed.

Lemma lookup_lt_length_pred {A : Type} (l : list A) : l ≠ [] → length l - 1 < length l.
Proof. destruct l; [done|]. simpl. lia. Qed.

Lemma day_over_day_one (R : Qc → Qc → Prop) (c : Qc) : day_over_day R [c].
Proof. intros i prev c' _ Hc. by destruct i. Qed.

Lemma day_over_day_cons (R : Qc → Qc → Prop) (a b : Qc) (l : list Qc) :
  R a b → day_over_day R (b :: l) → day_over_day R (a :: b :: l).
Proof.
  intros Hab Hl [|i] prev c Hp Hc.
  - simpl in *. congruence.
  - by apply (Hl i).
Qed.

(** X16.  With 15 bars or more and every close above the one before, the RSI
    is 100. *)
Theorem rsi_rising yf year sym row (hist : list Bar) :
  get_stock_data yf year sym = Some row →
  history (yf sym) = Some hist →
  15 ≤ length hist →
  rising (bar_close <$> hist) →
  RSI_14 row = Num (F 100).
Proof.
  intros Hrun Hh Hlen Hrise.
  destruct (get_stock_data_rsi yf year sym row hist Hrun Hh) as (rsi & Hrsi & ->).
  rewrite rsi_14_value in Hrsi by (by rewrite length_fmap).
  assert (mean_last 14 (day_losses (bar_close <$> hist)) = zq 0) as HL.
  { apply mean_last_zero, Forall_lookup. intros i x Hx.
    apply day_losses_lookup in Hx as (prev & c & Hp & Hc & ->).
    apply Qc_max_nonpos. pose proof (Hrise i prev c Hp Hc) as Hlt.
    qc_to_q. lra. }
  assert (zq 0 < mean_last 14 (day_gains (bar_close <$> hist)))%Qc as HG.
  { apply mean_last_pos; [lia| |].
    - intros Hnil. apply (f_equal length) in Hnil.
      rewrite length_day_gains, length_fmap in Hnil. simpl in Hnil. lia.
    - apply Forall_lookup. intros i x Hx.
      apply day_gains_lookup in Hx as (prev & c & Hp & Hc & ->).
      pose proof (Hrise i prev c Hp Hc) as Hlt.
      rewrite Qc_max_pos; qc_to_q; lra. }
  rewrite HL in Hrsi. apply Qc_ltb_true in HG. rewrite HG in Hrsi.
  change (Qc_eqb (zq 0) (zq 0)) with true in Hrsi. injection Hrsi as <-.
  cbn [isna negb F]. by destruct round_rsi_edges as [-> _].
Qed.

Lemma rsi_rising_witness :
  let bar (c : Z) :=
    {| bar_date := {| year := 2024; month := 3; day := 1 |};
       bar_open := zq c; bar_close := zq c |} in
  let hist := bar <$> [1; 2; 3; 4; 5; 6; 7; 8; 9; 10; 11; 12; 13; 14; 15]%Z in
  let yf (_ : string) :=
    {| info := Some {| currentPrice := None; regularMarketPrice := None;
                       regularMarketChangePercent := None |};
       history := Some hist; fast_info_last_price := None |} in
  ∃ row, get_stock_data yf 2024 "A" = Some row ∧ RSI_14 row = Num (F 100).
Proof.
  intros bar hist yf.
  destruct (get_stock_data yf 2024 "A") as [row|] eqn:Hrow;
    [|vm_compute in Hrow; discriminate].
  exists row. split; [reflexivity|].
  apply (rsi_rising yf 2024 "A" row hist Hrow eq_refl); [simpl; lia|].
  unfold rising. repeat (apply day_over_day_cons; [compute_done|]).
  apply day_over_day_one.
Defined.

(** X17.  With 15 bars or more and every close below the one before, the RSI
    is 0. *)
Theorem rsi_falling yf year sym row (hist : list Bar) :
  get_stock_data yf year sym = Some row →
  history (yf sym) = Some hist →
  15 ≤ length hist →
  falling (bar_close <$> hist) →
  RSI_14 row = Num (F 0).
Proof.
  intros Hrun Hh Hlen Hfall.
  destruct (get_stock_data_rsi yf year sym row hist Hrun Hh) as (rsi & Hrsi & ->).
  rewrite rsi_14_value in Hrsi by (by rewrite length_fmap).
  assert (mean_last 14 (day_gains (bar_close <$> hist)) = zq 0) as HG.
  { apply mean_last_zero, Forall_lookup. intros i x Hx.
    apply day_gains_lookup in Hx as (prev & c & Hp & Hc & ->).
    apply Qc_max_nonpos. pose proof (Hfall i prev c Hp Hc) as Hlt.
    qc_to_q. lra. }
  assert (zq 0 < mean_last 14 (day_losses (bar_close <$> hist)))%Qc as HL.
  { apply mean_last_pos; [lia| |].
    - intros Hnil. apply (f_equal length) in Hnil.
      rewrite length_day_losses, length_fmap in Hnil. simpl in Hnil. lia.
    - apply Forall_lookup. intros i x Hx.
      apply day_losses_lookup in Hx as (prev & c & Hp & Hc & ->).
      pose proof (Hfall i prev c Hp Hc) as Hlt.
      rewrite Qc_max_pos; qc_to_q; lra. }
  rewrite HG in Hrsi. revert Hrsi HL.
  generalize (mean_last 14 (day_losses (bar_close <$> hist))). intros L Hrsi HL.
  assert (L ≠ zq 0) as Hne by (intros ->; by apply Qclt_not_eq in HL).
  rewrite (proj2 (Qc_eqb_false _ _) Hne) in Hrsi. injection Hrsi as <-.
  assert (zq 100 - zq 100 / (zq 1 + zq 0 / L) = zq 0)%Qc as ->.
  { assert (zq 0 / L = 0)%Qc as -> by (unfold Qcdiv; apply Qcmult_0_l).
    rewrite Qcplus_0_r. by apply Qc_is_canon. }
  cbn [isna negb]. f_equal. compute_done.
Qed.

Lemma rsi_falling_witness :
  let bar (c : Z) :=
    {| bar_date := {| year := 2024; month := 3; day := 1 |};
       bar_open := zq c; bar_close := zq c |} in
  let hist := bar <$> [15; 14; 13; 12; 11; 10; 9; 8; 7; 6; 5; 4; 3; 2; 1]%Z in
  let yf (_ : string) :=
    {| info := Some {| currentPrice := None; regularMarketPrice := None;
                       regularMarketChangePercent := None |};
       history := Some hist; fast_info_last_price := None |} in
  ∃ row, get_stock_data yf 2024 "A" = Some row ∧ RSI_14 row = Num (F 0).
Proof.
  intros bar hist yf.
  destruct (get_stock_data yf 2024 "A") as [row|] eqn:Hrow;
    [|vm_compute in Hrow; discriminate].
  exists row. split; [reflexivity|].
  apply (rsi_falling yf 2024 "A" row hist Hrow eq_refl); [simpl; lia|].
  unfold falling. repeat (apply day_over_day_cons; [compute_done|]).
  apply day_over_day_one.
Defined.

(** X18.  With 15 bars or more and every close equal to the one before, the RSI
    is 50. *)
Theorem rsi_flat yf year sym row (hist : list Bar) :
  get_stock_data yf year sym = Some row →
  history (yf sym) = Some hist →
  15 ≤ length hist →
  flat (bar_close <$> hist) →
  RSI_14 row = Num (F 50).
Proof.
  intros Hrun Hh Hlen Hflat.
  destruct (get_stock_data_rsi yf year sym row hist Hrun Hh) as (rsi & Hrsi & ->).
  rewrite rsi_14_value in Hrsi by (by rewrite length_fmap).
  assert (mean_last 14 (day_gains (bar_close <$> hist)) = zq 0) as HG.
  { apply mean_last_zero, Forall_lookup. intros i x Hx.
    apply day_gains_lookup in Hx as (prev & c & Hp & Hc & ->).
    rewrite (Hflat i prev c Hp Hc). apply Qc_max_nonpos. qc_to_q. lra. }
  assert (mean_last 14 (day_losses (bar_close <$> hist)) = zq 0) as HL.
  { apply mean_last_zero, Forall_lookup. intros i x Hx.
    apply day_losses_lookup in Hx as (prev & c & Hp & Hc & ->).
    rewrite (Hflat i prev c Hp Hc). apply Qc_max_nonpos. qc_to_q. lra. }
  rewrite HG, HL in Hrsi.
  change (Qc_eqb (zq 0) (zq 0)) with true in Hrsi.
  change (Qc_ltb (zq 0) (zq 0)) with false in Hrsi. injection Hrsi as <-.
  cbn [isna negb F]. by destruct round_rsi_edges as [_ ->].
Qed.

Lemma rsi_flat_witness :
  let bar (c : Z) :=
    {| bar_date := {| year := 2024; month := 3; day := 1 |};
       bar_open := zq c; bar_close := zq c |} in
  let hist := bar <$> [7; 7; 7; 7; 7; 7; 7; 7; 7; 7; 7; 7; 7; 7; 7]%Z in
  let yf (_ : string) :=
    {| info := Some {| currentPrice := None; regularMarketPrice := None;
                       regularMarketChangePercent := None |};
       history := Some hist; fast_info_last_price := None |} in
  ∃ row, get_stock_data yf 2024 "A" = Some row ∧ RSI_14 row = Num (F 50).
Proof.
  intros bar hist yf.
  destruct (get_stock_data yf 2024 "A") as [row|] eqn:Hrow;
    [|vm_compute in Hrow; discriminate].
  exists row. split; [reflexivity|].
  apply (rsi_flat yf 2024 "A" row hist Hrow eq_refl); [simpl; lia|].
  unfold flat. repeat (apply day_over_day_cons; [compute_done|]).
  apply day_over_day_one.
Defined.

Lemma py_round_2_lower (n : Z) (q : Qc) :
  (zq n <= q * zq 100)%Qc →
  ∃ q', py_round (Fin q) 2 = Fin q' ∧ (zq n / zq 100 <= q')%Qc.
Proof.
  intros Hn. eexists. split; [reflexivity|].
  change (10 ^ Z.of_nat 2)%Z with 100%Z.
  pose proof (round_half_even_lower n (q * zq 100) Hn) as Hl.
  revert Hl. generalize (round_half_even (q * zq 100)). intros z Hl.
  rewrite Zle_Qle in Hl. qc_to_q.
  apply Qle_shift_div_l; [reflexivity|].
  unfold Qdiv. rewrite <- Qmult_assoc, (Qmult_comm (/ inject_Z 100)).
  rewrite Qmult_inv_r by discriminate. by rewrite Qmult_1_r.
Qed.

(** The 52-week return of a returned row, from the oldest close. *)
Lemma get_stock_data_year_return yf year sym row (b : Bar) (rest : list Bar) :
  get_stock_data yf year sym = Some row →
  history (yf sym) = Some (b :: rest) →
  Ret_52W row
  = py_round (fmul (fdiv (fsub (Price row) (Fin (bar_close b))) (Fin (bar_close b)))
                   (F 100)) 2.
Proof.
  intros Hrun Hh. unfold get_stock_data in Hrun. rewrite Hh in Hrun.
  destruct (info (yf sym)) as [i|]; [|done].
  cbn [mbind option_bind pandas.empty] in Hrun.
  apply bind_Some in Hrun as (cp & _ & Hrow). unfold stock_metrics in Hrow.
  apply bind_Some in Hrow as (weekly & _ & H).
  apply bind_Some in H as (monthly & _ & H).
  apply bind_Some in H as (ytd & _ & H).
  apply bind_Some in H as (yr & Hyr & H).
  apply bind_Some in H as (rsi & _ & H).
  apply bind_Some in H as (change & _ & H).
  injection H as <-. cbn in Hyr. injection Hyr as <-. done.
Qed.

(** X19.  Against a positive oldest close, a price that is not negative gives a
    52-week return of -100 percent or more. *)
Theorem year_return_at_least_minus_100 yf year sym row (b : Bar) (rest : list Bar) (p : Qc) :
  get_stock_data yf year sym = Some row →
  history (yf sym) = Some (b :: rest) →
  (zq 0 < bar_close b)%Qc →
  Price row = Fin p → (zq 0 <= p)%Qc →
  ∃ q, Ret_52W row = Fin q ∧ (zq (-100) <= q)%Qc.
Proof.
  intros Hrun Hh Hc Hp Hp0.
  rewrite (get_stock_data_year_return yf year sym row b rest Hrun Hh), Hp.
  set (c := bar_close b) in *. clearbody c.
  assert (c ≠ zq 0) as Hne by (intros ->; by apply Qclt_not_eq in Hc).
  unfold fsub, fneg, fadd, fdiv, F. rewrite (proj2 (Qc_eqb_false _ _) Hne).
  cbn [fmul].
  destruct (py_round_2_lower (-10000) ((p + - c) / c * zq 100)) as (q & Hq & Hlow).
  { assert (- zq 1 <= (p + - c) / c)%Qc as Hr.
    { qc_to_q. apply Qle_shift_div_l; [exact Hc|]. unfold inject_Z in *. lra. }
    revert Hr. generalize ((p + - c) / c)%Qc. intros r Hr.
    qc_to_q. unfold inject_Z in *. lra. }
  exists q. split; [exact Hq|].
  eapply Qcle_trans; [|exact Hlow]. by apply Qc_leb_true.
Qed.

Lemma year_return_at_least_minus_100_witness :
  let bar (c : Z) :=
    {| bar_date := {| year := 2024; month := 3; day := 1 |};
       bar_open := zq c; bar_close := zq c |} in
  let yf (_ : string) :=
    {| info := Some {| currentPrice := Some (PyNum (F 1)); regularMarketPrice := None;
                       regularMarketChangePercent := None |};
       history := Some (bar <$> [40; 5; 7]%Z); fast_info_last_price := None |} in
  ∃ row q, get_stock_data yf 2024 "A" = Some row
    ∧ Ret_52W row = Fin q ∧ (zq (-100) <= q)%Qc.
Proof.
  intros bar yf.
  destruct (get_stock_data yf 2024 "A") as [row|] eqn:Hrow;
    [|vm_compute in Hrow; discriminate].
  assert (Price row = Fin (zq 1)) as Hp.
  { assert (Price <$> get_stock_data yf 2024 "A" = Some (Fin (zq 1))) as H
      by (vm_compute; reflexivity).
    rewrite Hrow in H. by injection H. }
  destruct (year_return_at_least_minus_100 yf 2024 "A" row (bar 40%Z) [bar 5%Z; bar 7%Z]
              (zq 1) Hrow eq_refl) as (q & H1 & H2);
    [compute_done|exact Hp|compute_done|].
  exists row, q. split; [reflexivity|]. split; [exact H1|exact H2].
Defined.

End MetricsMore.

(** *** The discovery of tickers and the formatting of magnitudes *)

Section Discovery.

Lemma dict_fromkeys_acc (tickers keys : list string) :
  NoDup keys →
  ∃ rest,
    foldl (λ keys k, if decide (k ∈ keys) then keys else keys ++ [k]) keys tickers
    = keys ++ rest
    ∧ NoDup (keys ++ rest)
    ∧ rest `sublist_of` tickers.
Proof.
  revert keys. induction tickers as [|k tickers IH]; intros keys Hnd; cbn [foldl].
  - exists []. rewrite app_nil_r. done.
  - destruct (decide (k ∈ keys)) as [Hin|Hin].
    + destruct (IH keys Hnd) as (rest & -> & ? & ?).
      exists rest. repeat split; try done. by apply sublist_cons.
    + destruct (IH (keys ++ [k])) as (rest & -> & Hnd' & Hsub).
      { apply NoDup_app. repeat split; [done| |apply NoDup_singleton].
        intros x Hx ->%list_elem_of_singleton. done. }
      exists (k :: rest). rewrite <- app_assoc in *. repeat split; try done.
      by apply sublist_skip.
Qed.

Lemma dict_fromkeys_spec (tickers : list string) :
  NoDup (dict_fromkeys tickers) ∧ dict_fromkeys tickers `sublist_of` tickers.
Proof.
  unfold dict_fromkeys.
  destruct (dict_fromkeys_acc tickers [] (NoDup_nil_2)) as (rest & -> & ? & ?). done.
Qed.

Lemma looks_like_symbol_true (isupper : string → bool) (txt : string) :
  looks_like_symbol isupper txt = true →
  txt ≠ "" ∧ String.length txt ≤ 8 ∧ has_char " " txt = false
  ∧ (isupper txt = true ∨ has_char "." txt = true).
Proof.
  unfold looks_like_symbol.
  intros [[[H1 H2]%andb_true_iff H3]%andb_true_iff H4]%andb_true_iff.
  apply negb_true_iff, bool_decide_eq_false in H1.
  apply orb_true_iff in H2. apply Nat.leb_le in H3. apply negb_true_iff in H4. done.
Qed.

(** X20.  What the fallback scraper returns, whatever [str.isupper] is: at most
    25 tickers, no ticker twice, taken from the first cells of the table
    rows in page order, each a non-empty text of at most 8 characters
    without a space that is upper case or contains a dot. *)
Theorem get_day_gainers_safe_fallback (isupper : string → bool) (page : Page) :
  read_html_symbols page = None →
  let tickers := get_day_gainers_safe isupper (Some page) in
  NoDup tickers
  ∧ length tickers ≤ 25
  ∧ tickers `sublist_of` first_cells page
  ∧ Forall (λ t, t ≠ "" ∧ String.length t ≤ 8 ∧ has_char " " t = false
                 ∧ (isupper t = true ∨ has_char "." t = true)) tickers.
Proof.
  intros Hnone. cbv zeta. unfold get_day_gainers_safe. rewrite Hnone.
  set (cells := filter _ (first_cells page)).
  destruct (pandas.empty cells) eqn:Hemp.
  { repeat split; [constructor|simpl; lia|apply sublist_nil_l|constructor]. }
  destruct (dict_fromkeys_spec cells) as [Hnd Hsub].
  assert (take 25 (dict_fromkeys cells) `sublist_of` cells) as Hsub'.
  { etrans; [apply sublist_take|exact Hsub]. }
  repeat split.
  - eapply sublist_NoDup; [exact Hnd|apply sublist_take].
  - rewrite length_take. lia.
  - etrans; [exact Hsub'|apply sublist_filter].
  - apply Forall_forall. intros t Ht. apply looks_like_symbol_true.
    apply (elem_of_sublist _ _ _ Ht) in Hsub'.
    by apply list_elem_of_filter in Hsub' as [? _].
Qed.

Lemma get_day_gainers_safe_fallback_witness :
  let isupper (txt : string) := bool_decide (txt = "NVDA" ∨ txt = "AMD") in
  let page := {| read_html_symbols := None;
                 first_cells := ["Symbol"; "NVDA"; "BRK.B"; "NVDA"; "Top Gainers"; "AMD"] |} in
  get_day_gainers_safe isupper (Some page) = ["NVDA"; "BRK.B"; "AMD"]
  ∧ NoDup (get_day_gainers_safe isupper (Some page))
  ∧ length (get_day_gainers_safe isupper (Some page)) ≤ 25.
Proof.
  intros isupper page. split; [vm_compute; reflexivity|].
  destruct (get_day_gainers_safe_fallback isupper page eq_refl) as (H1 & H2 & _).
  split; [exact H1|exact H2].
Defined.

Lemma fdiv_scale (q : Qc) (k : Z) :
  (0 < k)%Z → fdiv (Fin q) (F k) = Fin (q / zq k).
Proof.
  intros Hk. unfold fdiv, F.
  assert (zq k ≠ zq 0) as Hne.
  { replace k with (Z.of_nat (Z.to_nat k)) by lia. apply zq_neq_0. lia. }
  by rewrite (proj2 (Qc_eqb_false _ _) Hne).
Qed.

Lemma scale_bounds (q : Qc) (k : Z) :
  (0 < k)%Z → (zq k <= q)%Qc →
  (zq 1 <= q / zq k)%Qc ∧ q = (q / zq k * zq k)%Qc
  ∧ ((q < zq (1000 * k))%Qc → (q / zq k < zq 1000)%Qc).
Proof.
  intros Hk Hq.
  assert (0 < inject_Z k)%Q as Hk'.
  { change 0%Q with (inject_Z 0). by rewrite <- Zlt_Qlt. }
  assert (zq k ≠ zq 0) as Hne.
  { replace k with (Z.of_nat (Z.to_nat k)) by lia. apply zq_neq_0. lia. }
  split; [|split].
  - qc_to_q. apply Qle_shift_div_l; [exact Hk'|]. unfold inject_Z at 1. lra.
  - field. exact Hne.
  - intros Hlt. qc_to_q. apply Qlt_shift_div_r; [exact Hk'|].
    rewrite inject_Z_mult in Hlt. unfold inject_Z at 1. unfold inject_Z in Hlt at 1. lra.
Qed.

(** X21.  How a finite magnitude is abbreviated.  Below 1000, negative numbers
    included, it is printed in full with two decimals.  From 1000 on it
    is printed as a mantissa of at least 1 with the suffix K, M, B or T
    of the largest of 10^3, 10^6, 10^9, 10^12 it reaches; below 10^12
    the mantissa is less than 1000 before it is rounded to two decimals. *)
Theorem format_large_number_scale (q : Qc) :
  let out := format_large_number (PyNum (Fin q)) in
  ((q < zq 1000)%Qc → out = format_2f (Fin q))
  ∧ ((zq 1000 <= q)%Qc →
       ∃ m k suffix,
         out = format_2f (Fin m) +:+ suffix
         ∧ (zq 1 <= m)%Qc ∧ q = (m * zq k)%Qc
         ∧ ((suffix = "K" ∧ k = 1000%Z ∧ (m < zq 1000)%Qc)
            ∨ (suffix = "M" ∧ k = 1000000%Z ∧ (m < zq 1000)%Qc)
            ∨ (suffix = "B" ∧ k = 1000000000%Z ∧ (m < zq 1000)%Qc)
            ∨ (suffix = "T" ∧ k = 1000000000000%Z))).
Proof.
  cbv zeta. unfold format_large_number. cbn [isna]. unfold fgeb.
  change (fleb (F 1000000000000) (Fin q)) with (Qc_leb (zq 1000000000000) q).
  change (fleb (F 1000000000) (Fin q)) with (Qc_leb (zq 1000000000) q).
  change (fleb (F 1000000) (Fin q)) with (Qc_leb (zq 1000000) q).
  change (fleb (F 1000) (Fin q)) with (Qc_leb (zq 1000) q).
  destruct (Qc_leb (zq 1000000000000) q) eqn:HT;
    [|destruct (Qc_leb (zq 1000000000) q) eqn:HB;
      [|destruct (Qc_leb (zq 1000000) q) eqn:HM;
        [|destruct (Qc_leb (zq 1000) q) eqn:HK]]].
  - apply Qc_leb_true in HT. split.
    + intros Hlt. exfalso. qc_to_q. unfold inject_Z in *. lra.
    + intros _. destruct (scale_bounds q 1000000000000) as (H1 & H2 & _); [lia|done|].
      exists (q / zq 1000000000000)%Qc, 1000000000000%Z, "T".
      rewrite fdiv_scale by lia.
      split; [done|]. split; [exact H1|]. split; [exact H2|]. by do 3 right.
  - apply Qc_leb_true in HB. apply Qc_leb_false in HT. split.
    + intros Hlt. exfalso. qc_to_q. unfold inject_Z in *. lra.
    + intros _. destruct (scale_bounds q 1000000000) as (H1 & H2 & H3); [lia|done|].
      exists (q / zq 1000000000)%Qc, 1000000000%Z, "B".
      rewrite fdiv_scale by lia.
      split; [done|]. split; [exact H1|]. split; [exact H2|].
      right. right. left. split; [done|]. split; [done|]. by apply H3.
  - apply Qc_leb_true in HM. apply Qc_leb_false in HB. split.
    + intros Hlt. exfalso. qc_to_q. unfold inject_Z in *. lra.
    + intros _. destruct (scale_bounds q 1000000) as (H1 & H2 & H3); [lia|done|].
      exists (q / zq 1000000)%Qc, 1000000%Z, "M".
      rewrite fdiv_scale by lia.
      split; [done|]. split; [exact H1|]. split; [exact H2|].
      right. left. split; [done|]. split; [done|]. by apply H3.
  - apply Qc_leb_true in HK. apply Qc_leb_false in HM. split.
    + intros Hlt. exfalso. qc_to_q. unfold inject_Z in *. lra.
    + intros _. destruct (scale_bounds q 1000) as (H1 & H2 & H3); [lia|done|].
      exists (q / zq 1000)%Qc, 1000%Z, "K".
      rewrite fdiv_scale by lia.
      split; [done|]. split; [exact H1|]. split; [exact H2|].
      left. split; [done|]. split; [done|]. by apply H3.
  - apply Qc_leb_false in HK. split; [done|].
    intros Hge. exfalso. by eapply Qclt_not_le.
Qed.

(** Magnitudes in figures: 2.5 billion, a volume of 713 million, a value
    just under a million (whose mantissa rounds up to 1000.00), a small
    and a negative number, and the two missing values. *)
Example format_large_number_figures :
  format_large_number (PyNum (F 2500000000)) = "2.50B"
  ∧ format_large_number (PyNum (F 713400000)) = "713.40M"
  ∧ format_large_number (PyNum (Fin (Q2Qc (999999999 # 1000)))) = "1000.00K"
  ∧ format_large_number (PyNum (Fin (Q2Qc (12346 # 1000)))) = "12.35"
  ∧ format_large_number (PyNum (F (-5000000000))) = "-5000000000.00"
  ∧ format_large_number (PyNum (F 1500000000000)) = "1.50T"
  ∧ format_large_number PyNone = "N/A"
  ∧ format_large_number (PyNum NaN) = "N/A".
Proof. repeat split; vm_compute; reflexivity. Qed.

End Discovery.

(** *** Which tickers the scan drops *)

Section Dropped.

Implicit Types (yf : string → Ticker).

Lemma stock_metrics_change sym (i : Info) (hist : list Bar) year cp row :
  stock_metrics sym i hist year cp = Some row →
  is_Some (times_100 (dict_get (regularMarketChangePercent i) (PyNum (F 0)))).
Proof.
  unfold stock_metrics. cbv zeta. intros H.
  do 5 (apply bind_Some in H as (? & ? & H)).
  destruct (times_100 _); [eauto|discriminate].
Qed.

(** X22.  Which tickers the scan keeps: [get_stock_data] returns a row exactly
    when the fundamentals and the history load, the history is not empty,
    and the [regularMarketChangePercent] entry is not a null; a null there
    makes the product by 100 raise, and the ticker is dropped like one
    without data. *)
Theorem get_stock_data_returns_iff yf year sym :
  is_Some (get_stock_data yf year sym)
  ↔ ∃ i hist, info (yf sym) = Some i ∧ history (yf sym) = Some hist ∧ hist ≠ []
      ∧ regularMarketChangePercent i ≠ Some PyNone.
Proof.
  split.
  - intros [row Hrow].
    destruct (get_stock_data_Some _ _ _ _ Hrow) as (i & hist & Hi & Hh & Hne & _ & Hcp).
    exists i, hist. do 3 (split; [done|]).
    rewrite (get_stock_data_run _ _ _ _ _ Hi Hh Hne), Hcp in Hrow. simpl in Hrow.
    apply stock_metrics_change in Hrow as [c Hc].
    intros Hnull. rewrite Hnull in Hc. discriminate.
  - intros (i & hist & Hi & Hh & Hne & Hc).
    rewrite (get_stock_data_run _ _ _ _ _ Hi Hh Hne).
    destruct (current_price_of_total i ((λ b, Fin (bar_close b)) <$> hist)) as [cp ->].
    { by destruct hist. }
    simpl. apply stock_metrics_total; [done|].
    destruct (regularMarketChangePercent i) as [[|x]|]; simpl; eauto. done.
Qed.

End Dropped.

(** *** More on the discovery *)

Section DiscoveryMore.

Lemma dict_fromkeys_elem_of (tickers keys : list string) (t : string) :
  t ∈ keys ∨ t ∈ tickers →
  t ∈ foldl (λ keys k, if decide (k ∈ keys) then keys else keys ++ [k]) keys tickers.
Proof.
  revert keys. induction tickers as [|k tickers IH]; intros keys [H|H]; cbn [foldl].
  - done.
  - by apply elem_of_nil in H.
  - apply IH. left. destruct (decide (k ∈ keys)); [done|]. apply elem_of_app. by left.
  - apply IH. apply elem_of_cons in H as [->|H]; [|by right].
    left. destruct (decide (k ∈ keys)); [done|]. apply elem_of_app. right.
    by apply list_elem_of_singleton.
Qed.

(** X23.  The fallback scraper loses nothing below its cap: when the page has
    at most 25 first cells that look like a symbol, every one of them is
    returned. *)
Theorem get_day_gainers_safe_fallback_complete (isupper : string → bool) (page : Page)
    (t : string) :
  read_html_symbols page = None →
  length (filter (λ txt, looks_like_symbol isupper txt = true) (first_cells page)) ≤ 25 →
  t ∈ first_cells page → looks_like_symbol isupper t = true →
  t ∈ get_day_gainers_safe isupper (Some page).
Proof.
  intros Hnone Hlen Ht Hsym. unfold get_day_gainers_safe. rewrite Hnone.
  set (cells := filter _ (first_cells page)) in *.
  assert (t ∈ cells) as Hin by (by apply list_elem_of_filter).
  destruct (pandas.empty cells) eqn:Hemp.
  { destruct cells; [by apply elem_of_nil in Hin|discriminate]. }
  rewrite take_ge.
  - apply dict_fromkeys_elem_of. by right.
  - destruct (dict_fromkeys_spec cells) as [_ Hsub].
    apply sublist_length in Hsub. lia.
Qed.

Lemma get_day_gainers_safe_fallback_complete_witness :
  let isupper (txt : string) := bool_decide (txt ∈ ["NVDA"; "AMD"; "Symbol"]) in
  let page := {| read_html_symbols := None;
                 first_cells := ["NVDA"; "BRK.B"; "Top gainers"; "NVDA"; "AMD"] |} in
  "BRK.B" ∈ get_day_gainers_safe isupper (Some page).
Proof.
  intros isupper page.
  apply (get_day_gainers_safe_fallback_complete isupper page "BRK.B");
    [reflexivity|vm_compute; lia|set_solver|reflexivity].
Defined.

End DiscoveryMore.
